(** * Vex-Cogs: the birthday cog's commands and the ghissues button predicate

    A shallow embedding of
    - [src/birthday/commands.py]: [BirthdayCommands.set], [BirthdayCommands.upcoming],
      [BirthdayAdminCommands.interactive] (its time computation),
      [BirthdayAdminCommands.time], [msgwithoutyear], [msgwithyear], [force];
    - [src/ghissues/button_pred.py]: [wait_for_press];
    together with the part of Python's [datetime] module these commands use.
    Further modules cover [remove], the whole dialogue of [interactive],
    [settings], [time] with its reply, [channel], [role], the import of
    [zemigrate], and [wait_for_yes_no] with [interaction_check].

    Commands are modelled by explicit state passing: a [world] holds the
    configuration store and the trace of effects performed so far; a command
    maps a world to a new world and an [outcome] (normal return or a raised
    exception). *)

From Stdlib Require Import ZArith String List Lia Bool.
From stdpp Require Import base option list sorting gmap pretty.

Local Open Scope string_scope.
Local Open Scope Z_scope.

(** ** Outcomes of fallible Python code *)

Inductive exn : Type :=
| ValueError
| TimeoutError.

Inductive outcome (A : Type) : Type :=
| Ret (a : A)
| Raise (e : exn).
Arguments Ret {A} a.
Arguments Raise {A} e.

Definition obind {A B : Type} (c : outcome A) (k : A -> outcome B) : outcome B :=
  match c with
  | Ret a => k a
  | Raise e => Raise e
  end.

Notation "'try!' x <- c ; k" := (obind c (fun x => k))
  (at level 10, x name, c at level 100, k at level 200).

(** [for x in xs: st = body(st, x)] where the body may raise. *)
Fixpoint for_each {S A : Type} (body : S -> A -> outcome S) (xs : list A) (st : S)
  : outcome S :=
  match xs with
  | [] => Ret st
  | x :: xs' => try! st' <- body st x; for_each body xs' st'
  end.

(** Exceptions that [exn] does not name, for the code that meets them. *)
Inductive failure : Type :=
| Exn (e : exn)
| TypeError
| AttributeError
| UnboundLocalError
| ParserError
| TimestampOutOfRange
| OverflowError.

Inductive result (A : Type) : Type :=
| Done (a : A)
| Failed (f : failure).
Arguments Done {A} a.
Arguments Failed {A} f.

(** ** Python's [datetime] *)

Module PyDatetime.

Definition MINYEAR : Z := 1.
Definition MAXYEAR : Z := 9999.

Record datetime : Type := mkdt {
  year : Z; month : Z; day : Z;
  hour : Z; minute : Z; second : Z; microsecond : Z
}.

Definition _is_leap (y : Z) : bool :=
  (y mod 4 =? 0) && (negb (y mod 100 =? 0) || (y mod 400 =? 0)).

Definition _DAYS_IN_MONTH (m : Z) : Z :=
  match m with
  | 1 => 31 | 2 => 28 | 3 => 31 | 4 => 30 | 5 => 31 | 6 => 30
  | 7 => 31 | 8 => 31 | 9 => 30 | 10 => 31 | 11 => 30 | 12 => 31
  | _ => -1
  end.

Definition _DAYS_BEFORE_MONTH (m : Z) : Z :=
  match m with
  | 1 => 0 | 2 => 31 | 3 => 59 | 4 => 90 | 5 => 120 | 6 => 151
  | 7 => 181 | 8 => 212 | 9 => 243 | 10 => 273 | 11 => 304 | 12 => 334
  | _ => -1
  end.

Definition _days_before_year (y : Z) : Z :=
  let y' := y - 1 in y' * 365 + y' / 4 - y' / 100 + y' / 400.

Definition _days_in_month (y m : Z) : Z :=
  if (m =? 2) && _is_leap y then 29 else _DAYS_IN_MONTH m.

Definition _days_before_month (y m : Z) : Z :=
  _DAYS_BEFORE_MONTH m + (if (2 <? m) && _is_leap y then 1 else 0).

Definition _ymd2ord (y m d : Z) : Z :=
  _days_before_year y + _days_before_month y m + d.

Definition _check_date_fields (y m d : Z) : bool :=
  (MINYEAR <=? y) && (y <=? MAXYEAR) &&
  (1 <=? m) && (m <=? 12) &&
  (1 <=? d) && (d <=? _days_in_month y m).

Definition _check_time_fields (h mi s us : Z) : bool :=
  (0 <=? h) && (h <=? 23) && (0 <=? mi) && (mi <=? 59) &&
  (0 <=? s) && (s <=? 59) && (0 <=? us) && (us <=? 999999).

(** The invariant of every [datetime] object Python can build. *)
Definition valid (dt : datetime) : bool :=
  _check_date_fields (year dt) (month dt) (day dt) &&
  _check_time_fields (hour dt) (minute dt) (second dt) (microsecond dt).

(** [datetime.datetime(year=, month=, day=)]: the time fields default to 0;
    out-of-range fields raise [ValueError]. *)
Definition new (y m d : Z) : outcome datetime :=
  if _check_date_fields y m d then Ret (mkdt y m d 0 0 0 0) else Raise ValueError.

(** [dt.replace(year=y)] *)
Definition replace_year (dt : datetime) (y : Z) : outcome datetime :=
  if _check_date_fields y (month dt) (day dt)
  then Ret (mkdt y (month dt) (day dt) (hour dt) (minute dt) (second dt) (microsecond dt))
  else Raise ValueError.

(** [dt.replace(hour=0, minute=0, second=0, microsecond=0)]: cannot raise. *)
Definition replace_midnight (dt : datetime) : datetime :=
  mkdt (year dt) (month dt) (day dt) 0 0 0 0.

(** [dt.replace(year=1, month=1, day=1)]: 0001-01-01 is a date, so it
    cannot raise (the [tzinfo] of an aware value is unchanged by this
    model, which has a single time zone, UTC). *)
Definition replace_epoch_day (dt : datetime) : datetime :=
  mkdt 1 1 1 (hour dt) (minute dt) (second dt) (microsecond dt).

Definition toordinal (dt : datetime) : Z :=
  _ymd2ord (year dt) (month dt) (day dt).

(** Comparison of two naive datetimes: lexicographic on the seven fields. *)
Fixpoint lex_cmp (xs ys : list Z) : comparison :=
  match xs, ys with
  | x :: xs', y :: ys' =>
      match Z.compare x y with
      | Eq => lex_cmp xs' ys'
      | c => c
      end
  | [], [] => Eq
  | [], _ :: _ => Lt
  | _ :: _, [] => Gt
  end.

Definition fields (dt : datetime) : list Z :=
  [year dt; month dt; day dt; hour dt; minute dt; second dt; microsecond dt].

Definition _cmp (a b : datetime) : comparison := lex_cmp (fields a) (fields b).

Definition gt (a b : datetime) : bool :=
  match _cmp a b with Gt => true | _ => false end.

(** [timedelta], normalised as Python does: [0 <= microseconds < 10^6],
    [0 <= seconds < 86400]. *)
Record timedelta : Type := mktd { days : Z; seconds : Z; microseconds : Z }.

Definition new_timedelta (d s us : Z) : timedelta :=
  let s1 := s + us / 1000000 in
  mktd (d + s1 / 86400) (s1 mod 86400) (us mod 1000000).

(** [a - b] on datetimes *)
Definition sub (a b : datetime) : timedelta :=
  let secs1 := second a + minute a * 60 + hour a * 3600 in
  let secs2 := second b + minute b * 60 + hour b * 3600 in
  new_timedelta (toordinal a - toordinal b) (secs1 - secs2)
                (microsecond a - microsecond b).

(** [int(td.total_seconds())]: [total_seconds] is the exact quotient
    [((days * 86400 + seconds) * 10^6 + microseconds) / 10^6] and [int]
    truncates towards zero. *)
Definition int_total_seconds (td : timedelta) : Z :=
  Z.quot ((days td * 86400 + seconds td) * 1000000 + microseconds td) 1000000.

Definition month_name (m : Z) : string :=
  match m with
  | 1 => "January" | 2 => "February" | 3 => "March" | 4 => "April"
  | 5 => "May" | 6 => "June" | 7 => "July" | 8 => "August"
  | 9 => "September" | 10 => "October" | 11 => "November" | 12 => "December"
  | _ => ""
  end.

Definition two_digits (n : Z) : string :=
  if n <? 10 then "0" +:+ pretty n else pretty n.

(** [dt.strftime("%B %d")] *)
Definition strftime_B_d (dt : datetime) : string :=
  month_name (month dt) +:+ " " +:+ two_digits (day dt).

End PyDatetime.

(** ** The birthday cog: [src/birthday/commands.py] *)

Module Birthday.
Import PyDatetime.

(** *** Configuration store and effects *)

(** The dict kept under [config.member(m).birthday]. *)
Record bday : Type := mkbday {
  bd_year : option Z;      (* [None]: year not specified *)
  bd_month : Z;
  bd_day : Z
}.

(** The dict kept under [config.guild(g)]. *)
Record guild_conf : Type := mkconf {
  time_utc_s : option Z;
  message_w_year : option string;
  message_wo_year : option string;
  channel_id : option Z;
  role_id : option Z;
  setup_state : Z
}.

Definition default_conf : guild_conf := mkconf None None None None None 0.

Record embed : Type := mkembed {
  title : string;
  colour : Z;
  description : option string;
  embed_fields : list (option string * string)   (* (name, value) *)
}.

Inductive event : Type :=
| Send (content : string)                    (* [ctx.send(content)] *)
| SendUserMentions (content : string)        (* [ctx.send(content, allowed_mentions=...)] *)
| SendEmbed (e : embed)                      (* [ctx.send(embed=e)] *)
| TriggerTyping                              (* [ctx.trigger_typing()] *)
| ReadAllMembers (guild : Z)                 (* [config.all_members(guild)] *)
| OpenMemberBirthday (guild member : Z)      (* [config.member(m).birthday()] *)
| OpenGuildAll (guild : Z).                  (* [config.guild(g).all()] *)

Record world : Type := mkworld {
  member_store : gmap Z (gmap Z bday);       (* guild id -> member id -> birthday *)
  guild_store : gmap Z guild_conf;           (* guild id -> settings *)
  trace : list event                         (* effects so far, oldest first *)
}.

Definition log (ev : event) (w : world) : world :=
  mkworld (member_store w) (guild_store w) (trace w ++ [ev])%list.

Definition send (content : string) (w : world) : world := log (Send content) w.

Definition all_members (gid : Z) (w : world) : gmap Z bday :=
  default ∅ (member_store w !! gid).

Definition write_birthday (gid mid : Z) (b : bday) (w : world) : world :=
  mkworld (<[gid := <[mid := b]> (all_members gid w)]> (member_store w))
          (guild_store w)
          (trace w ++ [OpenMemberBirthday gid mid])%list.

Definition guild_all (gid : Z) (w : world) : guild_conf :=
  default default_conf (guild_store w !! gid).

Definition write_guild (gid : Z) (c : guild_conf) (w : world) : world :=
  mkworld (member_store w) (<[gid := c]> (guild_store w))
          (trace w ++ [OpenGuildAll gid])%list.

(** What a command sees of its invocation context. *)
Record guild : Type := mkguild {
  guild_id : Z;
  guild_members : gset Z                     (* ids [guild.get_member] resolves *)
}.

Record context : Type := mkctx {
  ctx_guild : guild;
  ctx_author : Z;
  embed_colour : Z
}.

Record member : Type := mkmember { member_id : Z }.

Definition get_member (g : guild) (mid : Z) : option member :=
  if decide (mid ∈ guild_members g) then Some (mkmember mid) else None.

(** [member.mention], as discord.py renders it for a member id. *)
Definition mention (m : member) : string := "<@" +:+ pretty (member_id m) +:+ ">".

(** *** [BirthdayCommands.upcoming] *)

(** One line of a field of the embed. [e_text] is the string the source
    appends to [parsed_bdays[k]]; [e_member] and [e_age] record which member
    and which age (if any) that string shows. *)
Record entry : Type := mkentry {
  e_member : Z;
  e_age : option Z;
  e_text : string
}.

(** [member.mention + ("" if birthday_dt.year == 1 else f" <verb> {age}")] *)
Definition make_entry (m : member) (verb : string) (today_dt birthday_dt : datetime)
  : entry :=
  if year birthday_dt =? 1
  then mkentry (member_id m) None (mention m +:+ "")
  else mkentry (member_id m) (Some (year today_dt - year birthday_dt))
               (mention m +:+ (" " +:+ verb +:+ " "
                               +:+ pretty (year today_dt - year birthday_dt))).

(** [x or 1] on an optional int: [None] and [0] are falsy. *)
Definition year_or_1 (y : option Z) : Z :=
  match y with
  | Some v => if v =? 0 then 1 else v
  | None => 1
  end.

(** Lines 146-148: the date of the next birthday strictly after today. *)
Definition next_birthday (today_dt birthday_dt : datetime) : outcome datetime :=
  try! this_year_bday <- replace_year birthday_dt (year today_dt);
  try! next_year_bday <- replace_year birthday_dt (year today_dt + 1);
  Ret (if gt this_year_bday today_dt then this_year_bday else next_year_bday).

(** One iteration of the loop over [all_birthdays.items()], lines 124-162:
    [Ret None] is a [continue] that adds nothing; [Ret (Some (k, e, name))]
    appends [e] to [parsed_bdays[k]] and sets [number_day_mapping[k] = name]. *)
Definition classify (g : guild) (today_dt : datetime) (days : Z) (item : Z * bday)
  : outcome (option (Z * entry * string)) :=
  match get_member g item.1 with
  | None => Ret None
  | Some m =>
      try! birthday_dt <-
        new (year_or_1 (bd_year item.2)) (bd_month item.2) (bd_day item.2);
      if (month today_dt =? month birthday_dt) && (day today_dt =? day birthday_dt)
      then Ret (Some (0, make_entry m "turns" today_dt birthday_dt, "Today"))
      else
        try! next_birthday_dt <- next_birthday today_dt birthday_dt;
        let diff := sub next_birthday_dt today_dt in
        if days <? PyDatetime.days diff then Ret None
        else Ret (Some (PyDatetime.days diff,
                        make_entry m "will turn" today_dt birthday_dt,
                        strftime_B_d next_birthday_dt))
  end.

(** [parsed_bdays[k].append(e)] on a [defaultdict(list)] *)
Definition dict_append (k : Z) (e : entry) (d : gmap Z (list entry))
  : gmap Z (list entry) :=
  <[k := (default [] (d !! k) ++ [e])%list]> d.

Definition loop_state : Type := gmap Z (list entry) * gmap Z string.

Definition loop_body (g : guild) (today_dt : datetime) (days : Z)
  (st : loop_state) (item : Z * bday) : outcome loop_state :=
  try! r <- classify g today_dt days item;
  Ret (match r with
       | None => st
       | Some (k, e, name) => (dict_append k e st.1, <[k := name]> st.2)
       end).

(** Lines 116-162: [(parsed_bdays, number_day_mapping)] after the loop.
    The records are visited in the order of [map_to_list]; since the groups
    are sorted by key afterwards, the order of the visit only shows in the
    order of the lines within one field. *)
Definition parse_bdays (g : guild) (now : datetime) (days : Z)
  (all_birthdays : gmap Z bday) : outcome loop_state :=
  let today_dt := replace_midnight now in
  for_each (loop_body g today_dt days) (map_to_list all_birthdays) (∅, ∅).

Definition key_le (a b : Z * list entry) : Prop := a.1 <= b.1.

#[global] Instance key_le_dec (a b : Z * list entry) : Decision (key_le a b) :=
  Z_le_dec a.1 b.1.

(** [sorted(parsed_bdays.items(), key=lambda x: x[0])] *)
Definition sorted_items (parsed_bdays : gmap Z (list entry)) : list (Z * list entry) :=
  merge_sort key_le (map_to_list parsed_bdays).

(** ["\n".join(members)] *)
Fixpoint join_lines (xs : list string) : string :=
  match xs with
  | [] => ""
  | x :: xs' =>
      match xs' with
      | [] => x
      | _ :: _ => x +:+ String (Ascii.ascii_of_nat 10) (join_lines xs')
      end
  end.

Definition make_embed (col : Z) (st : loop_state) : embed :=
  mkembed "Upcoming Birthdays" col
    (if decide (25 < size st.1)%nat
     then Some "Too many days to display. I've had to stop at 25." else None)
    (map (fun it : Z * list entry => (st.2 !! it.1, join_lines (map e_text it.2)))
         (sorted_items st.1)).

Definition range_message : string :=
  "You must enter a number of days greater than 0 and smaller than 365.".

Definition upcoming (ctx : context) (now : datetime) (days : Z) (w : world)
  : world * outcome unit :=
  if (days <? 1) || (365 <? days) then (send range_message w, Ret tt)
  else
    let gid := guild_id (ctx_guild ctx) in
    let w1 := log (ReadAllMembers gid) w in
    match parse_bdays (ctx_guild ctx) now days (all_members gid w) with
    | Raise e => (w1, Raise e)
    | Ret st =>
        if decide (size st.1 = 0%nat) then (send "No upcoming birthdays." w1, Ret tt)
        else (log (SendEmbed (make_embed (embed_colour ctx) st)) w1, Ret tt)
    end.

(** *** Commands that write the store *)

Section Commands.
(** [consts.py] and [utils.py] are not part of the sources at hand: the
    two constants and the template formatter are parameters. *)
Variable MIN_BDAY_YEAR : Z.
Variable MAX_BDAY_MSG_LEN : Z.
Variable format_bday_message : string -> Z -> option Z -> outcome string.

(** [birthday.strftime("%B %d, %Y")] *)
Definition strftime_B_d_Y (dt : datetime) : string :=
  strftime_B_d dt +:+ ", " +:+ pretty (year dt).

(** Lines 71-79 and 573-581: write the record, build the date text.
    A [birthday] whose year is 1 means that no year was given. *)
Definition store_birthday (gid mid : Z) (birthday : datetime) (w : world)
  : world * string :=
  let w1 := write_birthday gid mid
              (mkbday (if year birthday =? 1 then None else Some (year birthday))
                      (month birthday) (day birthday)) w in
  (w1, if year birthday =? 1 then strftime_B_d birthday else strftime_B_d_Y birthday).

(** [BirthdayCommands.set] *)
Definition set (ctx : context) (now birthday : datetime) (w : world)
  : world * outcome unit :=
  if negb (year birthday =? 1) && (year birthday <? MIN_BDAY_YEAR) then
    (send ("I'm sorry, but I can't set your birthday to before "
           +:+ pretty MIN_BDAY_YEAR +:+ ".") w, Ret tt)
  else if gt birthday now then
    (send "You can't be born in the future!" w, Ret tt)
  else
    let '(w1, str_bday) :=
      store_birthday (guild_id (ctx_guild ctx)) (ctx_author ctx) birthday w in
    (send ("Your birthday has been set as " +:+ str_bday +:+ ".") w1, Ret tt).

(** [BirthdayAdminCommands.force]; [user] is the target member's id and
    [user_name] its [name]. *)
Definition force (ctx : context) (now : datetime) (user : Z) (user_name : string)
  (birthday : datetime) (w : world) : world * outcome unit :=
  if negb (year birthday =? 1) && (year birthday <? MIN_BDAY_YEAR) then
    (send ("I'm sorry, but I can't set a birthday to before "
           +:+ pretty MIN_BDAY_YEAR +:+ ".") w, Ret tt)
  else if gt birthday now then
    (send "You can't be born in the future!" w, Ret tt)
  else
    let '(w1, str_bday) :=
      store_birthday (guild_id (ctx_guild ctx)) user birthday w in
    (send (user_name +:+ "'s birthday has been set as " +:+ str_bday +:+ ".") w1,
     Ret tt).

(** [now.replace(year=1, month=1, day=1, hour=0, minute=0, second=0,
    microsecond=0)] *)
Definition midnight_of (now : datetime) : datetime := mkdt 1 1 1 0 0 0 0.

(** Lines 356-363 of [interactive]: [parsed] is what [time_parser]
    returned for the reply accepted by [time_check]. *)
Definition interactive_time_utc_s (now parsed : datetime) : Z :=
  let full_time := replace_epoch_day parsed in
  let midnight := midnight_of now in
  int_total_seconds (sub full_time midnight).

(** Lines 356-380 of [interactive]: the end of the setup dialogue, once
    every answer has been collected. *)
Definition interactive_finish (ctx : context) (clean_prefix : string)
  (now parsed : datetime) (msg_w_year msg_wo_year : string) (channel role : Z)
  (w : world) : world * outcome unit :=
  let time_utc_s := interactive_time_utc_s now parsed in
  let w1 := log TriggerTyping w in
  let w2 := write_guild (guild_id (ctx_guild ctx))
              (mkconf (Some time_utc_s) (Some msg_w_year) (Some msg_wo_year)
                      (Some channel) (Some role) 5) w1 in
  let p := clean_prefix in
  (send ("All set! You can change these settings at any time with `" +:+ p
         +:+ "bdset` and view them with `" +:+ p
         +:+ "bdset settings`. Members can now use `" +:+ p
         +:+ "birthday add` to add their birthday.") w2, Ret tt).

Definition set_time_utc_s (v : Z) (c : guild_conf) : guild_conf :=
  mkconf (Some v) (message_w_year c) (message_wo_year c) (channel_id c) (role_id c)
         (if time_utc_s c is None then setup_state c + 1 else setup_state c).

(** Lines 423-434 of [BirthdayAdminCommands.time], up to the write of the
    store; [time] is the value the [TimeConverter] produced. The reply
    that follows does not touch the store. *)
Definition time_store (ctx : context) (now time : datetime) (w : world) : world :=
  let midnight := midnight_of now in
  let time_utc_s := int_total_seconds (sub time midnight) in
  let gid := guild_id (ctx_guild ctx) in
  write_guild gid (set_time_utc_s time_utc_s (guild_all gid w)) w.

Definition too_long_message : string :=
  "That message is too long! It needs to be under 750 characters.".

Definition set_message_wo_year (message : string) (c : guild_conf) : guild_conf :=
  mkconf (time_utc_s c) (message_w_year c) (Some message) (channel_id c) (role_id c)
         (if message_wo_year c is None then setup_state c + 1 else setup_state c).

Definition set_message_w_year (message : string) (c : guild_conf) : guild_conf :=
  mkconf (time_utc_s c) (Some message) (message_wo_year c) (channel_id c) (role_id c)
         (if message_w_year c is None then setup_state c + 1 else setup_state c).

(** [BirthdayAdminCommands.msgwithoutyear] *)
Definition msgwithoutyear (ctx : context) (message : string) (w : world)
  : world * outcome unit :=
  let w1 := if MAX_BDAY_MSG_LEN <? Z.of_nat (String.length message)
            then send too_long_message w else w in
  let gid := guild_id (ctx_guild ctx) in
  let w2 := write_guild gid (set_message_wo_year message (guild_all gid w1)) w1 in
  let w3 := send "Message set. Here's how it will look:" w2 in
  match format_bday_message message (ctx_author ctx) None with
  | Raise e => (w3, Raise e)
  | Ret text => (log (SendUserMentions text) w3, Ret tt)
  end.

(** [BirthdayAdminCommands.msgwithyear] *)
Definition msgwithyear (ctx : context) (message : string) (w : world)
  : world * outcome unit :=
  let w1 := if MAX_BDAY_MSG_LEN <? Z.of_nat (String.length message)
            then send too_long_message w else w in
  let gid := guild_id (ctx_guild ctx) in
  let w2 := write_guild gid (set_message_w_year message (guild_all gid w1)) w1 in
  let w3 := send "Message set. Here's how it will look, if you're turning 20:" w2 in
  match format_bday_message message (ctx_author ctx) (Some 20) with
  | Raise e => (w3, Raise e)
  | Ret text => (log (SendUserMentions text) w3, Ret tt)
  end.

End Commands.

End Birthday.

(** ** The button predicate: [src/ghissues/button_pred.py] *)

Module ButtonPred.

Section WithRef.
(** The type of the references attached to buttons ([Any] in the source);
    Python's [None] is [None] of [option Ref]. *)
Variable Ref : Type.

Record PredItem : Type := mkitem {
  ref : option Ref;
  style : Z;
  label : string;
  row : option Z
}.

Record _PredButton : Type := mkbutton {
  b_ref : option Ref;
  b_style : Z;
  b_label : string;
  b_row : option Z
}.

(** [_PredButton(ref, style, label, row)]. The constructor of
    [discord.ui.Button] ends with [self.row = row], and the setter of
    [Item.row] keeps [None] and a row with [5 > value >= 0] and raises
    [ValueError] for any other (discord.py, [ui/item.py]; the library is
    not part of the sources). *)
Definition new_button (ref : option Ref) (style : Z) (label : string) (row : option Z)
  : outcome _PredButton :=
  match row with
  | None => Ret (mkbutton ref style label None)
  | Some value =>
      if (value <? 5) && (0 <=? value) then Ret (mkbutton ref style label (Some value))
      else Raise ValueError
  end.

(** A view holds, besides its children, the width taken on each of its five
    rows ([View.__weights], a [_ViewWeights] of discord.py's [ui/view.py]). *)
Record _PredView : Type := mkview {
  v_timeout : Z;
  v_ref : option Ref;
  v_author_id : Z;
  v_children : list _PredButton;
  v_weights : list Z
}.

(** [_PredView(timeout, author_id)]: the class declares no component, so
    the view starts without children and with five empty rows. *)
Definition new_view (timeout author_id : Z) : _PredView :=
  mkview timeout None author_id [] [0; 0; 0; 0; 0].

(** [_ViewWeights.find_open_space(item)] for a button, whose width is 1:
    the first row with [weight + item.width <= 5], and [ValueError] when
    there is none. *)
Fixpoint find_open_space (weights : list Z) : outcome nat :=
  match weights with
  | [] => Raise ValueError
  | weight :: rest =>
      if weight + 1 <=? 5 then Ret 0%nat
      else try! index <- find_open_space rest; Ret (S index)
  end.

(** [_ViewWeights.add_item(item)] for a button: with a row,
    [total = self.weights[item.row] + item.width] and [ValueError] when
    [total > 5]; without one, the first open row. A button's row lies in
    0..4 ([new_button]), so [self.weights[item.row]] is always one of the
    five rows (lemma [new_button_row_found]); the last case of the lookup
    is there for totality only. *)
Definition weights_add_item (weights : list Z) (b : _PredButton) : outcome (list Z) :=
  match b_row b with
  | Some row =>
      match weights !! Z.to_nat row with
      | Some weight =>
          let total := weight + 1 in
          if 5 <? total then Raise ValueError
          else Ret (<[Z.to_nat row := total]> weights)
      | None => Raise ValueError
      end
  | None =>
      try! index <- find_open_space weights;
      Ret (alter (fun weight => weight + 1) index weights)
  end.

(** [view.add_item(button)] (discord.py, [View.add_item]): [ValueError]
    when the view has 25 children already, then the checks of the weights,
    then [self._children.append(item)]. *)
Definition add_item (v : _PredView) (b : _PredButton) : outcome _PredView :=
  if 25 <=? Z.of_nat (length (v_children v)) then Raise ValueError
  else
    try! weights <- weights_add_item (v_weights v) b;
    Ret (mkview (v_timeout v) (v_ref v) (v_author_id v) (v_children v ++ [b])%list weights).

Inductive event : Type :=
| ViewCreated (timeout author_id : Z)
| ItemAdded (b : _PredButton)
| CtxSend (content embed : option string) (view : _PredView)
| Waited (timeout : Z).

(** [_PredButton.callback]: [self.view.ref = self.ref] *)
Definition callback (b : _PredButton) (v : _PredView) : _PredView :=
  mkview (v_timeout v) (b_ref b) (v_author_id v) (v_children v) (v_weights v).

(** [asyncio.wait_for(_press_wait(view), timeout)]: [pressed] is the index
    of the button the author presses before the timeout, if any.
    [_press_wait] returns once [view.ref] is not [None]; otherwise the
    timeout fires. *)
Definition wait_for_ref (v : _PredView) (pressed : option nat) : outcome Ref :=
  let v' := match pressed with
            | Some i => match v_children v !! i with
                        | Some b => callback b v
                        | None => v
                        end
            | None => v
            end in
  match v_ref v' with
  | Some r => Ret r
  | None => Raise TimeoutError
  end.

(** Lines 103-105: the loop that makes a button of each item and adds it to
    the view. An exception of the constructor or of [add_item] ends the
    loop; the trace then holds the buttons added before it. *)
Fixpoint add_items (items : list PredItem) (view : _PredView) (tr : list event)
  : list event * outcome _PredView :=
  match items with
  | [] => (tr, Ret view)
  | i :: rest =>
      match new_button (ref i) (style i) (label i) (row i) with
      | Raise e => (tr, Raise e)
      | Ret button =>
          match add_item view button with
          | Raise e => (tr, Raise e)
          | Ret view => add_items rest view (tr ++ [ItemAdded button])%list
          end
      end
  end.

Definition wait_for_press (author_id : Z) (items : list PredItem)
  (content embed : option string) (timeout : Z) (pressed : option nat)
  (tr : list event) : list event * outcome Ref :=
  match items with
  | [] => (tr, Raise ValueError)
  | _ :: _ =>
      let view := new_view timeout author_id in
      let tr1 := (tr ++ [ViewCreated timeout author_id])%list in
      match add_items items view tr1 with
      | (tr2, Raise e) => (tr2, Raise e)
      | (tr2, Ret view) =>
          let tr3 := (tr2 ++ [CtxSend content embed view])%list in
          let tr4 := (tr3 ++ [Waited timeout])%list in
          (tr4, wait_for_ref view pressed)
      end
  end.

End WithRef.

End ButtonPred.

(** ** Reading the result of [upcoming] *)

(** The group of [parsed_bdays] under key [k] ([[]] when the key is absent). *)
Definition group (k : Z) (parsed_bdays : gmap Z (list Birthday.entry))
  : list Birthday.entry :=
  default [] (parsed_bdays !! k).

(** All [(days_until, entry)] pairs of a list of groups, group by group. *)
Definition flat (groups : list (Z * list Birthday.entry)) : list (Z * Birthday.entry) :=
  groups ≫= (fun it => pair it.1 <$> it.2).

(** The [(days_until, entry)] pairs the loop body adds for a list of items,
    in the order of the items. *)
Fixpoint yielded (g : Birthday.guild) (today_dt : PyDatetime.datetime) (days : Z)
  (items : list (Z * Birthday.bday)) : list (Z * Birthday.entry) :=
  match items with
  | [] => []
  | it :: rest =>
      match Birthday.classify g today_dt days it with
      | Ret (Some (k, e, _)) => (k, e) :: yielded g today_dt days rest
      | _ => yielded g today_dt days rest
      end
  end.

(** The [datetime] that lines 128-132 build for a stored record, when they
    do not raise. *)
Definition birthday_dt_of (bd : Birthday.bday) : PyDatetime.datetime :=
  PyDatetime.mkdt (Birthday.year_or_1 (Birthday.bd_year bd))
                  (Birthday.bd_month bd) (Birthday.bd_day bd) 0 0 0 0.

(** The record's (month, day) is today's (month, day). *)
Definition on_day (today : PyDatetime.datetime) (bd : Birthday.bday) : Prop :=
  Birthday.bd_month bd = PyDatetime.month today /\
  Birthday.bd_day bd = PyDatetime.day today.

(** The spec's [today_exact]: the members whose stored (month, day) equals
    today's (month, day). *)
Definition today_exact (today : PyDatetime.datetime) (all_birthdays : gmap Z Birthday.bday)
  : gset Z :=
  dom (filter (fun kv : Z * Birthday.bday => on_day today kv.2) all_birthdays).

(** What [number_day_mapping] holds under a key [k]: "Today" for 0, and
    for a later day the "%B %d" text of a date [k] days after today. *)
Definition day_named (now : PyDatetime.datetime) (st : Birthday.loop_state) (k : Z) : Prop :=
  (k = 0 /\ st.2 !! k = Some "Today") \/
  (1 <= k /\
   exists nb, PyDatetime.valid nb = true /\
              PyDatetime.toordinal nb = PyDatetime.toordinal now + k /\
              st.2 !! k = Some (PyDatetime.strftime_B_d nb)).

(** ** Reading the member store *)

(** The record that [set] and [force] write for a [birthday] they accept. *)
Definition record_of (birthday : PyDatetime.datetime) : Birthday.bday :=
  Birthday.mkbday
    (if PyDatetime.year birthday =? 1 then None else Some (PyDatetime.year birthday))
    (PyDatetime.month birthday) (PyDatetime.day birthday).

(** [set] and [force] go past their two refusals for this [birthday]. *)
Definition accepted (MIN_BDAY_YEAR : Z) (now birthday : PyDatetime.datetime) : Prop :=
  (PyDatetime.year birthday = 1 \/ MIN_BDAY_YEAR <= PyDatetime.year birthday) /\
  PyDatetime.gt birthday now = false.

(** A stored record from which line 128 builds a date, and whose year, when
    there is one, is a real year of at least [MIN_BDAY_YEAR]. *)
Definition record_ok (MIN_BDAY_YEAR : Z) (bd : Birthday.bday) : Prop :=
  PyDatetime._check_date_fields (Birthday.year_or_1 (Birthday.bd_year bd))
                                (Birthday.bd_month bd) (Birthday.bd_day bd) = true /\
  match Birthday.bd_year bd with
  | None => True
  | Some y => MIN_BDAY_YEAR <= y /\ y <> 1
  end.

Definition store_ok (MIN_BDAY_YEAR : Z) (w : Birthday.world) : Prop :=
  forall gid mid bd,
    Birthday.all_members gid w !! mid = Some bd -> record_ok MIN_BDAY_YEAR bd.


(** ** More of the birthday cog's admin commands *)

Module BirthdayAdmin.
Import PyDatetime Birthday.

Definition set_channel_id (v : Z) (c : guild_conf) : guild_conf :=
  mkconf (time_utc_s c) (message_w_year c) (message_wo_year c) (Some v) (role_id c)
         (if channel_id c is None then setup_state c + 1 else setup_state c).

Definition set_role_id (v : Z) (c : guild_conf) : guild_conf :=
  mkconf (time_utc_s c) (message_w_year c) (message_wo_year c) (channel_id c) (Some v)
         (if role_id c is None then setup_state c + 1 else setup_state c).

(** [BirthdayAdminCommands.channel]; [channel] is the id of the text channel
    and ["<#id>"] its mention. *)
Definition channel (ctx : context) (channel : Z) (w : world) : world * outcome unit :=
  let gid := guild_id (ctx_guild ctx) in
  let w1 := write_guild gid (set_channel_id channel (guild_all gid w)) w in
  (send ("Channel set to " +:+ ("<#" +:+ pretty channel +:+ ">") +:+ ".") w1, Ret tt).

(** [BirthdayAdminCommands.role]; [role] is the id of the role and
    [role_name] its name. *)
Definition role (ctx : context) (role : Z) (role_name : string) (w : world)
  : world * outcome unit :=
  let gid := guild_id (ctx_guild ctx) in
  let w1 := write_guild gid (set_role_id role (guild_all gid w)) w in
  (send ("Role set to " +:+ role_name +:+ ".") w1, Ret tt).

(** The number of the five settings that are set. *)
Definition count_set (c : guild_conf) : Z :=
  (if time_utc_s c is None then 0 else 1) +
  (if message_w_year c is None then 0 else 1) +
  (if message_wo_year c is None then 0 else 1) +
  (if channel_id c is None then 0 else 1) +
  (if role_id c is None then 0 else 1).

End BirthdayAdmin.


(** ** Runs of the five setting commands *)

(** One call of [bdset time], [msgwithyear], [msgwithoutyear], [channel]
    or [role], with its arguments. *)
Inductive setter : Type :=
| SetTime (now time : PyDatetime.datetime)
| SetMsgWithYear (message : string)
| SetMsgWithoutYear (message : string)
| SetChannel (channel : Z)
| SetRole (role : Z) (role_name : string).

Section RunSetters.
Variable MAX_BDAY_MSG_LEN : Z.
Variable format_bday_message : string -> Z -> option Z -> outcome string.
Variable ctx : Birthday.context.

(** The world a call leaves (also when the preview of a template raises,
    which happens after the store is written). *)
Definition run_setter (w : Birthday.world) (s : setter) : Birthday.world :=
  match s with
  | SetTime now time => Birthday.time_store ctx now time w
  | SetMsgWithYear m =>
      (Birthday.msgwithyear MAX_BDAY_MSG_LEN format_bday_message ctx m w).1
  | SetMsgWithoutYear m =>
      (Birthday.msgwithoutyear MAX_BDAY_MSG_LEN format_bday_message ctx m w).1
  | SetChannel ch => (BirthdayAdmin.channel ctx ch w).1
  | SetRole r name => (BirthdayAdmin.role ctx r name w).1
  end.

Definition run_setters (ss : list setter) (w : Birthday.world) : Birthday.world :=
  fold_left run_setter ss w.

End RunSetters.

Definition is_time (s : setter) : bool :=
  match s with SetTime _ _ => true | _ => false end.
Definition is_msg_with_year (s : setter) : bool :=
  match s with SetMsgWithYear _ => true | _ => false end.
Definition is_msg_without_year (s : setter) : bool :=
  match s with SetMsgWithoutYear _ => true | _ => false end.
Definition is_channel (s : setter) : bool :=
  match s with SetChannel _ => true | _ => false end.
Definition is_role (s : setter) : bool :=
  match s with SetRole _ _ => true | _ => false end.


(** ** More of the button predicate *)

Module ButtonPredMore.
Import ButtonPred.

(** [ButtonStyle.blurple] (the primary style) *)
Definition blurple : Z := 1.

(** [_PredView.interaction_check]: [true] for the author; anybody else gets
    the ephemeral reply and [false]. *)
Definition interaction_check {Ref : Type} (v : _PredView Ref) (user_id : Z)
  : bool * option string :=
  if user_id =? v_author_id Ref v then (true, None)
  else (false, Some "You don't have have permission to do this.").

(** [wait_for_yes_no]: the references are the booleans [True] and [False].
    The two buttons are made and added as in [wait_for_press]. *)
Definition wait_for_yes_no (author_id : Z) (content embed : option string) (timeout : Z)
  (pressed : option nat) (tr : list (event bool)) : list (event bool) * outcome bool :=
  let view := new_view bool timeout author_id in
  let tr1 := (tr ++ [ViewCreated bool timeout author_id])%list in
  match new_button bool (Some true) blurple "Yes" None with
  | Raise e => (tr1, Raise e)
  | Ret yes =>
  match add_item bool view yes with
  | Raise e => (tr1, Raise e)
  | Ret view =>
  let tr2 := (tr1 ++ [ItemAdded bool yes])%list in
  match new_button bool (Some false) blurple "No" None with
  | Raise e => (tr2, Raise e)
  | Ret no =>
  match add_item bool view no with
  | Raise e => (tr2, Raise e)
  | Ret view =>
  let tr3 := (tr2 ++ [ItemAdded bool no])%list in
  let tr4 := (tr3 ++ [CtxSend bool content embed view])%list in
  let tr5 := (tr4 ++ [Waited bool timeout])%list in
  (tr5, wait_for_ref bool view pressed)
  end end end end.




End ButtonPredMore.


(** ** More of Python's [datetime]: ordinals and timestamps *)

Module PyOrdinal.
Import PyDatetime.

Definition _DI400Y : Z := 146097.
Definition _DI100Y : Z := 36524.
Definition _DI4Y : Z := 1461.

(** [_ord2ymd(n)]: the (year, month, day) of the proleptic Gregorian
    ordinal [n] (the assertions of the Python function are not part of its
    result and are left out). *)
Definition _ord2ymd (n : Z) : Z * Z * Z :=
  let n := n - 1 in
  let n400 := n / _DI400Y in
  let n := n mod _DI400Y in
  let year := n400 * 400 + 1 in
  let n100 := n / _DI100Y in
  let n := n mod _DI100Y in
  let n4 := n / _DI4Y in
  let n := n mod _DI4Y in
  let n1 := n / 365 in
  let n := n mod 365 in
  let year := year + n100 * 100 + n4 * 4 + n1 in
  if (n1 =? 4) || (n100 =? 4) then (year - 1, 12, 31)
  else
    let leapyear := (n1 =? 3) && (negb (n4 =? 24) || (n100 =? 3)) in
    let month := Z.shiftr (n + 50) 5 in
    let preceding :=
      _DAYS_BEFORE_MONTH month + (if (2 <? month) && leapyear then 1 else 0) in
    if n <? preceding then
      let month := month - 1 in
      let preceding :=
        preceding - (_DAYS_IN_MONTH month + (if (month =? 2) && leapyear then 1 else 0)) in
      (year, month, n - preceding + 1)
    else (year, month, n - preceding + 1).

(** [datetime.fromordinal(n)]: midnight of that day. CPython's [datetime]
    reads [n] as a C [int] and raises [OverflowError] when it does not fit
    in 32 bits; it raises [ValueError] for [n < 1], and for a year beyond
    9999 when the date is made. *)
Definition fromordinal (n : Z) : result datetime :=
  if (n <? - 2 ^ 31) || (2 ^ 31 <=? n) then Failed OverflowError
  else if n <? 1 then Failed (Exn ValueError)
  else
    let '(y, m, d) := _ord2ymd n in
    match new y m d with
    | Ret dt => Done dt
    | Raise e => Failed (Exn e)
    end.

(** [datetime.utcfromtimestamp(t)] for an integer [t]: 1970-01-01 is the
    ordinal 719163. [None] stands for the exception Python raises when the
    date is out of range ([ValueError] or [OverflowError], by platform). *)
Definition utcfromtimestamp (t : Z) : option datetime :=
  let s := t mod 86400 in
  match fromordinal (719163 + t / 86400) with
  | Done d => Some (mkdt (year d) (month d) (day d)
                         (s / 3600) ((s mod 3600) / 60) (s mod 60) 0)
  | Failed _ => None
  end.

(** [dt.strftime("%H:%M")] *)
Definition strftime_H_M (dt : datetime) : string :=
  two_digits (hour dt) +:+ ":" +:+ two_digits (minute dt).

End PyOrdinal.

(** ** The birthday cog: [time], [settings] and the import of [zemigrate] *)

Module BirthdayMore.
Import PyDatetime PyOrdinal Birthday BirthdayAdmin.

(** [BirthdayAdminCommands.time], whole. [time] is the value the
    [TimeConverter] produced, [now] the clock at line 423 and [now'] the
    clock at line 443. *)
Definition time (ctx : context) (now now' time : datetime) (w : world)
  : world * result unit :=
  let midnight := midnight_of now in
  let time_utc_s_new := int_total_seconds (sub time midnight) in
  let gid := guild_id (ctx_guild ctx) in
  let old := time_utc_s (guild_all gid w) in
  let w1 := write_guild gid (set_time_utc_s time_utc_s_new (guild_all gid w)) w in
  let m := "Time set! I'll send the birthday message and update the birthday role at "
           +:+ strftime_H_M time +:+ " UTC." in
  match old with
  | None => (send m w1, Done tt)
  | Some old =>
      match utcfromtimestamp old with
      | None => (w1, Failed TimestampOutOfRange)
      | Some old_dt =>
          if gt time old_dt && gt time now' then
            (send (m +:+ String (Ascii.ascii_of_nat 10) (String (Ascii.ascii_of_nat 10)
                     "The time you set is after the time I currently send the birthday message, so the birthday message will be sent for a second time."))
                  w1, Done tt)
          else (send m w1, Done tt)
      end
  end.

(** What [settings] looks up in the guild: the names of its channels and
    roles by id. *)
Record directory : Type := mkdir {
  channel_names : gmap Z string;
  role_names : gmap Z string
}.

(** [x or "No message set"]: [None] and the empty string are falsy. *)
Definition or_no_message (x : option string) : string :=
  match x with
  | Some (String c s) => String c s
  | _ => "No message set"
  end.

Section Settings.
(** [no_colour_rich_markup] applied to the table of the given title,
    column headers and rows ([vexutils] is not part of the sources). *)
Variable no_colour_rich_markup : string -> string * string -> list (string * string) -> string.

(** [BirthdayAdminCommands.settings] *)
Definition settings (ctx : context) (dir : directory) (w : world) : world * result unit :=
  let gid := guild_id (ctx_guild ctx) in
  let w1 := log (OpenGuildAll gid) w in
  let conf := guild_all gid w in
  let channel := channel_id conf ≫= (fun i => channel_names dir !! i) in
  let row1 := ("Channel", default "Channel deleted" channel) in
  let role := role_id conf ≫= (fun i => role_names dir !! i) in
  let row2 := ("Role", default "Role deleted" role) in
  match time_utc_s conf with
  | None => (w1, Failed TypeError)
  | Some t =>
      match utcfromtimestamp t with
      | None => (w1, Failed TimestampOutOfRange)
      | Some dt =>
          let row3 := ("Time", strftime_H_M dt +:+ " UTC") in
          let message_w_year := or_no_message (message_w_year conf) in
          let message_wo_year := or_no_message (message_wo_year conf) in
          let final_table :=
            no_colour_rich_markup "Settings for this server" ("Name", "Value")
                                  [row1; row2; row3] in
          let nl := String (Ascii.ascii_of_nat 10) "" in
          (send (final_table
                 +:+ nl +:+ "Message with year:" +:+ nl +:+ "```"
                 +:+ message_w_year
                 +:+ "```" +:+ nl +:+ "Message without year:" +:+ nl +:+ "```"
                 +:+ message_wo_year
                 +:+ "```") w1, Done tt)
      end
  end.

End Settings.

(** *** [zemigrate], lines 619-657: the import of the parsed data *)

(** One guild of [data["GUILD"]]. *)
Record ze_guild : Type := mkze { ze_channel : option Z; ze_role : option Z }.

Section Migrate.
Variable MIN_BDAY_YEAR : Z.

(** Lines 637-651: the record made of an ordinal [day] and a [year]. The
    call of [fromordinal] at line 637 stands outside the [try]: what it
    raises leaves the command. Inside the [try] both [OverflowError] and
    [ValueError] are caught, and [replace(year=1)] may raise again. *)
Definition migrate_record (day : Z) (year : option Z) : result bday :=
  match fromordinal day with
  | Failed f => Failed f
  | Done dt =>
      let year := match year with
                  | None => 1
                  | Some y => if y <? MIN_BDAY_YEAR then 1 else y
                  end in
      match (match replace_year dt year with
             | Ret dt' => Ret dt'
             | Raise _ => replace_year dt 1
             end) with
      | Raise e => Failed (Exn e)
      | Ret dt =>
          Done (mkbday (if PyDatetime.year dt =? 1 then None else Some (PyDatetime.year dt))
                       (month dt) (PyDatetime.day dt))
      end
  end.

(** [config.member_from_ids(guild_id, user_id).birthday.set(new_data)] and
    [config.guild(guild).set_raw(value=new_data)]: the writes show in the
    store (the trace has no event for them). *)
Definition set_birthday (gid mid : Z) (b : bday) (w : world) : world :=
  mkworld (<[gid := <[mid := b]> (all_members gid w)]> (member_store w))
          (guild_store w) (trace w).

Definition set_raw_guild (gid : Z) (c : guild_conf) (w : world) : world :=
  mkworld (member_store w) (<[gid := c]> (guild_store w)) (trace w).

(** A loop over a list whose body changes the world and may raise: the
    world reached when it raises is kept. *)
Fixpoint each {A : Type} (body : A -> world -> world * result unit) (xs : list A)
  (w : world) : world * result unit :=
  match xs with
  | [] => (w, Done tt)
  | x :: xs' =>
      match body x w with
      | (w1, Done _) => each body xs' w1
      | (w1, Failed f) => (w1, Failed f)
      end
  end.

(** Lines 619-632 *)
Definition import_guild (known : gset Z) (g : Z * ze_guild) (w : world)
  : world * result unit :=
  if decide (g.1 ∈ known) then
    (set_raw_guild g.1
       (mkconf (Some 0)
               (Some "{mention} is now **{new_age} years old**. :tada:")
               (Some "It's {mention}'s birthday today! :tada:")
               (ze_channel g.2) (ze_role g.2) 5) w, Done tt)
  else (w, Done tt).

(** Lines 636-652 *)
Definition import_user (gid day : Z) (u : Z * option Z) (w : world)
  : world * result unit :=
  match migrate_record day u.2 with
  | Done new_data => (set_birthday gid u.1 new_data w, Done tt)
  | Failed f => (w, Failed f)
  end.

Definition import_day (gid : Z) (d : Z * list (Z * option Z)) (w : world)
  : world * result unit :=
  each (import_user gid d.1) d.2 w.

Definition import_guild_dates (g : Z * list (Z * list (Z * option Z))) (w : world)
  : world * result unit :=
  each (import_day g.1) g.2 w.

(** Lines 619-657, for the parsed [data]: [guilds] is [data["GUILD"]],
    [guild_dates] is [data["GUILD_DATE"]] and [known] holds the guild ids
    [bot.get_guild] resolves. *)
Definition zemigrate_import (known : gset Z) (guilds : list (Z * ze_guild))
  (guild_dates : list (Z * list (Z * list (Z * option Z)))) (w : world)
  : world * result unit :=
  match each (import_guild known) guilds w with
  | (w1, Failed f) => (w1, Failed f)
  | (w1, Done _) =>
      match each import_guild_dates guild_dates w1 with
      | (w2, Failed f) => (w2, Failed f)
      | (w2, Done _) =>
          (send "All set. You can now configure the messages and time to send with other commands under `[p]bdset`, if you would like to change it from ZeLarp's. This is per-guild."
                w2, Done tt)
      end
  end.

End Migrate.

End BirthdayMore.


(** ** The birthday cog: the dialogues [remove] and [interactive] *)

Module BirthdayDialogue.
Import PyDatetime Birthday BirthdayMore.

(** [ReactionPredicate.YES_OR_NO_EMOJIS] *)
Inductive emoji : Type := Tick | Cross.

(** Effects on the message a dialogue has just sent. *)
Inductive message_effect : Type :=
| StartAddingReactions (emojis : list emoji)   (* [start_adding_reactions(m, ...)] *)
| RemoveReaction (e : emoji)                   (* [m.remove_reaction(e, ctx.guild.me)] *)
| Edit (content : string).                     (* [m.edit(content=...)] *)

(** A world together with the effects on sent messages; each of these is
    stamped with the length of the trace when it happened, which places it
    among the effects of the trace. *)
Record dialogue : Type := mkdialogue {
  dw : world;
  on_message : list (nat * message_effect)
}.

Definition dsend (content : string) (d : dialogue) : dialogue :=
  mkdialogue (send content (dw d)) (on_message d).

Definition on_last (e : message_effect) (d : dialogue) : dialogue :=
  mkdialogue (dw d) (on_message d ++ [(length (trace (dw d)), e)])%list.

Section Remove.
(** The default registered for a member's [birthday] ([register_member] in
    the cog's [__init__], which is not part of the sources). *)
Variable default_birthday : bday.



End Remove.

Definition nl : string := String (Ascii.ascii_of_nat 10) "".

Definition took_too_long (clean_prefix : string) : string :=
  "Took too long to react, cancelling setup. Run `" +:+ clean_prefix
  +:+ "bdset interactive` to start again.".

(** A message as [time_check] sees it. *)
Record message : Type := mkmessage {
  m_author : Z;
  m_channel : Z;
  m_content : string
}.

(** [x is False] for a channel [x]: a channel is never the constant [False]. *)
Definition channel_is_False (channel : Z) : bool := false.

(** What the dialogue of [interactive] is answered: [None] is a timeout of
    the wait. *)
Record answers : Type := mkanswers {
  a_ready : option bool;            (* the reaction: [pred.result] *)
  a_msg_w_year : option string;     (* the content of the first reply *)
  a_msg_wo_year : option string;    (* the content of the second reply *)
  a_channel : option (Z * bool);    (* the channel: its id, whether the bot may send there *)
  a_role : option (Z * bool);       (* the role: its id, whether it is above the bot's top role *)
  a_time : option string            (* the content of the reply [time_check] accepted *)
}.

Section Interactive.
Variable MAX_BDAY_MSG_LEN : Z.
(** [dateutil.parser.parse]: [None] stands for [ParserError]. *)
Variable time_parser : string -> option datetime.
(** [redbot.core.utils.chat_formatting.warning] *)
Variable warning : string -> string.

(** The local function [time_check] of [interactive], for the context's
    author and channel. The source reads
    [m.author == ctx.author and m.channel == ctx.channel is False], a
    chained comparison: [(m.author == ctx.author) and
    (m.channel == ctx.channel) and (ctx.channel is False)]. *)
Definition time_check (ctx_author ctx_channel : Z) (m : message) : bool :=
  if (m_author m =? ctx_author)
     && ((m_channel m =? ctx_channel) && channel_is_False ctx_channel)
  then false
  else match time_parser (m_content m) with
       | None => false
       | Some _ => true
       end.

(** [BirthdayAdminCommands.interactive]. [manage_roles] is
    [ctx.me.guild_permissions.manage_roles]. *)
Definition interactive (ctx : context) (clean_prefix : string) (manage_roles : bool)
  (now : datetime) (a : answers) (d : dialogue) : dialogue * result unit :=
  let d := dsend ("Just a heads up, you'll be asked for a message for when the user provided their birth year, a message for when they didn't, the channel to sent notifications, the role, and the time of day to send them."
                  +:+ nl +:+ nl +:+ "When you're ready, press the tick.") d in
  let d := on_last (StartAddingReactions [Tick; Cross]) d in
  let d := match a_ready a with
           | None => on_last (Edit (took_too_long clean_prefix)) d
           | Some _ => d
           end in
  match a_ready a with
  | None | Some false => (dsend "Okay, I'll cancel setup." d, Done tt)
  | Some true =>
  (* MSG WITH YEAR *)
  let d := dsend ("What message should I send if the user provided their birth year?"
                  +:+ nl +:+ nl
                  +:+ "You can use the following variables: `mention`, `name`, `new_age`. Put curly brackets `{}` around them, for example: {mention} is now {new_age} years old!"
                  +:+ nl +:+ nl +:+ "You have 5 minutes.") d in
  match a_msg_w_year a with
  | None => (dsend (took_too_long clean_prefix) d, Done tt)
  | Some message_w_year =>
  if MAX_BDAY_MSG_LEN <? Z.of_nat (String.length message_w_year) then
    (dsend "That message is too long, please try again." d, Done tt)
  else
  (* MSG WITHOUT YEAR *)
  let d := dsend ("What message should I send if the user didn't provide their birth year?"
                  +:+ nl +:+ nl
                  +:+ "You can use the following variables: `mention`, `name`. Put curly brackets `{}` around them, for example: {mention}'s birthday is today! Happy birthday {name}"
                  +:+ nl +:+ nl +:+ "You have 5 minutes.") d in
  match a_msg_wo_year a with
  | None => (dsend (took_too_long clean_prefix) d, Done tt)
  | Some message_wo_year =>
  if MAX_BDAY_MSG_LEN <? Z.of_nat (String.length message_wo_year) then
    (dsend "That message is too long, please try again." d, Done tt)
  else
  (* CHANNEL *)
  let d := dsend ("Where would you like to send notifications? I will ignore any message with an invalid channel."
                  +:+ nl +:+ nl +:+ "You have 5 minutes.") d in
  match a_channel a with
  | None => (dsend (took_too_long clean_prefix) d, Failed AttributeError)
  | Some (channel_id, can_send) =>
  let d := if can_send then d
           else dsend (warning "I don't have permission to send messages in that channel. Please make sure you rectify this as soon as possible, but I'll let you continue the setup.") d in
  (* ROLE *)
  let d := dsend ("What role should I assign to users who have their birthday today? I will ignore any message which isn't a role."
                  +:+ nl +:+ nl
                  +:+ "You can mention the role, give its exact name, or its ID."
                  +:+ nl +:+ nl +:+ "You have 5 minutes.") d in
  match a_role a with
  | None => (dsend (took_too_long clean_prefix) d, Failed TypeError)
  | Some (role_id, above_top_role) =>
  let d := if above_top_role
           then dsend (warning "I can't use that role because it is higher than my highest role. Please make sure you rectify this as soon as possible, but I'll let you continue the setup.") d
           else d in
  let d := if manage_roles then d
           else dsend (warning "I don't have permission to manage roles. Please make sure you rectify this as soon as possible, but I'll let you continue the setup.") d in
  (* TIME *)
  let d := dsend ("What time of day should I send the birthday message? Please use the UTC time, for example `12AM` for midnight or `7:00`. I will ignore any invalid input. I will ignore minutes."
                  +:+ nl +:+ nl +:+ "You have 5 minutes.") d in
  match a_time a with
  | None => (dsend (took_too_long clean_prefix) d, Failed UnboundLocalError)
  | Some content =>
  match time_parser content with
  | None => (d, Failed ParserError)
  | Some parsed =>
      let w := (interactive_finish ctx clean_prefix now parsed message_w_year
                                   message_wo_year channel_id role_id (dw d)).1 in
      (mkdialogue w (on_message d), Done tt)
  end end end end end end end.

End Interactive.

End BirthdayDialogue.


(** * Properties *)

Import PyDatetime Birthday.

(** ** Calendar arithmetic *)

Section Calendar.

Lemma month_cases (m : Z) :
  1 <= m <= 12 ->
  m = 1 \/ m = 2 \/ m = 3 \/ m = 4 \/ m = 5 \/ m = 6 \/
  m = 7 \/ m = 8 \/ m = 9 \/ m = 10 \/ m = 11 \/ m = 12.
Proof. lia. Qed.

Lemma check_date_fields_spec (y m d : Z) :
  _check_date_fields y m d = true <->
  1 <= y <= 9999 /\ 1 <= m <= 12 /\ 1 <= d <= _days_in_month y m.
Proof.
  unfold _check_date_fields, MINYEAR, MAXYEAR.
  rewrite !andb_true_iff, !Z.leb_le. lia.
Qed.

Lemma days_before_year_succ (y : Z) :
  _days_before_year (y + 1) =
  _days_before_year y + 365 + (if _is_leap y then 1 else 0).
Proof.
  unfold _days_before_year, _is_leap.
  replace (y + 1 - 1) with y by lia.
  destruct (y mod 4 =? 0) eqn:H4; destruct (y mod 100 =? 0) eqn:H100;
    destruct (y mod 400 =? 0) eqn:H400; cbn [andb orb negb];
    rewrite ?Z.eqb_eq, ?Z.eqb_neq in *;
    Z.div_mod_to_equations; lia.
Qed.

(** The day of the year of a date lies within the year. *)
Lemma day_of_year_bounds (y m d : Z) :
  _check_date_fields y m d = true ->
  1 <= _days_before_month y m + d <= 365 + (if _is_leap y then 1 else 0).
Proof.
  rewrite check_date_fields_spec. intros (_ & Hm & Hd).
  unfold _days_before_month, _days_in_month in *.
  destruct (_is_leap y);
    destruct (month_cases m Hm) as [->|[->|[->|[->|[->|[->|[->|[->|[->|[->|[->| ->]]]]]]]]]]];
    cbn in *; lia.
Qed.

(** Within one year, a later (month, day) has a later day of the year. *)
Lemma day_of_year_lt (y m1 d1 m2 d2 : Z) :
  _check_date_fields y m1 d1 = true ->
  _check_date_fields y m2 d2 = true ->
  m1 < m2 \/ (m1 = m2 /\ d1 < d2) ->
  _days_before_month y m1 + d1 < _days_before_month y m2 + d2.
Proof.
  rewrite !check_date_fields_spec. intros (_ & Hm1 & Hd1) (_ & Hm2 & Hd2) Hlt.
  unfold _days_before_month, _days_in_month in *.
  destruct (_is_leap y);
    destruct (month_cases m1 Hm1) as [->|[->|[->|[->|[->|[->|[->|[->|[->|[->|[->| ->]]]]]]]]]]];
    destruct (month_cases m2 Hm2) as [->|[->|[->|[->|[->|[->|[->|[->|[->|[->|[->| ->]]]]]]]]]]];
    cbn in *; lia.
Qed.

Lemma sub_midnight_days (y1 m1 d1 y2 m2 d2 : Z) :
  days (sub (mkdt y1 m1 d1 0 0 0 0) (mkdt y2 m2 d2 0 0 0 0)) =
  _ymd2ord y1 m1 d1 - _ymd2ord y2 m2 d2.
Proof.
  unfold sub, new_timedelta, toordinal.
  cbn [days second minute hour microsecond year month day].
  change ((0 + 0 * 60 + 0 * 3600 - (0 + 0 * 60 + 0 * 3600) + (0 - 0) / 1000000) / 86400)
    with 0.
  lia.
Qed.

Lemma gt_midnight (y m1 d1 m2 d2 : Z) :
  gt (mkdt y m1 d1 0 0 0 0) (mkdt y m2 d2 0 0 0 0) = true ->
  m2 < m1 \/ (m2 = m1 /\ d2 < d1).
Proof.
  unfold gt, _cmp, fields. cbn. rewrite Z.compare_refl.
  destruct (Z.compare_spec m1 m2); [subst | discriminate | lia].
  destruct (Z.compare_spec d1 d2); [discriminate | discriminate | lia].
Qed.

(** The next birthday computed by lines 146-148 lies at least one day
    after today, for a birthday that is not today. *)
Lemma next_birthday_days (today bd nb : datetime) :
  valid today = true ->
  next_birthday (replace_midnight today) (mkdt (year bd) (month bd) (day bd) 0 0 0 0)
    = Ret nb ->
  1 <= days (sub nb (replace_midnight today)).
Proof.
  intros Hv. unfold next_birthday, replace_year, replace_midnight.
  cbn [year month day hour minute second microsecond].
  destruct (_check_date_fields (year today) (month bd) (day bd)) eqn:H1;
    [cbn [obind] | discriminate].
  destruct (_check_date_fields (year today + 1) (month bd) (day bd)) eqn:H2;
    [cbn [obind] | discriminate].
  unfold valid in Hv. apply andb_true_iff in Hv as [Hd _].
  destruct (gt _ _) eqn:Hgt; intros [= <-]; rewrite sub_midnight_days; unfold _ymd2ord.
  - apply gt_midnight in Hgt.
    pose proof (day_of_year_lt _ _ _ _ _ Hd H1 Hgt). lia.
  - rewrite days_before_year_succ.
    pose proof (day_of_year_bounds _ _ _ Hd).
    pose proof (day_of_year_bounds _ _ _ H2). lia.
Qed.

End Calendar.

(** ** The loop of [upcoming] *)

Section Loop.
Variable g : guild.
Variable today_dt : datetime.
Variable days : Z.

Lemma flat_cons (k : Z) (es : list entry) (rest : list (Z * list entry)) :
  flat ((k, es) :: rest) = ((pair k <$> es) ++ flat rest)%list.
Proof. reflexivity. Qed.

Lemma flat_dict_append (k : Z) (e : entry) (d : gmap Z (list entry)) :
  flat (map_to_list (dict_append k e d)) ≡ₚ (flat (map_to_list d) ++ [(k, e)])%list.
Proof.
  unfold dict_append. destruct (d !! k) as [es|] eqn:Hk; cbn [default].
  - rewrite <- (insert_delete_eq d k (es ++ [e])%list).
    unfold flat at 1.
    rewrite (map_to_list_insert (delete k d) k) by apply lookup_delete_eq.
    fold (flat ((k, (es ++ [e])%list) :: map_to_list (delete k d))).
    rewrite flat_cons, fmap_app. cbn [fmap list_fmap].
    unfold flat at 2. rewrite <- (map_to_list_delete d k es Hk).
    fold (flat ((k, es) :: map_to_list (delete k d))).
    rewrite flat_cons.
    rewrite <- !app_assoc. apply Permutation_app_head, Permutation_app_comm.
  - unfold flat at 1. rewrite (map_to_list_insert d k) by exact Hk.
    fold (flat ((k, [e]) :: map_to_list d)).
    rewrite flat_cons. cbn [fmap list_fmap]. apply Permutation_app_comm.
Qed.

(** What the loop leaves in [parsed_bdays] is what it found there plus what
    the items yield. *)
Lemma loop_flat (items : list (Z * bday)) (st st' : loop_state) :
  for_each (loop_body g today_dt days) items st = Ret st' ->
  flat (map_to_list st'.1)
    ≡ₚ (flat (map_to_list st.1) ++ yielded g today_dt days items)%list.
Proof.
  revert st. induction items as [|it rest IH]; intros st; cbn [for_each yielded].
  - intros [= <-]. by rewrite app_nil_r.
  - unfold loop_body at 1.
    destruct (classify g today_dt days it) as [[[[k e] name]|]|] eqn:Hc;
      cbn [obind]; [| |discriminate].
    + intros Hrest. rewrite (IH _ Hrest). cbn [fst].
      rewrite flat_dict_append, <- app_assoc. reflexivity.
    + intros Hrest. exact (IH _ Hrest).
Qed.

(** A loop that returns has not raised at any item. *)
Lemma loop_returns_each (items : list (Z * bday)) (st st' : loop_state) :
  for_each (loop_body g today_dt days) items st = Ret st' ->
  forall it, it ∈ items -> exists r, classify g today_dt days it = Ret r.
Proof.
  revert st. induction items as [|it0 rest IH]; intros st; cbn [for_each].
  - intros _ it Hin. inversion Hin.
  - unfold loop_body at 1.
    destruct (classify g today_dt days it0) as [r|] eqn:Hc; cbn [obind]; [|discriminate].
    intros Hrest it Hin. apply elem_of_cons in Hin as [->|Hin]; [eauto|].
    exact (IH _ Hrest it Hin).
Qed.

Lemma elem_of_yielded (items : list (Z * bday)) (k : Z) (e : entry) :
  (k, e) ∈ yielded g today_dt days items <->
  exists it name, it ∈ items /\ classify g today_dt days it = Ret (Some (k, e, name)).
Proof.
  induction items as [|it0 rest IH]; cbn [yielded].
  - split; [intros H; inversion H | intros (it & ? & H & _); inversion H].
  - destruct (classify g today_dt days it0) as [[[[k0 e0] name0]|]|] eqn:Hc.
    + rewrite elem_of_cons, IH. split.
      * intros [[= -> ->]|(it & name & Hin & Hit)].
        -- exists it0, name0. split; [left|assumption].
        -- exists it, name. split; [by right|assumption].
      * intros (it & name & Hin & Hit). apply elem_of_cons in Hin as [->|Hin].
        -- left. congruence.
        -- right. eauto.
    + rewrite IH. split.
      * intros (it & name & Hin & Hit). exists it, name. split; [by right|assumption].
      * intros (it & name & Hin & Hit). apply elem_of_cons in Hin as [->|Hin];
          [congruence | eauto].
    + rewrite IH. split.
      * intros (it & name & Hin & Hit). exists it, name. split; [by right|assumption].
      * intros (it & name & Hin & Hit). apply elem_of_cons in Hin as [->|Hin];
          [congruence | eauto].
Qed.

Lemma make_entry_member (m : member) (verb : string) (t b : datetime) :
  e_member (make_entry m verb t b) = member_id m.
Proof. unfold make_entry. by destruct (year b =? 1). Qed.

Lemma make_entry_age (m : member) (verb : string) (t b : datetime) :
  e_age (make_entry m verb t b) =
  if year b =? 1 then None else Some (year t - year b).
Proof. unfold make_entry. by destruct (year b =? 1). Qed.

(** An entry names the member whose record produced it. *)
Lemma classify_member (it : Z * bday) (k : Z) (e : entry) (name : string) :
  classify g today_dt days it = Ret (Some (k, e, name)) -> e_member e = it.1.
Proof.
  unfold classify, get_member.
  destruct (decide (it.1 ∈ guild_members g)); [|discriminate].
  destruct (new _ _ _) as [b|]; cbn [obind]; [|discriminate].
  destruct (_ && _).
  - intros [= _ <- _]. apply make_entry_member.
  - destruct (next_birthday today_dt b) as [nb|]; cbn [obind]; [|discriminate].
    destruct (days <? _); [discriminate|].
    intros [= _ <- _]. apply make_entry_member.
Qed.

Lemma yielded_members_sublist (items : list (Z * bday)) :
  sublist ((fun p : Z * entry => e_member p.2) <$> yielded g today_dt days items)
          (items.*1).
Proof.
  induction items as [|it rest IH]; cbn [yielded]; [constructor|].
  destruct (classify g today_dt days it) as [[[[k e] name]|]|] eqn:Hc;
    cbn [fmap list_fmap]; try (by apply sublist_cons).
  cbn [snd]. rewrite (classify_member _ _ _ _ Hc). by apply sublist_skip.
Qed.

Lemma elem_of_flat (groups : list (Z * list entry)) (k : Z) (e : entry) :
  (k, e) ∈ flat groups <-> exists es, (k, es) ∈ groups /\ e ∈ es.
Proof.
  unfold flat. rewrite list_elem_of_bind. split.
  - intros ([k' es] & Hin & Hg). cbn in Hin.
    apply list_elem_of_fmap in Hin as (e' & [= -> ->] & He). eauto.
  - intros (es & Hg & He). exists (k, es). split; [|assumption].
    cbn. apply list_elem_of_fmap. eauto.
Qed.

Lemma elem_of_group (parsed : gmap Z (list entry)) (k : Z) (e : entry) :
  e ∈ group k parsed <-> (k, e) ∈ flat (map_to_list parsed).
Proof.
  rewrite elem_of_flat. unfold group. split.
  - destruct (parsed !! k) as [es|] eqn:Hk; cbn [default]; [|intros H; inversion H].
    intros He. exists es. by rewrite elem_of_map_to_list.
  - intros (es & Hg & He). apply elem_of_map_to_list in Hg. by rewrite Hg.
Qed.

End Loop.

(** ** One record of [upcoming] *)

Section Classify.
Variable g : guild.
Variable now : datetime.
Variable days : Z.

Lemma today_test (bd : bday) :
  (month (replace_midnight now) =? month (birthday_dt_of bd)) &&
  (day (replace_midnight now) =? day (birthday_dt_of bd)) = true <-> on_day now bd.
Proof.
  unfold on_day. cbn. rewrite andb_true_iff, !Z.eqb_eq. intuition congruence.
Qed.

Lemma new_birthday_dt (bd : bday) (b : datetime) :
  new (year_or_1 (bd_year bd)) (bd_month bd) (bd_day bd) = Ret b ->
  b = birthday_dt_of bd.
Proof.
  unfold new, birthday_dt_of. destruct (_check_date_fields _ _ _); congruence.
Qed.

(** The two ways in which a record adds an entry. *)
Lemma classify_Some_inv (it : Z * bday) (k : Z) (e : entry) (name : string) :
  valid now = true ->
  classify g (replace_midnight now) days it = Ret (Some (k, e, name)) ->
  it.1 ∈ guild_members g /\
  ((on_day now it.2 /\ k = 0 /\
    e = make_entry (mkmember it.1) "turns" (replace_midnight now) (birthday_dt_of it.2)) \/
   (~ on_day now it.2 /\ 1 <= k <= days /\
    e = make_entry (mkmember it.1) "will turn" (replace_midnight now)
                   (birthday_dt_of it.2))).
Proof.
  intros Hv. unfold classify, get_member.
  destruct (decide (it.1 ∈ guild_members g)) as [Hin|]; [|discriminate].
  destruct (new _ _ _) as [b|] eqn:Hb; cbn [obind]; [|discriminate].
  apply new_birthday_dt in Hb. subst b.
  destruct (_ && _) eqn:Ht.
  - apply today_test in Ht. intros [= <- <- _]. split; [assumption|]. by left.
  - assert (~ on_day now it.2) as Hnt.
    { intros H. apply today_test in H. congruence. }
    destruct (next_birthday _ _) as [nb|] eqn:Hnb; cbn [obind]; [|discriminate].
    destruct (days <? _) eqn:Hw; [discriminate|].
    intros [= <- <- _]. split; [assumption|]. right.
    apply Z.ltb_ge in Hw.
    pose proof (next_birthday_days now (birthday_dt_of it.2) nb Hv Hnb).
    auto.
Qed.

(** A record on today's (month, day) of a resolvable member either raises
    (its date cannot be built) or lands in group 0. *)
Lemma classify_today (mid : Z) (bd : bday) (r : option (Z * entry * string)) :
  mid ∈ guild_members g -> on_day now bd ->
  classify g (replace_midnight now) days (mid, bd) = Ret r ->
  r = Some (0, make_entry (mkmember mid) "turns" (replace_midnight now) (birthday_dt_of bd),
            "Today").
Proof.
  intros Hin Ht. unfold classify, get_member. cbn [fst snd].
  destruct (decide (mid ∈ guild_members g)); [|contradiction].
  destruct (new _ _ _) as [b|] eqn:Hb; cbn [obind]; [|discriminate].
  apply new_birthday_dt in Hb. subst b.
  apply today_test in Ht. rewrite Ht. congruence.
Qed.

Lemma flat_sorted_items (parsed : gmap Z (list entry)) :
  flat (sorted_items parsed) ≡ₚ flat (map_to_list parsed).
Proof.
  unfold flat, sorted_items. apply bind_Permutation, merge_sort_Permutation.
Qed.

(** The result of the loop, as a whole. *)
Lemma parse_bdays_flat (all_birthdays : gmap Z bday) (st : loop_state) :
  parse_bdays g now days all_birthdays = Ret st ->
  flat (sorted_items st.1)
    ≡ₚ yielded g (replace_midnight now) days (map_to_list all_birthdays).
Proof.
  unfold parse_bdays. intros H. apply loop_flat in H.
  rewrite flat_sorted_items, H. cbn [fst]. by rewrite map_to_list_empty.
Qed.

(** Group 0 holds exactly the resolvable members born on today's (month, day). *)
Lemma group_today (all_birthdays : gmap Z bday) (st : loop_state) (e : entry) :
  valid now = true ->
  parse_bdays g now days all_birthdays = Ret st ->
  e ∈ group 0 st.1 <->
  exists mid bd, all_birthdays !! mid = Some bd /\ mid ∈ guild_members g /\
                 on_day now bd /\
                 e = make_entry (mkmember mid) "turns" (replace_midnight now)
                                (birthday_dt_of bd).
Proof.
  intros Hv Hp.
  rewrite elem_of_group, <- flat_sorted_items, (parse_bdays_flat _ _ Hp), elem_of_yielded.
  split.
  - intros ([mid bd] & name & Hin & Hc).
    apply elem_of_map_to_list in Hin.
    apply (classify_Some_inv _ _ _ _ Hv) in Hc as [Hm [(Ht & _ & He)|(_ & Hk & _)]];
      [|lia].
    exists mid, bd. auto.
  - intros (mid & bd & Hl & Hm & Ht & ->).
    apply elem_of_map_to_list in Hl.
    destruct (loop_returns_each _ _ _ _ _ _ Hp _ Hl) as [r Hr].
    exists (mid, bd), "Today". split; [assumption|].
    rewrite Hr. f_equal. exact (classify_today _ _ _ Hm Ht Hr).
Qed.

End Classify.

(** ** When the loop of [upcoming] completes *)

Section Completes.
Variable g : guild.
Variable now : datetime.
Variable days : Z.

(** A (month, day) other than February 29 exists in every year. *)
Lemma check_date_fields_any_year (y0 y m d : Z) :
  _check_date_fields y0 m d = true ->
  1 <= y <= 9999 ->
  ~ (m = 2 /\ d = 29) ->
  _check_date_fields y m d = true.
Proof.
  rewrite !check_date_fields_spec. intros (_ & Hm & Hd) Hy Hleap.
  split; [assumption|]. split; [assumption|].
  unfold _days_in_month in *.
  destruct (_is_leap y0); destruct (_is_leap y);
    destruct (month_cases m Hm) as [->|[->|[->|[->|[->|[->|[->|[->|[->|[->|[->| ->]]]]]]]]]]];
    cbn in *; lia.
Qed.

Lemma classify_completes (it : Z * bday) :
  valid now = true ->
  year now < 9999 ->
  _check_date_fields (year_or_1 (bd_year it.2)) (bd_month it.2) (bd_day it.2) = true ->
  ~ (bd_month it.2 = 2 /\ bd_day it.2 = 29) ->
  exists r, classify g (replace_midnight now) days it = Ret r.
Proof.
  intros Hv Hy Hd Hleap. unfold classify.
  destruct (get_member g it.1); [|eauto].
  unfold new. rewrite Hd. cbn [obind].
  destruct (_ && _); [eauto|].
  unfold next_birthday, replace_year.
  cbn [year month day hour minute second microsecond replace_midnight].
  unfold valid in Hv. apply andb_true_iff in Hv as [Hv _].
  apply check_date_fields_spec in Hv as (Hyr & _).
  rewrite (check_date_fields_any_year _ (year now) _ _ Hd) by (assumption || lia).
  cbn [obind].
  rewrite (check_date_fields_any_year _ (year now + 1) _ _ Hd) by (assumption || lia).
  cbn [obind].
  destruct (days <? _); eauto.
Qed.

Lemma loop_completes (items : list (Z * bday)) (st : loop_state) :
  (forall it, it ∈ items -> exists r, classify g (replace_midnight now) days it = Ret r) ->
  exists st', for_each (loop_body g (replace_midnight now) days) items st = Ret st'.
Proof.
  revert st. induction items as [|it rest IH]; intros st Hall; cbn [for_each]; [eauto|].
  destruct (Hall it) as [r Hr]; [left|].
  unfold loop_body at 1. rewrite Hr. cbn [obind].
  apply IH. intros it' Hin. apply Hall. by right.
Qed.

(** Before the year 9999, the loop completes on every store whose records
    are dates other than February 29. *)
Lemma parse_bdays_completes (all_birthdays : gmap Z bday) :
  valid now = true ->
  year now < 9999 ->
  (forall mid bd, all_birthdays !! mid = Some bd ->
     _check_date_fields (year_or_1 (bd_year bd)) (bd_month bd) (bd_day bd) = true /\
     ~ (bd_month bd = 2 /\ bd_day bd = 29)) ->
  exists st, parse_bdays g now days all_birthdays = Ret st.
Proof.
  intros Hv Hy Hall. unfold parse_bdays. apply loop_completes.
  intros [mid bd] Hin. apply elem_of_map_to_list in Hin.
  destruct (Hall mid bd Hin) as [Hd Hleap].
  by apply classify_completes.
Qed.

Lemma upcoming_in_range (ctx : context) (w : world) :
  1 <= days <= 365 ->
  upcoming ctx now days w =
    let gid := guild_id (ctx_guild ctx) in
    let w1 := log (ReadAllMembers gid) w in
    match parse_bdays (ctx_guild ctx) now days (all_members gid w) with
    | Raise e => (w1, Raise e)
    | Ret st =>
        if decide (size st.1 = 0%nat) then (send "No upcoming birthdays." w1, Ret tt)
        else (log (SendEmbed (make_embed (embed_colour ctx) st)) w1, Ret tt)
    end.
Proof.
  intros Hd. unfold upcoming.
  replace ((days <? 1) || (365 <? days)) with false; [reflexivity|].
  symmetry. apply orb_false_iff. rewrite !Z.ltb_ge. lia.
Qed.

Lemma group_nonempty_size (parsed : gmap Z (list entry)) (k : Z) (e : entry) :
  e ∈ group k parsed -> size parsed <> 0%nat.
Proof.
  unfold group. intros He Hs. apply map_size_empty_iff in Hs. subst parsed.
  rewrite lookup_empty in He. inversion He.
Qed.

End Completes.

(** ** [upcoming]: the lookahead window *)

(** C5. A number of days outside [1, 365] is refused: the command replies
    with the range message and does nothing else. The stores are unchanged,
    the trace grows by that one message (no [ReadAllMembers], no embed) and
    the command returns normally. *)
Theorem upcoming_invalid_range (ctx : context) (now : datetime) (days : Z) (w : world) :
  days < 1 \/ 365 < days ->
  upcoming ctx now days w =
    (mkworld (member_store w) (guild_store w) (trace w ++ [Send range_message]), Ret tt).
Proof.
  intros Hd. unfold upcoming.
  replace ((days <? 1) || (365 <? days)) with true; [reflexivity|].
  symmetry. apply orb_true_iff. rewrite !Z.ltb_lt. exact Hd.
Qed.

Lemma upcoming_invalid_range_witness :
  upcoming (mkctx (mkguild 1 {[5]}) 5 0) (mkdt 2024 12 30 9 30 0 0) 400
           (mkworld {[1 := {[5 := mkbday (Some 2000) 12 30]}]} ∅ []) =
    (mkworld {[1 := {[5 := mkbday (Some 2000) 12 30]}]} ∅ [Send range_message], Ret tt).
Proof.
  exact (upcoming_invalid_range (mkctx (mkguild 1 {[5]}) 5 0) (mkdt 2024 12 30 9 30 0 0) 400
           (mkworld {[1 := {[5 := mkbday (Some 2000) 12 30]}]} ∅ [])
           (or_intror eq_refl)).
Defined.

(** C2, as stated, fails: with a window of 0 days and a member whose birthday
    is today, the command sends the range message and no embed at all. *)
Lemma upcoming_zero_window_refused :
  let g := mkguild 1 {[5]} in
  let now := mkdt 2024 12 30 9 30 0 0 in
  let w := mkworld {[1 := {[5 := mkbday (Some 2000) 12 30]}]} ∅ [] in
  today_exact now (all_members 1 w) = {[5]} /\
  5 ∈ guild_members g /\
  upcoming (mkctx g 5 0) now 0 w = (send range_message w, Ret tt) /\
  ~ (exists e, SendEmbed e ∈ trace (upcoming (mkctx g 5 0) now 0 w).1).
Proof.
  cbv zeta. split; [by vm_compute|]. split; [by vm_compute|]. split; [reflexivity|].
  intros [e He]. cbn in He.
  apply elem_of_cons in He as [He|He]; [discriminate | inversion He].
Qed.

(** C2, amended. A window of 0 days is always refused with the range message
    (no record is read, nothing is listed). Whenever the loop of the command
    completes, its group 0 lists exactly the members born on today's
    (month, day) that the guild still resolves. *)
Theorem upcoming_zero_refused_group_0_today_exact (ctx : context) (now : datetime) (w : world) :
  upcoming ctx now 0 w = (send range_message w, Ret tt) /\
  forall (days : Z) (st : loop_state),
    valid now = true ->
    parse_bdays (ctx_guild ctx) now days (all_members (guild_id (ctx_guild ctx)) w)
      = Ret st ->
    forall mid : Z,
      mid ∈ e_member <$> group 0 st.1 <->
      mid ∈ today_exact now (all_members (guild_id (ctx_guild ctx)) w) /\
      mid ∈ guild_members (ctx_guild ctx).
Proof.
  split; [reflexivity|].
  intros days st Hv Hp mid.
  rewrite list_elem_of_fmap. unfold today_exact.
  rewrite elem_of_dom. split.
  - intros (e & -> & He).
    apply (group_today _ _ _ _ _ _ Hv Hp) in He as (mid & bd & Hl & Hm & Ht & ->).
    rewrite make_entry_member. cbn. split; [|assumption].
    exists bd. apply map_lookup_filter_Some. auto.
  - intros [[bd Hf] Hm]. apply map_lookup_filter_Some in Hf as [Hl Ht]. cbn in Ht.
    exists (make_entry (mkmember mid) "turns" (replace_midnight now) (birthday_dt_of bd)).
    split; [by rewrite make_entry_member|].
    apply (group_today _ _ _ _ _ _ Hv Hp). eauto 6.
Qed.

Lemma upcoming_zero_refused_group_0_today_exact_witness :
  let ctx := mkctx (mkguild 1 {[5; 6]}) 5 0 in
  let now := mkdt 2024 12 30 9 30 0 0 in
  let w := mkworld {[1 := {[5 := mkbday (Some 2000) 12 30; 6 := mkbday None 12 31;
                            7 := mkbday None 12 30]}]} ∅ [] in
  exists st,
    parse_bdays (ctx_guild ctx) now 7 (all_members 1 w) = Ret st /\
    group 0 st.1 = [mkentry 5 (Some 24) "<@5> turns 24"] /\
    forall mid : Z,
      mid ∈ e_member <$> group 0 st.1 <->
      mid ∈ today_exact now (all_members 1 w) /\ mid ∈ guild_members (ctx_guild ctx).
Proof.
  cbv zeta. eexists. split; [vm_compute; reflexivity|]. split; [reflexivity|].
  apply (proj2 (upcoming_zero_refused_group_0_today_exact
                  (mkctx (mkguild 1 {[5; 6]}) 5 0) (mkdt 2024 12 30 9 30 0 0)
                  (mkworld {[1 := {[5 := mkbday (Some 2000) 12 30; 6 := mkbday None 12 31;
                                    7 := mkbday None 12 30]}]} ∅ [])) 7).
  - reflexivity.
  - vm_compute. reflexivity.
Defined.

(** C3. For a number of days in [1, 365], when the loop of the command
    completes the command sends "No upcoming birthdays." or the embed built
    from the groups; every member listed in the groups has a number of days
    in [0, days], and no member is listed twice. *)
Theorem upcoming_days_in_window_members_once
  (ctx : context) (now : datetime) (days : Z) (w : world) (st : loop_state) :
  valid now = true ->
  1 <= days <= 365 ->
  parse_bdays (ctx_guild ctx) now days (all_members (guild_id (ctx_guild ctx)) w) = Ret st ->
  upcoming ctx now days w =
    (let w1 := log (ReadAllMembers (guild_id (ctx_guild ctx))) w in
     if decide (size st.1 = 0%nat) then send "No upcoming birthdays." w1
     else log (SendEmbed (make_embed (embed_colour ctx) st)) w1, Ret tt) /\
  (forall k e, (k, e) ∈ flat (sorted_items st.1) -> 0 <= k <= days) /\
  NoDup ((fun p : Z * entry => e_member p.2) <$> flat (sorted_items st.1)).
Proof.
  intros Hv Hd Hp. pose proof (parse_bdays_flat _ _ _ _ _ Hp) as Hflat. split; [|split].
  - rewrite (upcoming_in_range _ _ _ _ Hd). cbv zeta. rewrite Hp.
    by destruct (decide (size st.1 = 0%nat)).
  - intros k e Hin. rewrite Hflat in Hin.
    apply elem_of_yielded in Hin as (it & name & _ & Hc).
    apply (classify_Some_inv _ _ _ _ _ _ _ Hv) in Hc as [_ [(_ & -> & _)|(_ & Hk & _)]]; lia.
  - rewrite Hflat.
    exact (sublist_NoDup _ _ (NoDup_fst_map_to_list _) (yielded_members_sublist _ _ _ _)).
Qed.

Lemma upcoming_days_in_window_members_once_witness :
  let ctx := mkctx (mkguild 1 {[5; 6; 8]}) 5 0 in
  let now := mkdt 2024 12 30 9 30 0 0 in
  let w := mkworld {[1 := {[5 := mkbday (Some 2000) 1 2; 6 := mkbday None 12 31;
                            7 := mkbday None 12 30; 8 := mkbday (Some 1990) 12 30]}]}
                   ∅ [] in
  exists st,
    parse_bdays (ctx_guild ctx) now 7 (all_members 1 w) = Ret st /\
    (fun p : Z * entry => (p.1, e_member p.2)) <$> flat (sorted_items st.1)
      = [(0, 8); (1, 6); (3, 5)] /\
    upcoming ctx now 7 w =
      (let w1 := log (ReadAllMembers 1) w in
       if decide (size st.1 = 0%nat) then send "No upcoming birthdays." w1
       else log (SendEmbed (make_embed 0 st)) w1, Ret tt) /\
    (forall k e, (k, e) ∈ flat (sorted_items st.1) -> 0 <= k <= 7) /\
    NoDup ((fun p : Z * entry => e_member p.2) <$> flat (sorted_items st.1)).
Proof.
  cbv zeta. eexists. split; [vm_compute; reflexivity|]. split; [by vm_compute|].
  apply (upcoming_days_in_window_members_once (mkctx (mkguild 1 {[5; 6; 8]}) 5 0)
           (mkdt 2024 12 30 9 30 0 0) 7
           (mkworld {[1 := {[5 := mkbday (Some 2000) 1 2; 6 := mkbday None 12 31;
                             7 := mkbday None 12 30; 8 := mkbday (Some 1990) 12 30]}]}
                    ∅ [])).
  - reflexivity.
  - lia.
  - vm_compute. reflexivity.
Defined.

(** ** [upcoming]: ages and today's birthdays *)

(** The age an entry shows is always today's year minus the stored year,
    in both branches of the loop; a record without a year shows none. *)
Lemma upcoming_age_shown
  (g : guild) (now : datetime) (days : Z) (all_birthdays : gmap Z bday) (st : loop_state)
  (k : Z) (e : entry) :
  valid now = true ->
  parse_bdays g now days all_birthdays = Ret st ->
  (k, e) ∈ flat (sorted_items st.1) ->
  exists bd, all_birthdays !! e_member e = Some bd /\
             e_age e = if year_or_1 (bd_year bd) =? 1 then None
                       else Some (year now - year_or_1 (bd_year bd)).
Proof.
  intros Hv Hp Hin. rewrite (parse_bdays_flat _ _ _ _ _ Hp) in Hin.
  apply elem_of_yielded in Hin as ([mid bd] & name & Hl & Hc).
  apply elem_of_map_to_list in Hl.
  apply (classify_Some_inv _ _ _ _ _ _ _ Hv) in Hc as [_ [(_ & _ & ->)|(_ & _ & ->)]];
    rewrite make_entry_member, make_entry_age; cbn; eauto.
Qed.

(** C1 at a year wrap. On 2024-12-30, a member born on 2000-01-02 is listed
    three days ahead: the next occurrence is 2025-01-02, on which the member
    turns 2025 - 2000 = 25, and the line sent reads "will turn 24". *)
Theorem upcoming_age_at_year_wrap :
  let ctx := mkctx (mkguild 1 {[5]}) 5 0 in
  let now := mkdt 2024 12 30 9 30 0 0 in
  let bd := mkbday (Some 2000) 1 2 in
  let w := mkworld {[1 := {[5 := bd]}]} ∅ [] in
  next_birthday (replace_midnight now) (birthday_dt_of bd) = Ret (mkdt 2025 1 2 0 0 0 0) /\
  (exists st, parse_bdays (ctx_guild ctx) now 7 (all_members 1 w) = Ret st /\
              sorted_items st.1 = [(3, [mkentry 5 (Some 24) "<@5> will turn 24"])]) /\
  trace (upcoming ctx now 7 w).1 =
    [ReadAllMembers 1;
     SendEmbed (mkembed "Upcoming Birthdays" 0 None
                        [(Some "January 02", "<@5> will turn 24")])] /\
  Some 24 <> Some (year (mkdt 2025 1 2 0 0 0 0) - 2000).
Proof.
  cbv zeta. split; [reflexivity|]. split.
  - eexists. split; [vm_compute; reflexivity | reflexivity].
  - split; [by vm_compute | discriminate].
Qed.

(** C4, as stated, fails. A record on today's (month, day) whose member the
    guild no longer resolves is skipped, and "No upcoming birthdays." is
    sent. The record (2, 29, 2000) on 2024-02-29 with a window of 0 days is
    refused with the range message: no group is built. *)
Lemma upcoming_today_record_not_listed :
  let now := mkdt 2024 12 30 9 30 0 0 in
  let w := mkworld {[1 := {[7 := mkbday (Some 2000) 12 30]}]} ∅ [] in
  let leap_day := mkdt 2024 2 29 9 30 0 0 in
  let w' := mkworld {[1 := {[5 := mkbday (Some 2000) 2 29]}]} ∅ [] in
  (all_members 1 w !! 7 = Some (mkbday (Some 2000) 12 30) /\
   on_day now (mkbday (Some 2000) 12 30) /\
   upcoming (mkctx (mkguild 1 {[5]}) 5 0) now 7 w =
     (mkworld (member_store w) ∅ [ReadAllMembers 1; Send "No upcoming birthdays."],
      Ret tt)) /\
  (all_members 1 w' !! 5 = Some (mkbday (Some 2000) 2 29) /\
   on_day leap_day (mkbday (Some 2000) 2 29) /\
   upcoming (mkctx (mkguild 1 {[5]}) 5 0) leap_day 0 w' =
     (mkworld (member_store w') ∅ [Send range_message], Ret tt)).
Proof.
  cbv zeta. split; (split; [by vm_compute|]); (split; [by split|]); by vm_compute.
Qed.

(** C4, amended. For a number of days in [1, 365], when the command returns
    without raising and the guild still resolves the member, a record on
    today's (month, day) puts the member in group 0 of the embed that is
    sent, with the age today's year minus the stored year when a year is
    stored. In particular the record (2, 29, 2000) on 2024-02-29 lists the
    member under "Today" as turning 24. *)
Theorem upcoming_birthday_today_in_group_0 :
  (forall (ctx : context) (now : datetime) (days : Z) (w : world) (mid : Z) (bd : bday),
     valid now = true ->
     1 <= days <= 365 ->
     all_members (guild_id (ctx_guild ctx)) w !! mid = Some bd ->
     mid ∈ guild_members (ctx_guild ctx) ->
     on_day now bd ->
     (upcoming ctx now days w).2 = Ret tt ->
     exists st e,
       parse_bdays (ctx_guild ctx) now days (all_members (guild_id (ctx_guild ctx)) w)
         = Ret st /\
       (upcoming ctx now days w).1 =
         log (SendEmbed (make_embed (embed_colour ctx) st))
             (log (ReadAllMembers (guild_id (ctx_guild ctx))) w) /\
       e ∈ group 0 st.1 /\ e_member e = mid /\
       e_age e = if year_or_1 (bd_year bd) =? 1 then None
                 else Some (year now - year_or_1 (bd_year bd))) /\
  trace (upcoming (mkctx (mkguild 1 {[5]}) 5 0) (mkdt 2024 2 29 9 30 0 0) 7
                  (mkworld {[1 := {[5 := mkbday (Some 2000) 2 29]}]} ∅ [])).1 =
    [ReadAllMembers 1;
     SendEmbed (mkembed "Upcoming Birthdays" 0 None [(Some "Today", "<@5> turns 24")])].
Proof.
  split; [|by vm_compute].
  intros ctx now days w mid bd Hv Hd Hl Hm Ht.
  rewrite (upcoming_in_range _ _ _ _ Hd). cbv zeta.
  destruct (parse_bdays _ _ _ _) as [st|] eqn:Hp; [|discriminate].
  intros _.
  pose (e := make_entry (mkmember mid) "turns" (replace_midnight now) (birthday_dt_of bd)).
  assert (e ∈ group 0 st.1) as He.
  { apply (group_today _ _ _ _ _ _ Hv Hp). exists mid, bd. auto. }
  exists st, e. split; [reflexivity|].
  destruct (decide (size st.1 = 0%nat)) as [Hs|_].
  - by apply group_nonempty_size in He.
  - cbn [fst]. split; [reflexivity|]. split; [assumption|]. subst e.
    split; [apply make_entry_member | by rewrite make_entry_age].
Qed.

Lemma upcoming_birthday_today_in_group_0_witness :
  let ctx := mkctx (mkguild 1 {[5; 6]}) 5 0 in
  let now := mkdt 2024 2 29 9 30 0 0 in
  let w := mkworld {[1 := {[5 := mkbday (Some 2000) 2 29; 6 := mkbday None 3 1]}]} ∅ [] in
  exists st e,
    parse_bdays (ctx_guild ctx) now 30 (all_members 1 w) = Ret st /\
    (upcoming ctx now 30 w).1 =
      log (SendEmbed (make_embed 0 st)) (log (ReadAllMembers 1) w) /\
    e ∈ group 0 st.1 /\ e_member e = 5 /\ e_age e = Some 24.
Proof.
  cbv zeta.
  apply (proj1 upcoming_birthday_today_in_group_0
               (mkctx (mkguild 1 {[5; 6]}) 5 0) (mkdt 2024 2 29 9 30 0 0) 30
               (mkworld {[1 := {[5 := mkbday (Some 2000) 2 29; 6 := mkbday None 3 1]}]} ∅ [])
               5 (mkbday (Some 2000) 2 29)).
  - reflexivity.
  - lia.
  - by vm_compute.
  - by vm_compute.
  - split; reflexivity.
  - by vm_compute.
Defined.

(** C8 at a leap-day record. The record (2000, 2, 29) makes the command raise
    [ValueError] on 2023-03-01 (at [replace(year=2023)]) and on 2024-02-01
    (at [replace(year=2025)]); the record (no year, 2, 29) makes it raise
    even on 2024-02-29 (at [datetime(year=1, month=2, day=29)]). Nothing is
    sent. *)
Theorem upcoming_leap_day_raises :
  let ctx := mkctx (mkguild 1 {[5]}) 5 0 in
  let w := mkworld {[1 := {[5 := mkbday (Some 2000) 2 29]}]} ∅ [] in
  let w' := mkworld {[1 := {[5 := mkbday None 2 29]}]} ∅ [] in
  upcoming ctx (mkdt 2023 3 1 9 30 0 0) 7 w = (log (ReadAllMembers 1) w, Raise ValueError) /\
  upcoming ctx (mkdt 2024 2 1 9 30 0 0) 30 w = (log (ReadAllMembers 1) w, Raise ValueError) /\
  upcoming ctx (mkdt 2024 2 29 9 30 0 0) 7 w' = (log (ReadAllMembers 1) w', Raise ValueError).
Proof. cbv zeta. repeat split; by vm_compute. Qed.

(** ** The notification time *)

(** What [interactive] stores for a parsed time: hours, minutes and seconds
    all count; only the microseconds are dropped. *)
Lemma interactive_time_utc_s_value (now parsed : datetime) :
  valid parsed = true ->
  interactive_time_utc_s now parsed =
    hour parsed * 3600 + minute parsed * 60 + second parsed.
Proof.
  unfold valid, _check_time_fields. rewrite !andb_true_iff, !Z.leb_le.
  intros (_ & ?). unfold interactive_time_utc_s, midnight_of, replace_epoch_day.
  unfold sub, new_timedelta, int_total_seconds, toordinal.
  cbn [year month day hour minute second microsecond days seconds microseconds].
  rewrite Z.sub_diag.
  replace (0 + 0 * 60 + 0 * 3600) with 0 by reflexivity.
  rewrite !Z.sub_0_r, Z.add_0_l.
  rewrite (Z.div_small (microsecond parsed)) by lia.
  rewrite (Z.mod_small (microsecond parsed)) by lia.
  rewrite Z.add_0_r.
  rewrite (Z.div_small (_ + _ + _)) by lia.
  rewrite (Z.mod_small (_ + _ + _)) by lia.
  rewrite Z.quot_div_nonneg by lia.
  rewrite Z.mul_0_l, Z.add_0_l.
  rewrite Z.div_add_l by lia. rewrite Z.div_small by lia. lia.
Qed.

Lemma interactive_time_utc_s_range (now parsed : datetime) :
  valid parsed = true -> 0 <= interactive_time_utc_s now parsed < 86400.
Proof.
  intros Hv. rewrite (interactive_time_utc_s_value _ _ Hv).
  unfold valid, _check_time_fields in Hv. rewrite !andb_true_iff, !Z.leb_le in Hv. lia.
Qed.

Example time_store_seven_o_clock :
  time_utc_s (guild_all 1 (time_store (mkctx (mkguild 1 {[5]}) 5 0)
                                      (mkdt 2024 5 17 18 45 12 345678)
                                      (mkdt 1 1 1 7 0 0 0) (mkworld ∅ ∅ [])))
    = Some 25200.
Proof. by vm_compute. Qed.

(** C6 at a time with seconds. The reply "7:00:30" parses to 07:00:30;
    [interactive] stores 25230 = 7 * 3600 + 30, which is not a multiple
    of 60: the seconds are kept. *)
Theorem interactive_time_keeps_seconds :
  let ctx := mkctx (mkguild 1 {[5]}) 5 0 in
  let now := mkdt 2024 5 17 18 45 12 345678 in
  let parsed := mkdt 2024 5 17 7 0 30 0 in
  let w := mkworld ∅ ∅ [] in
  valid parsed = true /\
  interactive_time_utc_s now parsed = 25230 /\
  time_utc_s (guild_all 1 (interactive_finish ctx "!" now parsed "a" "b" 10 11 w).1)
    = Some 25230 /\
  25230 mod 60 = 30.
Proof. cbv zeta. repeat split; by vm_compute. Qed.

(** ** Setting a birthday *)

(** C7. [set] and [force] refuse a given year (a year other than the
    sentinel 1) below [MIN_BDAY_YEAR]: they send the refusal and leave the
    stores as they were. Hence a world whose member store differs after
    either command had a birthday with no year given or a year of at least
    [MIN_BDAY_YEAR]. *)
Theorem set_force_refuse_early_year
  (MIN_BDAY_YEAR : Z) (ctx : context) (now : datetime) (user : Z) (user_name : string)
  (birthday : datetime) (w : world) :
  (year birthday <> 1 /\ year birthday < MIN_BDAY_YEAR ->
   set MIN_BDAY_YEAR ctx now birthday w =
     (mkworld (member_store w) (guild_store w)
              (trace w ++ [Send ("I'm sorry, but I can't set your birthday to before "
                                 +:+ pretty MIN_BDAY_YEAR +:+ ".")]), Ret tt) /\
   force MIN_BDAY_YEAR ctx now user user_name birthday w =
     (mkworld (member_store w) (guild_store w)
              (trace w ++ [Send ("I'm sorry, but I can't set a birthday to before "
                                 +:+ pretty MIN_BDAY_YEAR +:+ ".")]), Ret tt)) /\
  (member_store (set MIN_BDAY_YEAR ctx now birthday w).1 <> member_store w \/
   member_store (force MIN_BDAY_YEAR ctx now user user_name birthday w).1 <> member_store w ->
   year birthday = 1 \/ MIN_BDAY_YEAR <= year birthday).
Proof.
  unfold set, force.
  destruct (negb (year birthday =? 1) && (year birthday <? MIN_BDAY_YEAR)) eqn:Hg.
  - split; [intros _; split; reflexivity|].
    cbn [fst send log member_store]. intros [H|H]; contradiction.
  - apply andb_false_iff in Hg. rewrite negb_false_iff, Z.eqb_eq, Z.ltb_ge in Hg.
    split; [lia|]. intros _. lia.
Qed.

Lemma set_force_refuse_early_year_witness :
  let ctx := mkctx (mkguild 1 {[5; 6]}) 5 0 in
  let w := mkworld {[1 := {[6 := mkbday (Some 1999) 4 5]}]} ∅ [] in
  set 1900 ctx (mkdt 2024 5 17 18 45 12 0) (mkdt 1850 3 4 0 0 0 0) w =
    (mkworld (member_store w) (guild_store w)
             [Send "I'm sorry, but I can't set your birthday to before 1900."], Ret tt) /\
  force 1900 ctx (mkdt 2024 5 17 18 45 12 0) 6 "Sam" (mkdt 1850 3 4 0 0 0 0) w =
    (mkworld (member_store w) (guild_store w)
             [Send "I'm sorry, but I can't set a birthday to before 1900."], Ret tt).
Proof.
  cbv zeta.
  apply (proj1 (set_force_refuse_early_year 1900 (mkctx (mkguild 1 {[5; 6]}) 5 0)
                  (mkdt 2024 5 17 18 45 12 0) 6 "Sam" (mkdt 1850 3 4 0 0 0 0)
                  (mkworld {[1 := {[6 := mkbday (Some 1999) 4 5]}]} ∅ []))).
  split; [discriminate | reflexivity].
Defined.

(** ** The message templates *)

Lemma guild_all_write_guild (gid : Z) (c : guild_conf) (w : world) :
  guild_all gid (write_guild gid c w) = c.
Proof. unfold guild_all, write_guild. cbn. by rewrite lookup_insert_eq. Qed.

Lemma guild_all_log (gid : Z) (ev : event) (w : world) :
  guild_all gid (log ev w) = guild_all gid w.
Proof. reflexivity. Qed.

(** C9. [msgwithyear] and [msgwithoutyear] store the message they are given,
    whatever its length; a message longer than [MAX_BDAY_MSG_LEN] is
    reported as too long and stored all the same. *)
Theorem msg_commands_store_any_length
  (MAX_BDAY_MSG_LEN : Z) (format_bday_message : string -> Z -> option Z -> outcome string)
  (ctx : context) (message : string) (w : world) :
  let gid := guild_id (ctx_guild ctx) in
  let w_year := (msgwithyear MAX_BDAY_MSG_LEN format_bday_message ctx message w).1 in
  let wo_year := (msgwithoutyear MAX_BDAY_MSG_LEN format_bday_message ctx message w).1 in
  message_w_year (guild_all gid w_year) = Some message /\
  message_wo_year (guild_all gid wo_year) = Some message /\
  (MAX_BDAY_MSG_LEN < Z.of_nat (String.length message) ->
   Send too_long_message ∈ trace w_year /\ Send too_long_message ∈ trace wo_year).
Proof.
  cbv zeta. unfold msgwithyear, msgwithoutyear.
  destruct (format_bday_message message (ctx_author ctx) (Some 20));
    destruct (format_bday_message message (ctx_author ctx) None);
    cbn [fst]; unfold send; rewrite ?guild_all_log, !guild_all_write_guild;
    (split; [reflexivity|]); (split; [reflexivity|]);
    intros Hlen; apply Z.ltb_lt in Hlen; rewrite Hlen;
    cbn [trace log send write_guild];
    split; rewrite !elem_of_app, !list_elem_of_singleton; auto 10.
Qed.

Lemma msg_commands_store_any_length_witness :
  let ctx := mkctx (mkguild 1 {[5]}) 5 0 in
  let fmt := fun (m : string) (_ : Z) (_ : option Z) => Ret m in
  let message := string_of_list_ascii (repeat (Ascii.ascii_of_nat 97) 751) in
  let w := mkworld ∅ {[1 := mkconf (Some 0) None (Some "old") (Some 10) (Some 11) 4]} [] in
  750 < Z.of_nat (String.length message) /\
  Send too_long_message ∈ trace (msgwithyear 750 fmt ctx message w).1 /\
  Send too_long_message ∈ trace (msgwithoutyear 750 fmt ctx message w).1.
Proof.
  cbv zeta. split; [by vm_compute|].
  apply (proj2 (proj2 (msg_commands_store_any_length 750
                         (fun (m : string) (_ : Z) (_ : option Z) => Ret m)
                         (mkctx (mkguild 1 {[5]}) 5 0)
                         (string_of_list_ascii (repeat (Ascii.ascii_of_nat 97) 751))
                         (mkworld ∅ {[1 := mkconf (Some 0) None (Some "old") (Some 10)
                                                  (Some 11) 4]} [])))).
  by vm_compute.
Defined.

(** ** The button predicate *)

Section WaitForPress.
Variable Ref : Type.



















(** A button made by the constructor finds its row among the five. *)
Lemma new_button_row_found (ref : option Ref) (style : Z) (label : string)
  (row : option Z) (b : ButtonPred._PredButton Ref) (weights : list Z) (value : Z) :
  ButtonPred.new_button Ref ref style label row = Ret b ->
  length weights = 5%nat ->
  ButtonPred.b_row Ref b = Some value ->
  0 <= value < 5 /\ is_Some (weights !! Z.to_nat value).
Proof.
  unfold ButtonPred.new_button. destruct row as [r|]; [|by intros [= <-]].
  destruct (Z.ltb_spec r 5), (Z.leb_spec 0 r); cbn [andb]; try discriminate.
  intros [= <-] Hlen [= <-]. split; [lia|]. apply lookup_lt_is_Some. lia.
Qed.




End WaitForPress.

(** C10, as stated, does not hold: a non-empty list raises [ValueError] too
    when discord.py refuses a button, which it does for the 26th button of
    a view, for the sixth button of a row and for a row outside 0..4; the
    view has been constructed by then. *)
Lemma wait_for_press_value_error_nonempty :
  let item := fun row : option Z => ButtonPred.mkitem Z (Some 1) 1 "Open" row in
  let button := fun row : option Z => ButtonPred.mkbutton Z (Some 1) 1 "Open" row in
  ButtonPred.wait_for_press Z 5 (repeat (item None) 26) (Some "Pick one") None 180
    (Some 0%nat) []
  = (ButtonPred.ViewCreated Z 180 5 :: repeat (ButtonPred.ItemAdded Z (button None)) 25,
     Raise ValueError) /\
  ButtonPred.wait_for_press Z 5 (repeat (item (Some 0)) 6) (Some "Pick one") None 180
    (Some 0%nat) []
  = (ButtonPred.ViewCreated Z 180 5 :: repeat (ButtonPred.ItemAdded Z (button (Some 0))) 5,
     Raise ValueError) /\
  ButtonPred.wait_for_press Z 5 [item (Some 5)] (Some "Pick one") None 180 (Some 0%nat) []
  = ([ButtonPred.ViewCreated Z 180 5], Raise ValueError).
Proof. cbv zeta. split_and!; by vm_compute. Qed.



Example wait_for_press_pressed :
  ButtonPred.wait_for_press Z 5
    [ButtonPred.mkitem Z (Some 1) 1 "Yes" None; ButtonPred.mkitem Z (Some 2) 1 "No" None]
    (Some "Pick one") None 180 (Some 1%nat) []
  = ([ButtonPred.ViewCreated Z 180 5;
      ButtonPred.ItemAdded Z (ButtonPred.mkbutton Z (Some 1) 1 "Yes" None);
      ButtonPred.ItemAdded Z (ButtonPred.mkbutton Z (Some 2) 1 "No" None);
      ButtonPred.CtxSend Z (Some "Pick one") None
        (ButtonPred.mkview Z 180 None 5
           [ButtonPred.mkbutton Z (Some 1) 1 "Yes" None;
            ButtonPred.mkbutton Z (Some 2) 1 "No" None]
           [2; 0; 0; 0; 0]);
      ButtonPred.Waited Z 180],
     Ret 2).
Proof. reflexivity. Qed.


(** * Further properties of the code *)

(** ** [upcoming]: what the reply contains *)

(** A loop invariant proved once: a property that every completed iteration
    preserves holds after a completed loop. *)
Lemma for_each_invariant {S A : Type} (P : S -> Prop) (body : S -> A -> outcome S)
  (xs : list A) (st st' : S) :
  (forall s x s', x ∈ xs -> P s -> body s x = Ret s' -> P s') ->
  P st ->
  for_each body xs st = Ret st' ->
  P st'.
Proof.
  revert st. induction xs as [|x rest IH]; intros st Hstep Hst; cbn [for_each].
  - by intros [= <-].
  - destruct (body st x) as [s1|] eqn:Hb; cbn [obind]; [|discriminate].
    apply IH.
    + intros s y s' Hin. apply Hstep. by right.
    + apply (Hstep st x s1); [left|assumption..].
Qed.

(** X1. [upcoming] never writes: whatever it is given, both stores are the
    ones it found. When it returns it has sent exactly one reply, after the
    read of the records if the number of days was accepted; when it raises
    it has read the records and sent nothing. *)
Theorem upcoming_read_only (ctx : context) (now : datetime) (days : Z) (w : world) :
  let r := upcoming ctx now days w in
  let read := ReadAllMembers (guild_id (ctx_guild ctx)) in
  member_store r.1 = member_store w /\
  guild_store r.1 = guild_store w /\
  ((exists reply,
      (trace r.1 = (trace w ++ [reply])%list \/
       trace r.1 = (trace w ++ [read; reply])%list) /\
      r.2 = Ret tt /\
      match reply with Send _ | SendEmbed _ => True | _ => False end) \/
   (trace r.1 = (trace w ++ [read])%list /\ exists e, r.2 = Raise e)).
Proof.
  cbv zeta. unfold upcoming.
  destruct ((days <? 1) || (365 <? days)).
  - cbn. split; [reflexivity|]. split; [reflexivity|]. left.
    exists (Send range_message). auto.
  - destruct (parse_bdays _ _ _ _) as [st|e].
    + destruct (decide (size st.1 = 0%nat)); cbn;
        (split; [reflexivity|]); (split; [reflexivity|]); left.
      * exists (Send "No upcoming birthdays."). rewrite <- app_assoc. auto.
      * exists (SendEmbed (make_embed (embed_colour ctx) st)). rewrite <- app_assoc. auto.
    + cbn. split; [reflexivity|]. split; [reflexivity|]. right. eauto.
Qed.

Section Listed.
Variable g : guild.
Variable now : datetime.

Lemma next_birthday_inv (bd : bday) (nb : datetime) :
  next_birthday (replace_midnight now) (birthday_dt_of bd) = Ret nb ->
  exists y, (y = year now \/ y = year now + 1) /\
            nb = mkdt y (bd_month bd) (bd_day bd) 0 0 0 0 /\
            _check_date_fields y (bd_month bd) (bd_day bd) = true /\
            PyDatetime.days (sub nb (replace_midnight now)) = toordinal nb - toordinal now.
Proof.
  unfold next_birthday, replace_year, birthday_dt_of, replace_midnight.
  cbn [year month day hour minute second microsecond].
  destruct (_check_date_fields (year now) _ _) eqn:H1; cbn [obind]; [|discriminate].
  destruct (_check_date_fields (year now + 1) _ _) eqn:H2; cbn [obind]; [|discriminate].
  destruct (gt _ _); intros [= <-].
  - exists (year now). rewrite sub_midnight_days. auto.
  - exists (year now + 1). rewrite sub_midnight_days. auto.
Qed.

(** What one record contributes, in full. *)
Lemma classify_Some_iff (days : Z) (it : Z * bday) (k : Z) (e : entry) (name : string) :
  valid now = true ->
  (exists r, classify g (replace_midnight now) days it = Ret r) ->
  classify g (replace_midnight now) days it = Ret (Some (k, e, name)) <->
  it.1 ∈ guild_members g /\
  ((on_day now it.2 /\ k = 0 /\ name = "Today" /\
    e = make_entry (mkmember it.1) "turns" (replace_midnight now) (birthday_dt_of it.2)) \/
   (~ on_day now it.2 /\
    exists nb, next_birthday (replace_midnight now) (birthday_dt_of it.2) = Ret nb /\
               k = toordinal nb - toordinal now /\ 1 <= k <= days /\
               name = strftime_B_d nb /\
               e = make_entry (mkmember it.1) "will turn" (replace_midnight now)
                              (birthday_dt_of it.2))).
Proof.
  intros Hv [r Hr]. revert Hr. unfold classify, get_member.
  destruct (decide (it.1 ∈ guild_members g)) as [Hin|Hnin].
  2:{ intros _. split; [discriminate | tauto]. }
  destruct (new _ _ _) as [b|] eqn:Hb; cbn [obind]; [|discriminate].
  apply new_birthday_dt in Hb. subst b.
  destruct (_ && _) eqn:Ht.
  - apply today_test in Ht. intros _. split.
    + intros [= <- <- <-]. split; [assumption|]. left. auto.
    + intros [_ [(_ & -> & -> & ->)|(Hn & _)]]; [reflexivity | contradiction].
  - assert (~ on_day now it.2) as Hnt.
    { intros H. apply today_test in H. congruence. }
    destruct (next_birthday _ _) as [nb|] eqn:Hnb; cbn [obind]; [|discriminate].
    intros _.
    pose proof (next_birthday_days now (birthday_dt_of it.2) nb Hv Hnb) as Hge.
    destruct (next_birthday_inv _ _ Hnb) as (y & _ & _ & _ & Hdiff).
    destruct (days <? _) eqn:Hw.
    + apply Z.ltb_lt in Hw. split; [discriminate|].
      intros [_ [(Ht' & _)|(_ & nb' & [= <-] & -> & Hk & _)]]; [contradiction | lia].
    + apply Z.ltb_ge in Hw. split.
      * intros [= <- <- <-]. split; [assumption|]. right. split; [assumption|].
        exists nb. repeat split; try assumption; lia.
      * intros [_ [(Ht' & _)|(_ & nb' & [= <-] & -> & Hk & -> & ->)]]; [contradiction|].
        by rewrite Hdiff.
Qed.

(** The listing, in full, for a loop that completed. *)
Lemma listed_iff
  (days : Z) (all_birthdays : gmap Z bday) (st : loop_state) (k : Z) (e : entry) :
  valid now = true ->
  parse_bdays g now days all_birthdays = Ret st ->
  (k, e) ∈ flat (sorted_items st.1) <->
  exists mid bd,
    all_birthdays !! mid = Some bd /\ mid ∈ guild_members g /\
    ((on_day now bd /\ k = 0 /\
      e = make_entry (mkmember mid) "turns" (replace_midnight now) (birthday_dt_of bd)) \/
     (~ on_day now bd /\
      exists nb, next_birthday (replace_midnight now) (birthday_dt_of bd) = Ret nb /\
                 k = toordinal nb - toordinal now /\ 1 <= k <= days /\
                 e = make_entry (mkmember mid) "will turn" (replace_midnight now)
                                (birthday_dt_of bd))).
Proof.
  intros Hv Hp. rewrite (parse_bdays_flat _ _ _ _ _ Hp), elem_of_yielded. split.
  - intros ([mid bd] & name & Hin & Hc).
    pose proof (loop_returns_each _ _ _ _ _ _ Hp _ Hin) as Hret.
    apply elem_of_map_to_list in Hin.
    apply (classify_Some_iff _ _ _ _ _ Hv Hret) in Hc as [Hm Hc]. cbn [fst snd] in *.
    exists mid, bd. split; [assumption|]. split; [assumption|].
    destruct Hc as [(? & ? & ? & ?)|(? & nb & ? & ? & ? & ? & ?)]; [left|right]; eauto 10.
  - intros (mid & bd & Hl & Hm & Hc).
    apply elem_of_map_to_list in Hl.
    pose proof (loop_returns_each _ _ _ _ _ _ Hp _ Hl) as Hret.
    destruct Hc as [(Ht & -> & ->)|(Hnt & nb & Hnb & -> & Hk & ->)].
    + exists (mid, bd), "Today". split; [assumption|].
      apply (classify_Some_iff _ _ _ _ _ Hv Hret). split; [assumption|]. left. auto.
    + exists (mid, bd), (strftime_B_d nb). split; [assumption|].
      apply (classify_Some_iff _ _ _ _ _ Hv Hret). split; [assumption|]. right.
      split; [assumption|]. exists nb. auto.
Qed.

End Listed.

(** X2. The listing, in full. When the loop completes, a line is listed in
    the group of day [k] exactly when it comes from the stored record of a
    member the guild resolves, and either the record is on today's
    (month, day) and [k = 0], or it is not and its next birthday is [k] days
    after today with [1 <= k <= days]. Members the guild does not resolve
    and birthdays beyond the window are never listed; every other record is. *)
Theorem upcoming_listed_iff
  (g : guild) (now : datetime) (days : Z) (all_birthdays : gmap Z bday) (st : loop_state)
  (k : Z) (e : entry) :
  valid now = true ->
  parse_bdays g now days all_birthdays = Ret st ->
  (k, e) ∈ flat (sorted_items st.1) <->
  exists mid bd,
    all_birthdays !! mid = Some bd /\ mid ∈ guild_members g /\
    ((on_day now bd /\ k = 0 /\
      e = make_entry (mkmember mid) "turns" (replace_midnight now) (birthday_dt_of bd)) \/
     (~ on_day now bd /\
      exists nb, next_birthday (replace_midnight now) (birthday_dt_of bd) = Ret nb /\
                 k = toordinal nb - toordinal now /\ 1 <= k <= days /\
                 e = make_entry (mkmember mid) "will turn" (replace_midnight now)
                                (birthday_dt_of bd))).
Proof. apply listed_iff. Qed.

Lemma upcoming_listed_iff_witness :
  let g := mkguild 1 {[5; 6; 8]} in
  let now := mkdt 2024 12 30 9 30 0 0 in
  let all_birthdays : gmap Z bday :=
    {[5 := mkbday (Some 2000) 1 2; 6 := mkbday None 12 31;
      7 := mkbday None 12 30; 8 := mkbday (Some 1990) 1 20]} in
  exists st,
    parse_bdays g now 7 all_birthdays = Ret st /\
    (3, mkentry 5 (Some 24) "<@5> will turn 24") ∈ flat (sorted_items st.1).
Proof.
  cbv zeta. eexists. split; [vm_compute; reflexivity|].
  refine (proj2 (upcoming_listed_iff (mkguild 1 {[5; 6; 8]}) (mkdt 2024 12 30 9 30 0 0) 7
                   {[5 := mkbday (Some 2000) 1 2; 6 := mkbday None 12 31;
                     7 := mkbday None 12 30; 8 := mkbday (Some 1990) 1 20]}
                   _ 3 (mkentry 5 (Some 24) "<@5> will turn 24")
                   eq_refl _) _); [vm_compute; reflexivity|].
  exists 5, (mkbday (Some 2000) 1 2).
  split; [reflexivity|]. split; [by vm_compute|]. right.
  split; [intros [H _]; discriminate|].
  exists (mkdt 2025 1 2 0 0 0 0). repeat split; by vm_compute.
Defined.

(** ** [upcoming]: the order and the names of the fields *)

#[local] Instance key_le_total : Total key_le.
Proof. intros a b. unfold key_le. lia. Qed.

#[local] Instance key_le_transitive : Transitive key_le.
Proof. intros a b c. unfold key_le. lia. Qed.



Section Names.
Variable g : guild.
Variable now : datetime.
Variable days : Z.

Lemma lookup_dict_append (k k' : Z) (e : entry) (d : gmap Z (list entry)) :
  is_Some (dict_append k e d !! k') <-> k = k' \/ is_Some (d !! k').
Proof.
  unfold dict_append. destruct (decide (k = k')) as [->|Hne].
  - rewrite lookup_insert_eq. split; eauto.
  - rewrite lookup_insert_ne by assumption. split; [auto | intros [?|?]; [contradiction|assumption]].
Qed.

Lemma loop_body_named (s s' : loop_state) (it : Z * bday) :
  valid now = true ->
  (forall k, is_Some (s.1 !! k) -> day_named now s k) ->
  loop_body g (replace_midnight now) days s it = Ret s' ->
  forall k, is_Some (s'.1 !! k) -> day_named now s' k.
Proof.
  intros Hv Hs. unfold loop_body.
  destruct (classify _ _ _ _) as [[[[k0 e] name]|]|] eqn:Hc; cbn [obind];
    [| by intros [= <-] | discriminate].
  intros [= <-] k. cbn [fst snd]. rewrite lookup_dict_append.
  apply (classify_Some_iff _ _ _ _ _ _ _ Hv (ex_intro _ _ Hc)) in Hc as [_ Hc].
  destruct (decide (k0 = k)) as [->|Hne].
  - intros _. unfold day_named. cbn [snd]. rewrite lookup_insert_eq.
    destruct Hc as [(_ & -> & -> & _)|(_ & nb & Hnb & -> & Hk & -> & _)]; [by left|].
    right. split; [lia|]. exists nb. split; [|split; [lia | reflexivity]].
    destruct (next_birthday_inv _ _ _ Hnb) as (y & _ & -> & Hchk & _).
    unfold valid. cbn. by rewrite Hchk.
  - intros [?|Hk]; [contradiction|]. specialize (Hs k Hk).
    unfold day_named in *. cbn [snd]. by rewrite lookup_insert_ne.
Qed.

Lemma parse_bdays_named (all_birthdays : gmap Z bday) (st : loop_state) :
  valid now = true ->
  parse_bdays g now days all_birthdays = Ret st ->
  forall k, is_Some (st.1 !! k) -> day_named now st k.
Proof.
  intros Hv. unfold parse_bdays.
  apply (for_each_invariant (fun s => forall k, is_Some (s.1 !! k) -> day_named now s k)).
  - intros s it s' _ Hs Hb. exact (loop_body_named _ _ _ Hv Hs Hb).
  - intros k [x Hx]. cbn in Hx. by rewrite lookup_empty in Hx.
Qed.

End Names.

(** X4. Every field of the embed has a name. The field of day 0 is named
    "Today"; the field of a later day [k] is named by the "%B %d" text of a
    date that lies exactly [k] days after today. *)
Theorem upcoming_fields_named
  (g : guild) (now : datetime) (days : Z) (all_birthdays : gmap Z bday) (st : loop_state)
  (col : Z) :
  valid now = true ->
  parse_bdays g now days all_birthdays = Ret st ->
  (forall k es, (k, es) ∈ sorted_items st.1 ->
     (k = 0 /\ st.2 !! k = Some "Today") \/
     (1 <= k /\ exists nb, valid nb = true /\ toordinal nb = toordinal now + k /\
                           st.2 !! k = Some (strftime_B_d nb))) /\
  (forall f, f ∈ embed_fields (make_embed col st) -> is_Some f.1).
Proof.
  intros Hv Hp.
  assert (forall k es, (k, es) ∈ sorted_items st.1 -> day_named now st k) as Hnamed.
  { intros k es Hin. apply (parse_bdays_named _ _ _ _ _ Hv Hp).
    unfold sorted_items in Hin. rewrite merge_sort_Permutation in Hin.
    apply elem_of_map_to_list in Hin. eauto. }
  split; [exact Hnamed|].
  intros f Hf. unfold make_embed in Hf. cbn [embed_fields] in Hf.
  apply list_elem_of_fmap in Hf as ([k es] & -> & Hin). cbn [fst].
  destruct (Hnamed k es Hin) as [(_ & ->)|(_ & nb & _ & _ & ->)]; eauto.
Qed.

Lemma upcoming_fields_named_witness :
  let g := mkguild 1 {[5; 6; 8]} in
  let now := mkdt 2024 12 30 9 30 0 0 in
  let all_birthdays : gmap Z bday :=
    {[5 := mkbday (Some 2000) 1 2; 6 := mkbday None 12 31; 8 := mkbday (Some 1990) 12 30]} in
  exists st,
    parse_bdays g now 7 all_birthdays = Ret st /\
    embed_fields (make_embed 0 st) =
      [(Some "Today", "<@8> turns 34"); (Some "December 31", "<@6>");
       (Some "January 02", "<@5> will turn 24")] /\
    forall f, f ∈ embed_fields (make_embed 0 st) -> is_Some f.1.
Proof.
  cbv zeta. eexists. split; [vm_compute; reflexivity|]. split; [by vm_compute|].
  refine (proj2 (upcoming_fields_named (mkguild 1 {[5; 6; 8]}) (mkdt 2024 12 30 9 30 0 0) 7
                   {[5 := mkbday (Some 2000) 1 2; 6 := mkbday None 12 31;
                     8 := mkbday (Some 1990) 12 30]} _ 0 eq_refl _)).
  vm_compute. reflexivity.
Defined.

(** ** [upcoming]: widening the window *)

Section Window.
Variable g : guild.
Variable now : datetime.

Lemma classify_returns_window (days days' : Z) (it : Z * bday) :
  (exists r, classify g (replace_midnight now) days it = Ret r) ->
  exists r', classify g (replace_midnight now) days' it = Ret r'.
Proof.
  unfold classify. destruct (get_member g it.1); [|eauto].
  destruct (new _ _ _); cbn [obind]; [|intros [? ?]; discriminate].
  destruct (_ && _); [eauto|].
  destruct (next_birthday _ _); cbn [obind]; [|intros [? ?]; discriminate].
  intros _. destruct (days' <? _); eauto.
Qed.

(** The exception of a record is raised before the window is looked at. *)
Lemma classify_raises_window (days days' : Z) (it : Z * bday) (e : exn) :
  classify g (replace_midnight now) days it = Raise e ->
  classify g (replace_midnight now) days' it = Raise e.
Proof.
  unfold classify. destruct (get_member g it.1); [|discriminate].
  destruct (new _ _ _); cbn [obind]; [|done].
  destruct (_ && _); [discriminate|].
  destruct (next_birthday _ _); cbn [obind]; [|done].
  by destruct (days <? _).
Qed.

(** The loop raises at the first record that raises, whatever the window
    and whatever was collected before. *)
Lemma loop_raises_window (days days' : Z) (items : list (Z * bday)) (st st' : loop_state)
  (e : exn) :
  for_each (loop_body g (replace_midnight now) days) items st = Raise e ->
  for_each (loop_body g (replace_midnight now) days') items st' = Raise e.
Proof.
  revert st st'. induction items as [|it rest IH]; intros st st'; cbn [for_each];
    [discriminate|].
  unfold loop_body at 1 3.
  destruct (classify g (replace_midnight now) days it) as [r|e0] eqn:Hc; cbn [obind].
  - destruct (classify_returns_window days days' it (ex_intro _ r Hc)) as [r' ->].
    cbn [obind]. apply IH.
  - intros [= <-]. by rewrite (classify_raises_window days days' it e0 Hc).
Qed.

Lemma parse_bdays_raises_window (days days' : Z) (all_birthdays : gmap Z bday) (e : exn) :
  parse_bdays g now days all_birthdays = Raise e <->
  parse_bdays g now days' all_birthdays = Raise e.
Proof. unfold parse_bdays. split; apply loop_raises_window. Qed.

Lemma parse_bdays_window (days days' : Z) (all_birthdays : gmap Z bday) (st : loop_state) :
  parse_bdays g now days all_birthdays = Ret st ->
  exists st', parse_bdays g now days' all_birthdays = Ret st'.
Proof.
  intros Hp. unfold parse_bdays. apply loop_completes.
  intros it Hin. apply (classify_returns_window days).
  exact (loop_returns_each _ _ _ _ _ _ Hp _ Hin).
Qed.

End Window.

(** X5. Whether the loop raises, and what it raises, does not depend on
    the window: with the same records and the same day, it raises with one
    number of days exactly when it raises with any other. A wider window
    only adds later days: for [0 <= days <= days'], when the loop completes
    with [days] it completes with [days'], and the lines listed with [days]
    are exactly the lines listed with [days'] whose day is at most [days]. *)
Theorem upcoming_window_monotone
  (g : guild) (now : datetime) (days days' : Z) (all_birthdays : gmap Z bday) :
  (forall e, parse_bdays g now days all_birthdays = Raise e <->
             parse_bdays g now days' all_birthdays = Raise e) /\
  ((exists st, parse_bdays g now days all_birthdays = Ret st) <->
   (exists st', parse_bdays g now days' all_birthdays = Ret st')) /\
  (valid now = true ->
   0 <= days <= days' ->
   forall st, parse_bdays g now days all_birthdays = Ret st ->
   exists st',
     parse_bdays g now days' all_birthdays = Ret st' /\
     forall k e, (k, e) ∈ flat (sorted_items st.1) <->
                 (k, e) ∈ flat (sorted_items st'.1) /\ k <= days).
Proof.
  split; [intros e; apply parse_bdays_raises_window|].
  split; [split; intros [st Hp]; eapply parse_bdays_window; exact Hp|].
  intros Hv Hd st Hp.
  destruct (parse_bdays_window g now days days' _ _ Hp) as [st' Hp'].
  exists st'. split; [assumption|]. intros k e.
  rewrite (listed_iff _ _ _ _ _ _ _ Hv Hp), (listed_iff _ _ _ _ _ _ _ Hv Hp'). split.
  - intros (mid & bd & Hl & Hm & Hc). split.
    + exists mid, bd. split; [assumption|]. split; [assumption|].
      destruct Hc as [?|(Hn & nb & Hnb & Hk & Hr & He)]; [by left|].
      right. split; [assumption|]. exists nb. repeat split; try assumption; lia.
    + destruct Hc as [(_ & -> & _)|(_ & nb & _ & _ & Hr & _)]; lia.
  - intros [(mid & bd & Hl & Hm & Hc) Hk].
    exists mid, bd. split; [assumption|]. split; [assumption|].
    destruct Hc as [?|(Hn & nb & Hnb & Hk' & Hr & He)]; [by left|].
    right. split; [assumption|]. exists nb. repeat split; try assumption; lia.
Qed.

Lemma upcoming_window_monotone_witness :
  let g := mkguild 1 {[5; 6; 8]} in
  let now := mkdt 2024 12 30 9 30 0 0 in
  let all_birthdays : gmap Z bday :=
    {[5 := mkbday (Some 2000) 1 2; 6 := mkbday None 12 31; 8 := mkbday (Some 1990) 1 20]} in
  let st : loop_state :=
    ({[1 := [mkentry 6 None "<@6>"]; 3 := [mkentry 5 (Some 24) "<@5> will turn 24"]]},
     {[1 := "December 31"; 3 := "January 02"]}) in
  parse_bdays g now 7 all_birthdays = Ret st /\
  (exists st',
     parse_bdays g now 30 all_birthdays = Ret st' /\
     forall k e, (k, e) ∈ flat (sorted_items st.1) <->
                 (k, e) ∈ flat (sorted_items st'.1) /\ k <= 7) /\
  let leap : gmap Z bday := {[5 := mkbday (Some 2000) 2 29; 6 := mkbday None 12 31]} in
  parse_bdays g now 7 leap = Raise ValueError /\
  parse_bdays g now 300 leap = Raise ValueError.
Proof.
  cbv zeta. split; [by vm_compute|]. split.
  - apply (proj2 (proj2 (upcoming_window_monotone (mkguild 1 {[5; 6; 8]})
                           (mkdt 2024 12 30 9 30 0 0) 7 30
                           {[5 := mkbday (Some 2000) 1 2; 6 := mkbday None 12 31;
                             8 := mkbday (Some 1990) 1 20]}))).
    + reflexivity.
    + lia.
    + by vm_compute.
  - assert (parse_bdays (mkguild 1 {[5; 6; 8]}) (mkdt 2024 12 30 9 30 0 0) 7
              {[5 := mkbday (Some 2000) 2 29; 6 := mkbday None 12 31]} = Raise ValueError)
      as H7 by (by vm_compute).
    split; [exact H7|].
    exact (proj1 (proj1 (upcoming_window_monotone (mkguild 1 {[5; 6; 8]})
                           (mkdt 2024 12 30 9 30 0 0) 7 300
                           {[5 := mkbday (Some 2000) 2 29; 6 := mkbday None 12 31]})
                    ValueError) H7).
Defined.

(** ** [upcoming]: when it raises *)

Section Raises.
Variable g : guild.
Variable now : datetime.
Variable days : Z.

Lemma loop_raises_inv (items : list (Z * bday)) (st : loop_state) (e : exn) :
  for_each (loop_body g (replace_midnight now) days) items st = Raise e ->
  exists it, it ∈ items /\ classify g (replace_midnight now) days it = Raise e.
Proof.
  revert st. induction items as [|it rest IH]; intros st; cbn [for_each]; [discriminate|].
  unfold loop_body at 1.
  destruct (classify g (replace_midnight now) days it) as [r|e'] eqn:Hc; cbn [obind].
  - intros H. destruct (IH _ H) as (it' & Hin & Hit). exists it'. split; [by right|assumption].
  - intros [= <-]. exists it. split; [left|assumption].
Qed.

Lemma not_both_leap (y : Z) : _is_leap y = true -> _is_leap (y + 1) = false.
Proof.
  unfold _is_leap. rewrite andb_true_iff, Z.eqb_eq. intros [H4 _].
  apply andb_false_iff. left. apply Z.eqb_neq.
  Z.div_mod_to_equations. lia.
Qed.

Lemma leap_day_needs_leap_year (y : Z) :
  _check_date_fields y 2 29 = true -> _is_leap y = true.
Proof.
  rewrite check_date_fields_spec. unfold _days_in_month. cbn.
  destruct (_is_leap y); [reflexivity | lia].
Qed.

(** A February 29 that is not today always raises, whatever the year. *)
Lemma classify_leap_day_raises (mid : Z) (bd : bday) :
  mid ∈ guild_members g ->
  bd_month bd = 2 -> bd_day bd = 29 -> ~ on_day now bd ->
  classify g (replace_midnight now) days (mid, bd) = Raise ValueError.
Proof.
  intros Hm Hmo Hd Hnt. unfold classify, get_member. cbn [fst snd].
  destruct (decide (mid ∈ guild_members g)); [|contradiction].
  destruct (new _ _ _) as [b|e0] eqn:Hb; cbn [obind].
  2:{ unfold new in Hb. destruct (_check_date_fields _ _ _); congruence. }
  apply new_birthday_dt in Hb. subst b.
  destruct (_ && _) eqn:Ht; [apply today_test in Ht; contradiction|].
  unfold next_birthday, replace_year, birthday_dt_of.
  cbn [year month day hour minute second microsecond replace_midnight].
  rewrite Hmo, Hd.
  destruct (_check_date_fields (year now) 2 29) eqn:H1; cbn [obind]; [|reflexivity].
  destruct (_check_date_fields (year now + 1) 2 29) eqn:H2; cbn [obind]; [|reflexivity].
  apply leap_day_needs_leap_year in H1, H2.
  apply not_both_leap in H1. congruence.
Qed.

(** A record that raises is a record of a resolved member that is either
    not a date, or a February 29 that is not today, or met in year 9999. *)
Lemma classify_raise_inv (it : Z * bday) (e : exn) :
  valid now = true ->
  year now < 9999 ->
  classify g (replace_midnight now) days it = Raise e ->
  e = ValueError /\ it.1 ∈ guild_members g /\
  (_check_date_fields (year_or_1 (bd_year it.2)) (bd_month it.2) (bd_day it.2) = false \/
   (bd_month it.2 = 2 /\ bd_day it.2 = 29 /\ ~ on_day now it.2)).
Proof.
  intros Hv Hy Hc.
  destruct (decide (it.1 ∈ guild_members g)) as [Hm|Hm].
  2:{ unfold classify, get_member in Hc. destruct (decide _); [contradiction|discriminate]. }
  destruct (_check_date_fields (year_or_1 (bd_year it.2)) (bd_month it.2) (bd_day it.2))
    eqn:Hchk.
  2:{ unfold classify, get_member, new in Hc. destruct (decide _); [|contradiction].
      rewrite Hchk in Hc. cbn in Hc. injection Hc as <-. auto. }
  destruct (decide (bd_month it.2 = 2 /\ bd_day it.2 = 29)) as [[Hmo Hd]|Hnl].
  - destruct (decide (on_day now it.2)) as [Ht|Hnt].
    + unfold classify, get_member, new in Hc. destruct (decide _); [|contradiction].
      rewrite Hchk in Hc. cbn [obind] in Hc.
      apply (today_test now) in Ht. unfold birthday_dt_of in Ht. rewrite Ht in Hc.
      discriminate.
    + destruct it as [mid bd]. cbn [fst snd] in *.
      rewrite (classify_leap_day_raises _ _ Hm Hmo Hd Hnt) in Hc. injection Hc as <-.
      split; [reflexivity|]. split; [assumption|]. right. auto.
  - destruct (classify_completes g now days it Hv Hy Hchk Hnl) as [r Hr]. congruence.
Qed.

End Raises.

(** X6. Before the year 9999 and on a store whose resolvable records are all
    dates, [upcoming] with an accepted number of days raises exactly because
    of leap days: it raises [ValueError] as soon as a resolved member has a
    February 29 record and today is not February 29, and it returns normally
    when there is no such record. *)
Theorem upcoming_raises_on_leap_days_only
  (ctx : context) (now : datetime) (days : Z) (w : world) :
  let all_birthdays := all_members (guild_id (ctx_guild ctx)) w in
  valid now = true ->
  year now < 9999 ->
  1 <= days <= 365 ->
  (forall mid bd, all_birthdays !! mid = Some bd -> mid ∈ guild_members (ctx_guild ctx) ->
     _check_date_fields (year_or_1 (bd_year bd)) (bd_month bd) (bd_day bd) = true) ->
  ((exists mid bd, all_birthdays !! mid = Some bd /\ mid ∈ guild_members (ctx_guild ctx) /\
                   bd_month bd = 2 /\ bd_day bd = 29 /\ ~ on_day now bd) ->
   (upcoming ctx now days w).2 = Raise ValueError) /\
  ((forall mid bd, all_birthdays !! mid = Some bd -> mid ∈ guild_members (ctx_guild ctx) ->
      bd_month bd = 2 -> bd_day bd = 29 -> on_day now bd) ->
   (upcoming ctx now days w).2 = Ret tt).
Proof.
  cbv zeta. intros Hv Hy Hd Hdates.
  rewrite (upcoming_in_range _ _ _ _ Hd). cbv zeta.
  destruct (parse_bdays _ _ _ _) as [st|e] eqn:Hp.
  - split.
    + intros (mid & bd & Hl & Hm & Hmo & Hda & Hnt). exfalso.
      apply elem_of_map_to_list in Hl.
      destruct (loop_returns_each _ _ _ _ _ _ Hp _ Hl) as [r Hr].
      rewrite (classify_leap_day_raises _ _ _ _ _ Hm Hmo Hda Hnt) in Hr. discriminate.
    + intros _. by destruct (decide (size st.1 = 0%nat)).
  - unfold parse_bdays in Hp. apply loop_raises_inv in Hp as ([mid bd] & Hin & Hc).
    apply elem_of_map_to_list in Hin.
    apply (classify_raise_inv _ _ _ _ _ Hv Hy) in Hc as (-> & Hm & Hc). cbn [fst snd] in *.
    split; [reflexivity|]. intros Hnone. exfalso.
    destruct Hc as [Hbad|(Hmo & Hda & Hnt)].
    + rewrite (Hdates mid bd Hin Hm) in Hbad. discriminate.
    + exact (Hnt (Hnone mid bd Hin Hm Hmo Hda)).
Qed.

Lemma upcoming_raises_on_leap_days_only_witness :
  let ctx := mkctx (mkguild 1 {[5; 6]}) 5 0 in
  let now := mkdt 2023 3 1 9 30 0 0 in
  let w := mkworld {[1 := {[5 := mkbday (Some 2000) 2 29; 6 := mkbday None 3 4]}]} ∅ [] in
  (upcoming ctx now 7 w).2 = Raise ValueError.
Proof.
  cbv zeta.
  refine (proj1 (upcoming_raises_on_leap_days_only
                   (mkctx (mkguild 1 {[5; 6]}) 5 0) (mkdt 2023 3 1 9 30 0 0) 7
                   (mkworld {[1 := {[5 := mkbday (Some 2000) 2 29; 6 := mkbday None 3 4]}]}
                            ∅ [])
                   eq_refl eq_refl
                   (conj (Zle_bool_imp_le 1 7 eq_refl) (Zle_bool_imp_le 7 365 eq_refl))
                   _) _).
  - intros mid bd Hl _.
    change (({[5 := mkbday (Some 2000) 2 29; 6 := mkbday None 3 4]} : gmap Z bday) !! mid
            = Some bd) in Hl.
    apply lookup_insert_Some in Hl as [[_ <-]|[_ Hl]]; [reflexivity|].
    apply lookup_singleton_Some in Hl as [_ <-]. reflexivity.
  - exists 5, (mkbday (Some 2000) 2 29).
    split; [reflexivity|]. split; [by vm_compute|]. split; [reflexivity|].
    split; [reflexivity|]. intros [H _]. discriminate.
Defined.

(** ** [upcoming]: the text of a line *)

Lemma append_empty_r (s : string) : s +:+ "" = s.
Proof.
  induction s as [|c s IH]; [reflexivity|].
  change (String c (s +:+ "") = String c s). by rewrite IH.
Qed.

(** X7. A line listed for a record without a year is the bare mention of the
    member and shows no age. A line of group 0 (a birthday today) for a
    record with a year [y] reads "<mention> turns <today's year - y>". *)
Theorem upcoming_line_text
  (g : guild) (now : datetime) (days : Z) (all_birthdays : gmap Z bday) (st : loop_state)
  (k : Z) (e : entry) :
  valid now = true ->
  parse_bdays g now days all_birthdays = Ret st ->
  (k, e) ∈ flat (sorted_items st.1) ->
  exists bd,
    all_birthdays !! e_member e = Some bd /\
    (bd_year bd = None ->
     e_age e = None /\ e_text e = mention (mkmember (e_member e))) /\
    (forall y, bd_year bd = Some y -> y <> 0 -> y <> 1 -> k = 0 ->
       e_age e = Some (year now - y) /\
       e_text e = mention (mkmember (e_member e)) +:+ " turns " +:+ pretty (year now - y)).
Proof.
  intros Hv Hp Hin.
  apply (listed_iff _ _ _ _ _ _ _ Hv Hp) in Hin as (mid & bd & Hl & _ & Hc).
  exists bd.
  assert (e_member e = mid) as Hmid.
  { destruct Hc as [(_ & _ & ->)|(_ & nb & _ & _ & _ & ->)]; apply make_entry_member. }
  rewrite Hmid. split; [assumption|]. split.
  - intros Hy.
    destruct Hc as [(_ & _ & ->)|(_ & nb & _ & _ & _ & ->)];
      unfold make_entry, birthday_dt_of; rewrite Hy; cbn; by rewrite append_empty_r.
  - intros y Hy Hy0 Hy1 ->.
    destruct Hc as [(_ & _ & ->)|(_ & nb & _ & _ & Hk & _)]; [|lia].
    unfold make_entry, birthday_dt_of. rewrite Hy.
    cbn [year year_or_1 replace_midnight].
    apply Z.eqb_neq in Hy0, Hy1. rewrite Hy0, Hy1. cbn [e_age e_text member_id].
    split; reflexivity.
Qed.

Lemma upcoming_line_text_witness :
  let g := mkguild 1 {[5; 6; 8]} in
  let now := mkdt 2024 12 30 9 30 0 0 in
  let all_birthdays : gmap Z bday :=
    {[5 := mkbday (Some 2000) 1 2; 6 := mkbday None 12 31; 8 := mkbday (Some 1990) 12 30]} in
  let st : loop_state :=
    ({[0 := [mkentry 8 (Some 34) "<@8> turns 34"]; 1 := [mkentry 6 None "<@6>"];
       3 := [mkentry 5 (Some 24) "<@5> will turn 24"]]},
     {[0 := "Today"; 1 := "December 31"; 3 := "January 02"]}) in
  let e := mkentry 8 (Some 34) "<@8> turns 34" in
  parse_bdays g now 7 all_birthdays = Ret st /\
  exists bd,
    all_birthdays !! e_member e = Some bd /\
    (bd_year bd = None ->
     e_age e = None /\ e_text e = mention (mkmember (e_member e))) /\
    (forall y, bd_year bd = Some y -> y <> 0 -> y <> 1 -> 0 = 0 ->
       e_age e = Some (year now - y) /\
       e_text e = mention (mkmember (e_member e)) +:+ " turns " +:+ pretty (year now - y)).
Proof.
  cbv zeta. split; [by vm_compute|].
  apply (upcoming_line_text (mkguild 1 {[5; 6; 8]}) (mkdt 2024 12 30 9 30 0 0) 7
           {[5 := mkbday (Some 2000) 1 2; 6 := mkbday None 12 31;
             8 := mkbday (Some 1990) 12 30]}
           ({[0 := [mkentry 8 (Some 34) "<@8> turns 34"]; 1 := [mkentry 6 None "<@6>"];
              3 := [mkentry 5 (Some 24) "<@5> will turn 24"]]},
            {[0 := "Today"; 1 := "December 31"; 3 := "January 02"]})
           0 (mkentry 8 (Some 34) "<@8> turns 34")).
  - reflexivity.
  - by vm_compute.
  - vm_compute. left.
Defined.

(** ** [set] and [force]: what is stored *)

Section SetForce.
Variable MIN_BDAY_YEAR : Z.

Lemma all_members_write_birthday (gid mid gid' mid' : Z) (b : bday) (w : world) :
  all_members gid' (write_birthday gid mid b w) !! mid' =
    if decide (gid' = gid /\ mid' = mid) then Some b else all_members gid' w !! mid'.
Proof.
  unfold all_members at 1, write_birthday. cbn [member_store].
  destruct (decide (gid' = gid)) as [->|Hg].
  - rewrite (lookup_insert_eq (member_store w)). cbn [default]. unfold id.
    destruct (decide (mid' = mid)) as [->|Hm].
    + rewrite (lookup_insert_eq (all_members gid w)). by rewrite decide_True.
    + rewrite (lookup_insert_ne (all_members gid w)) by congruence.
      rewrite decide_False by tauto. reflexivity.
  - rewrite (lookup_insert_ne (member_store w)) by congruence.
    rewrite decide_False by tauto. reflexivity.
Qed.

Lemma all_members_log (gid : Z) (ev : event) (w : world) :
  all_members gid (log ev w) = all_members gid w.
Proof. reflexivity. Qed.

Lemma guard_accepted (now birthday : datetime) :
  accepted MIN_BDAY_YEAR now birthday ->
  negb (year birthday =? 1) && (year birthday <? MIN_BDAY_YEAR) = false /\
  gt birthday now = false.
Proof.
  intros [Hy Hf]. split; [|assumption].
  apply andb_false_iff. rewrite negb_false_iff, Z.eqb_eq, Z.ltb_ge. tauto.
Qed.

Lemma set_accepted (ctx : context) (now birthday : datetime) (w : world) :
  accepted MIN_BDAY_YEAR now birthday ->
  set MIN_BDAY_YEAR ctx now birthday w =
    (send ("Your birthday has been set as "
           +:+ (if year birthday =? 1 then strftime_B_d birthday
                else strftime_B_d_Y birthday) +:+ ".")
          (write_birthday (guild_id (ctx_guild ctx)) (ctx_author ctx)
                          (record_of birthday) w),
     Ret tt).
Proof.
  intros Ha. destruct (guard_accepted _ _ Ha) as [Hg Hf].
  unfold set. rewrite Hg, Hf. reflexivity.
Qed.

Lemma force_accepted (ctx : context) (now : datetime) (user : Z) (user_name : string)
  (birthday : datetime) (w : world) :
  accepted MIN_BDAY_YEAR now birthday ->
  force MIN_BDAY_YEAR ctx now user user_name birthday w =
    (send (user_name +:+ "'s birthday has been set as "
           +:+ (if year birthday =? 1 then strftime_B_d birthday
                else strftime_B_d_Y birthday) +:+ ".")
          (write_birthday (guild_id (ctx_guild ctx)) user (record_of birthday) w),
     Ret tt).
Proof.
  intros Ha. destruct (guard_accepted _ _ Ha) as [Hg Hf].
  unfold force. rewrite Hg, Hf. reflexivity.
Qed.

End SetForce.

(** X8. Set, then look up. A birthday that [set] accepts (no year given or a
    year of at least [MIN_BDAY_YEAR], and not after now) is stored for the
    author: the year is stored unless it is the sentinel 1, with the month
    and the day. [force] does the same for the member it names. No other
    member's record and no guild setting changes. *)
Theorem set_force_store_lookup
  (MIN_BDAY_YEAR : Z) (ctx : context) (now : datetime) (user : Z) (user_name : string)
  (birthday : datetime) (w : world) :
  accepted MIN_BDAY_YEAR now birthday ->
  let gid := guild_id (ctx_guild ctx) in
  let w1 := (set MIN_BDAY_YEAR ctx now birthday w).1 in
  let w2 := (force MIN_BDAY_YEAR ctx now user user_name birthday w).1 in
  all_members gid w1 !! ctx_author ctx = Some (record_of birthday) /\
  all_members gid w2 !! user = Some (record_of birthday) /\
  (forall gid' mid, (gid', mid) <> (gid, ctx_author ctx) ->
     all_members gid' w1 !! mid = all_members gid' w !! mid) /\
  (forall gid' mid, (gid', mid) <> (gid, user) ->
     all_members gid' w2 !! mid = all_members gid' w !! mid) /\
  guild_store w1 = guild_store w /\ guild_store w2 = guild_store w.
Proof.
  intros Ha. cbv zeta.
  rewrite (set_accepted _ _ _ _ _ Ha), (force_accepted _ _ _ _ _ _ _ Ha).
  cbn [fst]. unfold send. rewrite !all_members_log.
  repeat split.
  - rewrite all_members_write_birthday. by rewrite decide_True.
  - rewrite all_members_write_birthday. by rewrite decide_True.
  - intros gid' mid Hne. rewrite all_members_log, all_members_write_birthday.
    rewrite decide_False; [reflexivity|]. intros [-> ->]. by apply Hne.
  - intros gid' mid Hne. rewrite all_members_log, all_members_write_birthday.
    rewrite decide_False; [reflexivity|]. intros [-> ->]. by apply Hne.
Qed.

Lemma set_force_store_lookup_witness :
  let ctx := mkctx (mkguild 1 {[5; 6]}) 5 0 in
  let now := mkdt 2024 5 17 18 45 12 0 in
  let w := mkworld {[1 := {[6 := mkbday (Some 1999) 4 5]}]} ∅ [] in
  all_members 1 (set 1900 ctx now (mkdt 2002 9 24 0 0 0 0) w).1 !! 5
    = Some (mkbday (Some 2002) 9 24) /\
  all_members 1 (force 1900 ctx now 6 "Sam" (mkdt 2002 9 24 0 0 0 0) w).1 !! 6
    = Some (mkbday (Some 2002) 9 24).
Proof.
  cbv zeta.
  pose proof (set_force_store_lookup 1900 (mkctx (mkguild 1 {[5; 6]}) 5 0)
                (mkdt 2024 5 17 18 45 12 0) 6 "Sam" (mkdt 2002 9 24 0 0 0 0)
                (mkworld {[1 := {[6 := mkbday (Some 1999) 4 5]}]} ∅ [])
                (conj (or_intror (Zle_bool_imp_le 1900 2002 eq_refl)) eq_refl)) as H.
  cbv zeta in H. destruct H as (H1 & H2 & _). split; assumption.
Defined.

Lemma gt_year_lt (a b : datetime) : year a < year b -> gt a b = false.
Proof.
  intros H. unfold gt, _cmp, fields. cbn [lex_cmp].
  apply Z.compare_lt_iff in H. by rewrite H.
Qed.

Lemma gt_year_gt (a b : datetime) : year b < year a -> gt a b = true.
Proof.
  intros H. unfold gt, _cmp, fields. cbn [lex_cmp].
  apply Z.compare_gt_iff in H. by rewrite H.
Qed.

(** X9. The check against the future compares the whole datetimes. A
    birthday without a year (the sentinel year 1) is therefore never
    refused once the clock is past year 1: [set] stores its month and day
    with no year, whatever [MIN_BDAY_YEAR] is. A birthday in a later year
    than now, with a year that is not below [MIN_BDAY_YEAR], is refused by
    both commands with "You can't be born in the future!" and nothing is
    stored. *)
Theorem set_no_year_stored_future_refused
  (MIN_BDAY_YEAR : Z) (ctx : context) (now : datetime) (user : Z) (user_name : string)
  (birthday : datetime) (w : world) :
  (year birthday = 1 -> 2 <= year now ->
   all_members (guild_id (ctx_guild ctx)) (set MIN_BDAY_YEAR ctx now birthday w).1
     !! ctx_author ctx = Some (mkbday None (month birthday) (day birthday))) /\
  (MIN_BDAY_YEAR <= year birthday -> year now < year birthday ->
   set MIN_BDAY_YEAR ctx now birthday w =
     (send "You can't be born in the future!" w, Ret tt) /\
   force MIN_BDAY_YEAR ctx now user user_name birthday w =
     (send "You can't be born in the future!" w, Ret tt)).
Proof.
  split.
  - intros Hy Hnow.
    assert (accepted MIN_BDAY_YEAR now birthday) as Ha.
    { split; [by left|]. apply gt_year_lt. lia. }
    rewrite (set_accepted _ _ _ _ _ Ha). cbn [fst]. unfold send.
    rewrite all_members_log, all_members_write_birthday, decide_True by done.
    unfold record_of. by rewrite Hy.
  - intros Hmin Hfut. unfold set, force.
    replace (negb (year birthday =? 1) && (year birthday <? MIN_BDAY_YEAR)) with false.
    + by rewrite (gt_year_gt _ _ Hfut).
    + symmetry. apply andb_false_iff. right. apply Z.ltb_ge. assumption.
Qed.

Lemma set_no_year_stored_future_refused_witness :
  let ctx := mkctx (mkguild 1 {[5; 6]}) 5 0 in
  let now := mkdt 2024 5 17 18 45 12 0 in
  let w := mkworld ∅ ∅ [] in
  all_members 1 (set 1900 ctx now (mkdt 1 9 24 0 0 0 0) w).1 !! 5
    = Some (mkbday None 9 24) /\
  set 1900 ctx now (mkdt 2030 9 24 0 0 0 0) w
    = (send "You can't be born in the future!" w, Ret tt).
Proof.
  cbv zeta. split.
  - apply (proj1 (set_no_year_stored_future_refused 1900 (mkctx (mkguild 1 {[5; 6]}) 5 0)
                    (mkdt 2024 5 17 18 45 12 0) 6 "Sam" (mkdt 1 9 24 0 0 0 0)
                    (mkworld ∅ ∅ []))); [reflexivity | by apply Zle_bool_imp_le].
  - apply (proj2 (set_no_year_stored_future_refused 1900 (mkctx (mkguild 1 {[5; 6]}) 5 0)
                    (mkdt 2024 5 17 18 45 12 0) 6 "Sam" (mkdt 2030 9 24 0 0 0 0)
                    (mkworld ∅ ∅ []))); [by apply Zle_bool_imp_le | reflexivity].
Defined.

(** X10. Set, then ask. When a member sets a birthday on today's month and
    day and [upcoming] is then run on the same day in that guild, the
    member (if the guild resolves it and the loop completes) is listed in
    group 0, with the age today's year minus the year given, or no age
    when no year was given. *)
Theorem set_then_upcoming_lists_author
  (MIN_BDAY_YEAR : Z) (ctx : context) (now birthday : datetime) (days : Z) (w : world)
  (st : loop_state) :
  valid now = true ->
  valid birthday = true ->
  accepted MIN_BDAY_YEAR now birthday ->
  month birthday = month now -> day birthday = day now ->
  ctx_author ctx ∈ guild_members (ctx_guild ctx) ->
  parse_bdays (ctx_guild ctx) now days
    (all_members (guild_id (ctx_guild ctx)) (set MIN_BDAY_YEAR ctx now birthday w).1)
    = Ret st ->
  exists e, e ∈ group 0 st.1 /\ e_member e = ctx_author ctx /\
            e_age e = if year birthday =? 1 then None
                      else Some (year now - year birthday).
Proof.
  intros Hv Hvb Ha Hm Hd Hin Hp.
  assert (all_members (guild_id (ctx_guild ctx)) (set MIN_BDAY_YEAR ctx now birthday w).1
            !! ctx_author ctx = Some (record_of birthday)) as Hl.
  { rewrite (set_accepted _ _ _ _ _ Ha). cbn [fst]. unfold send.
    by rewrite all_members_log, all_members_write_birthday, decide_True. }
  exists (make_entry (mkmember (ctx_author ctx)) "turns" (replace_midnight now)
                     (birthday_dt_of (record_of birthday))).
  split; [|split].
  - apply (group_today _ _ _ _ _ _ Hv Hp).
    exists (ctx_author ctx), (record_of birthday). repeat split; assumption.
  - apply make_entry_member.
  - rewrite make_entry_age. unfold birthday_dt_of, record_of.
    cbn [year bd_year replace_midnight].
    destruct (year birthday =? 1) eqn:Hy1; [reflexivity|].
    cbn [year_or_1].
    unfold valid in Hvb. apply andb_true_iff in Hvb as [Hvb _].
    apply check_date_fields_spec in Hvb as (Hyr & _).
    destruct (year birthday =? 0) eqn:Hy0; [apply Z.eqb_eq in Hy0; lia|].
    by rewrite Hy1.
Qed.

Lemma set_then_upcoming_lists_author_witness :
  let ctx := mkctx (mkguild 1 {[5; 6]}) 5 0 in
  let now := mkdt 2024 5 17 18 45 12 0 in
  let w := mkworld {[1 := {[6 := mkbday (Some 1999) 5 20]}]} ∅ [] in
  let st : loop_state :=
    ({[0 := [mkentry 5 (Some 22) "<@5> turns 22"];
       3 := [mkentry 6 (Some 25) "<@6> will turn 25"]]},
     {[0 := "Today"; 3 := "May 20"]}) in
  parse_bdays (ctx_guild ctx) now 7
    (all_members 1 (set 1900 ctx now (mkdt 2002 5 17 0 0 0 0) w).1) = Ret st /\
  exists e, e ∈ group 0 st.1 /\ e_member e = 5 /\ e_age e = Some 22.
Proof.
  cbv zeta. split; [by vm_compute|].
  apply (set_then_upcoming_lists_author 1900 (mkctx (mkguild 1 {[5; 6]}) 5 0)
           (mkdt 2024 5 17 18 45 12 0) (mkdt 2002 5 17 0 0 0 0) 7
           (mkworld {[1 := {[6 := mkbday (Some 1999) 5 20]}]} ∅ [])).
  - reflexivity.
  - reflexivity.
  - split; [right; by apply Zle_bool_imp_le | reflexivity].
  - reflexivity.
  - reflexivity.
  - by vm_compute.
  - by vm_compute.
Defined.

(** X11. [set] and [force] keep the member store well formed: if every
    stored record is a date (line 128 of [upcoming] can build it) whose
    year, when present, is at least [MIN_BDAY_YEAR] and not the sentinel 1,
    the same holds after either command, whether it stores or refuses. *)
Theorem set_force_keep_store_ok
  (MIN_BDAY_YEAR : Z) (ctx : context) (now : datetime) (user : Z) (user_name : string)
  (birthday : datetime) (w : world) :
  valid birthday = true ->
  store_ok MIN_BDAY_YEAR w ->
  store_ok MIN_BDAY_YEAR (set MIN_BDAY_YEAR ctx now birthday w).1 /\
  store_ok MIN_BDAY_YEAR (force MIN_BDAY_YEAR ctx now user user_name birthday w).1.
Proof.
  intros Hvb Hok.
  assert (forall who text,
            year birthday = 1 \/ MIN_BDAY_YEAR <= year birthday ->
            store_ok MIN_BDAY_YEAR
              (send text (write_birthday (guild_id (ctx_guild ctx)) who
                                         (record_of birthday) w))) as Hwrite.
  { intros who text Hy gid mid bd. unfold send.
    rewrite all_members_log, all_members_write_birthday.
    destruct (decide _); [|apply Hok].
    intros [= <-]. unfold record_ok, record_of. cbn [bd_year bd_month bd_day].
    unfold valid in Hvb. apply andb_true_iff in Hvb as [Hvb _].
    pose proof Hvb as Hchk. apply check_date_fields_spec in Hvb as (Hyr & _).
    destruct (year birthday =? 1) eqn:Hy1.
    - apply Z.eqb_eq in Hy1. cbn [year_or_1]. by rewrite <- Hy1.
    - apply Z.eqb_neq in Hy1. cbn [year_or_1].
      destruct (year birthday =? 0) eqn:Hy0; [apply Z.eqb_eq in Hy0; lia|].
      split; [assumption|]. split; [lia | assumption]. }
  unfold set, force, store_birthday.
  destruct (negb (year birthday =? 1) && (year birthday <? MIN_BDAY_YEAR)) eqn:Hg.
  - split; exact Hok.
  - apply andb_false_iff in Hg. rewrite negb_false_iff, Z.eqb_eq, Z.ltb_ge in Hg.
    destruct (gt birthday now); [split; exact Hok|].
    split; apply Hwrite; assumption.
Qed.

Lemma set_force_keep_store_ok_witness :
  let ctx := mkctx (mkguild 1 {[5; 6]}) 5 0 in
  let now := mkdt 2024 5 17 18 45 12 0 in
  store_ok 1900 (set 1900 ctx now (mkdt 2002 5 17 0 0 0 0) (mkworld ∅ ∅ [])).1 /\
  store_ok 1900 (force 1900 ctx now 6 "Sam" (mkdt 2002 5 17 0 0 0 0) (mkworld ∅ ∅ [])).1.
Proof.
  cbv zeta.
  apply (set_force_keep_store_ok 1900 (mkctx (mkguild 1 {[5; 6]}) 5 0)
           (mkdt 2024 5 17 18 45 12 0) 6 "Sam" (mkdt 2002 5 17 0 0 0 0) (mkworld ∅ ∅ [])).
  - reflexivity.
  - intros gid mid bd H. unfold all_members in H. cbn in H.
    rewrite lookup_empty in H. cbn in H. by rewrite lookup_empty in H.
Defined.

(** ** The settings and [setup_state] *)

Import BirthdayAdmin.

Section SetupState.
Variable MAX_BDAY_MSG_LEN : Z.
Variable format_bday_message : string -> Z -> option Z -> outcome string.

Lemma guild_all_write_guild_ne (gid gid' : Z) (c : guild_conf) (w : world) :
  gid' <> gid -> guild_all gid' (write_guild gid c w) = guild_all gid' w.
Proof.
  intros Hne. unfold guild_all, write_guild. cbn [guild_store].
  by rewrite lookup_insert_ne.
Qed.

(** The settings of guild [gid'] after each of the five setters, run in the
    guild of [ctx]. *)
Lemma guild_all_after_setters (ctx : context) (gid' : Z) (w : world) :
  let gid := guild_id (ctx_guild ctx) in
  let after (f : guild_conf -> guild_conf) (w' : world) :=
    guild_all gid' w' = if decide (gid' = gid) then f (guild_all gid w) else guild_all gid' w in
  (forall now time, after (set_time_utc_s (int_total_seconds (sub time (midnight_of now))))
                          (time_store ctx now time w)) /\
  (forall m, after (set_message_w_year m)
                   (msgwithyear MAX_BDAY_MSG_LEN format_bday_message ctx m w).1) /\
  (forall m, after (set_message_wo_year m)
                   (msgwithoutyear MAX_BDAY_MSG_LEN format_bday_message ctx m w).1) /\
  (forall ch, after (set_channel_id ch) (channel ctx ch w).1) /\
  (forall r name, after (set_role_id r) (role ctx r name w).1).
Proof.
  cbv zeta.
  assert (forall c w0, guild_all gid' (write_guild (guild_id (ctx_guild ctx)) c w0) =
                       if decide (gid' = guild_id (ctx_guild ctx)) then c
                       else guild_all gid' w0) as Hw.
  { intros c w0. destruct (decide _) as [->|Hne];
      [apply guild_all_write_guild | by apply guild_all_write_guild_ne]. }
  repeat split.
  - intros now time. unfold time_store. apply Hw.
  - intros m. unfold msgwithyear.
    destruct (format_bday_message _ _ _); cbn [fst]; unfold send;
      rewrite ?guild_all_log, Hw; destruct (_ <? _); reflexivity.
  - intros m. unfold msgwithoutyear.
    destruct (format_bday_message _ _ _); cbn [fst]; unfold send;
      rewrite ?guild_all_log, Hw; destruct (_ <? _); reflexivity.
  - intros ch. unfold channel. cbn [fst]. unfold send. by rewrite guild_all_log, Hw.
  - intros r name. unfold role. cbn [fst]. unfold send. by rewrite guild_all_log, Hw.
Qed.

Lemma setters_keep_count (c : guild_conf) :
  setup_state c = count_set c ->
  (forall v, setup_state (set_time_utc_s v c) = count_set (set_time_utc_s v c)) /\
  (forall m, setup_state (set_message_w_year m c) = count_set (set_message_w_year m c)) /\
  (forall m, setup_state (set_message_wo_year m c) = count_set (set_message_wo_year m c)) /\
  (forall v, setup_state (set_channel_id v c) = count_set (set_channel_id v c)) /\
  (forall v, setup_state (set_role_id v c) = count_set (set_role_id v c)).
Proof.
  destruct c as [t mw mwo ch r n]. unfold count_set. cbn.
  intros ->. repeat split; intros;
    destruct t, mw, mwo, ch, r; cbn; lia.
Qed.

End SetupState.

Section SetupStateRuns.
Variable MAX_BDAY_MSG_LEN : Z.
Variable format_bday_message : string -> Z -> option Z -> outcome string.
Variable ctx : context.

Local Abbreviation gid := (guild_id (ctx_guild ctx)).
Local Abbreviation run1 := (run_setter MAX_BDAY_MSG_LEN format_bday_message ctx).
Local Abbreviation run := (run_setters MAX_BDAY_MSG_LEN format_bday_message ctx).

(** The settings of the guild after one call. *)
Lemma guild_all_run_setter (w : world) (s : setter) :
  guild_all gid (run1 w s) =
    match s with
    | SetTime now time =>
        set_time_utc_s (int_total_seconds (sub time (midnight_of now))) (guild_all gid w)
    | SetMsgWithYear m => set_message_w_year m (guild_all gid w)
    | SetMsgWithoutYear m => set_message_wo_year m (guild_all gid w)
    | SetChannel ch => set_channel_id ch (guild_all gid w)
    | SetRole r _ => set_role_id r (guild_all gid w)
    end.
Proof.
  destruct (guild_all_after_setters MAX_BDAY_MSG_LEN format_bday_message ctx gid w)
    as (Ht & Hmw & Hmwo & Hch & Hr).
  destruct s as [now time|m|m|ch|r name]; cbn [run_setter].
  - rewrite Ht. by rewrite decide_True.
  - rewrite Hmw. by rewrite decide_True.
  - rewrite Hmwo. by rewrite decide_True.
  - rewrite Hch. by rewrite decide_True.
  - rewrite (Hr r name). by rewrite decide_True.
Qed.

Lemma run_setter_keeps_count (w : world) (s : setter) :
  setup_state (guild_all gid w) = count_set (guild_all gid w) ->
  setup_state (guild_all gid (run1 w s)) = count_set (guild_all gid (run1 w s)).
Proof.
  intros Hc. rewrite guild_all_run_setter.
  destruct (setters_keep_count _ Hc) as (Ht & Hmw & Hmwo & Hch & Hr).
  destruct s; auto.
Qed.

Lemma run_setters_keeps_count (ss : list setter) (w : world) :
  setup_state (guild_all gid w) = count_set (guild_all gid w) ->
  setup_state (guild_all gid (run ss w)) = count_set (guild_all gid (run ss w)).
Proof.
  revert w. induction ss as [|s ss IH]; intros w Hc; [exact Hc|].
  cbn [run_setters fold_left]. apply IH. by apply run_setter_keeps_count.
Qed.

(** Which settings are set after a run: those that were, and those a call
    of the run sets. *)
Lemma run_setters_fields (ss : list setter) (w : world) :
  let c := guild_all gid w in
  let c' := guild_all gid (run ss w) in
  (is_Some (time_utc_s c') <-> is_Some (time_utc_s c) \/ existsb is_time ss = true) /\
  (is_Some (message_w_year c') <->
   is_Some (message_w_year c) \/ existsb is_msg_with_year ss = true) /\
  (is_Some (message_wo_year c') <->
   is_Some (message_wo_year c) \/ existsb is_msg_without_year ss = true) /\
  (is_Some (channel_id c') <-> is_Some (channel_id c) \/ existsb is_channel ss = true) /\
  (is_Some (role_id c') <-> is_Some (role_id c) \/ existsb is_role ss = true).
Proof.
  cbv zeta. revert w. induction ss as [|s ss IH]; intros w.
  - cbn. repeat split; intros; try tauto; destruct H; try assumption; discriminate.
  - cbn [run_setters fold_left existsb].
    destruct (IH (run1 w s)) as (Ht & Hmw & Hmwo & Hch & Hr).
    unfold run_setters in *. rewrite Ht, Hmw, Hmwo, Hch, Hr.
    rewrite guild_all_run_setter, !orb_true_iff.
    destruct s; cbn; repeat split; intros; intuition (try discriminate; eauto).
Qed.

End SetupStateRuns.

(** X12. [setup_state] counts the settings that are set. The count is right
    for a guild that was never configured, each of [bdset time],
    [msgwithyear], [msgwithoutyear], [channel] and [role] keeps it right
    (a setting adds one the first time it is set and nothing afterwards),
    and the end of [interactive] sets all five with [setup_state = 5]. *)
Theorem setup_state_counts_settings
  (MAX_BDAY_MSG_LEN : Z) (format_bday_message : string -> Z -> option Z -> outcome string)
  (ctx : context) (w : world) :
  let gid := guild_id (ctx_guild ctx) in
  setup_state default_conf = count_set default_conf /\
  (forall prefix now parsed m1 m2 ch r,
     let c := guild_all gid (interactive_finish ctx prefix now parsed m1 m2 ch r w).1 in
     setup_state c = 5 /\ count_set c = 5) /\
  (setup_state (guild_all gid w) = count_set (guild_all gid w) ->
   forall s,
     let c' := guild_all gid (run_setter MAX_BDAY_MSG_LEN format_bday_message ctx w s) in
     setup_state c' = count_set c').
Proof.
  cbv zeta. split; [reflexivity|]. split.
  - intros prefix now parsed m1 m2 ch r. unfold interactive_finish. cbn [fst].
    unfold send. rewrite guild_all_log, guild_all_write_guild. split; reflexivity.
  - intros Hc s. by apply run_setter_keeps_count.
Qed.

Lemma setup_state_counts_settings_witness :
  let ctx := mkctx (mkguild 1 {[5]}) 5 0 in
  let fmt := fun (m : string) (_ : Z) (_ : option Z) => Ret m in
  let w := mkworld ∅ {[1 := mkconf (Some 0) None (Some "old") None None 2]} [] in
  let c' := guild_all 1 (run_setter 750 fmt ctx w (SetChannel 10)) in
  setup_state c' = 3 /\ setup_state c' = count_set c'.
Proof.
  cbv zeta. split; [reflexivity|].
  refine (proj2 (proj2 (setup_state_counts_settings 750
                          (fun (m : string) (_ : Z) (_ : option Z) => Ret m)
                          (mkctx (mkguild 1 {[5]}) 5 0)
                          (mkworld ∅ {[1 := mkconf (Some 0) None (Some "old") None None 2]}
                                   []))) _ (SetChannel 10)).
  reflexivity.
Defined.

(** X13. Starting from a guild that was never configured, any run of the
    five setting commands, in any order and with any repetitions, ends with
    [setup_state = 5] exactly when each of the five commands was called at
    least once. *)
Theorem setters_reach_full_setup
  (MAX_BDAY_MSG_LEN : Z) (format_bday_message : string -> Z -> option Z -> outcome string)
  (ctx : context) (ss : list setter) (w : world) :
  guild_store w !! guild_id (ctx_guild ctx) = None ->
  setup_state (guild_all (guild_id (ctx_guild ctx))
                 (run_setters MAX_BDAY_MSG_LEN format_bday_message ctx ss w)) = 5 <->
  existsb is_time ss && existsb is_msg_with_year ss && existsb is_msg_without_year ss
  && existsb is_channel ss && existsb is_role ss = true.
Proof.
  intros Hfresh.
  assert (guild_all (guild_id (ctx_guild ctx)) w = default_conf) as Hdef.
  { unfold guild_all. by rewrite Hfresh. }
  rewrite (run_setters_keeps_count MAX_BDAY_MSG_LEN format_bday_message ctx ss w)
    by (rewrite Hdef; reflexivity).
  destruct (run_setters_fields MAX_BDAY_MSG_LEN format_bday_message ctx ss w)
    as (Ht & Hmw & Hmwo & Hch & Hr).
  rewrite Hdef in Ht, Hmw, Hmwo, Hch, Hr. cbn in Ht, Hmw, Hmwo, Hch, Hr.
  rewrite !andb_true_iff. unfold count_set.
  destruct (time_utc_s _), (message_w_year _), (message_wo_year _), (channel_id _),
    (role_id _);
    split; intros H;
    repeat match goal with
           | H : is_Some None <-> _ |- _ => rewrite <- is_Some_None_iff in H
           end;
    try lia.
  all: try (repeat split;
            match goal with
            | H : is_Some (Some _) <-> _ \/ ?b = true |- ?b = true =>
                destruct (proj1 H (ex_intro _ _ eq_refl)) as [[? ?]|?];
                [discriminate | assumption]
            end).
  all: exfalso;
    repeat match goal with
           | H : _ /\ _ |- _ => destruct H
           end;
    repeat match goal with
           | H : ?P <-> _ \/ ?b = true, Hb : ?b = true |- _ =>
               apply proj2 in H; specialize (H (or_intror Hb)); destruct H; discriminate
           end.
Qed.

Lemma setters_reach_full_setup_witness :
  let ctx := mkctx (mkguild 1 {[5]}) 5 0 in
  let fmt := fun (m : string) (_ : Z) (_ : option Z) => Ret m in
  let ss := [SetRole 11 "Birthday"; SetMsgWithYear "{mention} is {new_age}";
             SetChannel 10; SetRole 12 "Cake"; SetMsgWithoutYear "Happy birthday {name}";
             SetTime (mkdt 2024 5 17 18 45 12 0) (mkdt 1 1 1 7 0 0 0)] in
  setup_state (guild_all 1 (run_setters 750 fmt ctx ss (mkworld ∅ ∅ []))) = 5.
Proof.
  cbv zeta.
  refine (proj2 (setters_reach_full_setup 750
                  (fun (m : string) (_ : Z) (_ : option Z) => Ret m)
                  (mkctx (mkguild 1 {[5]}) 5 0)
                  [SetRole 11 "Birthday"; SetMsgWithYear "{mention} is {new_age}";
                   SetChannel 10; SetRole 12 "Cake";
                   SetMsgWithoutYear "Happy birthday {name}";
                   SetTime (mkdt 2024 5 17 18 45 12 0) (mkdt 1 1 1 7 0 0 0)]
                  (mkworld ∅ ∅ []) _) _).
  - reflexivity.
  - reflexivity.
Defined.

(** ** The button predicate: what is sent and what is returned *)

Import ButtonPredMore.



(** X15. [wait_for_yes_no] never raises [ValueError]. It returns [True]
    exactly when the author pressed the first button ("Yes"), [False]
    exactly when the author pressed the second ("No"), and raises
    [TimeoutError] otherwise; it does what [wait_for_press] does with the
    two items (True, blurple, "Yes") and (False, blurple, "No"). *)
Theorem wait_for_yes_no_result
  (author_id : Z) (content embed : option string) (timeout : Z) (pressed : option nat)
  (tr : list (ButtonPred.event bool)) :
  let r := (wait_for_yes_no author_id content embed timeout pressed tr).2 in
  (r = Ret true <-> pressed = Some 0%nat) /\
  (r = Ret false <-> pressed = Some 1%nat) /\
  (r = Raise TimeoutError <-> pressed <> Some 0%nat /\ pressed <> Some 1%nat) /\
  r <> Raise ValueError /\
  wait_for_yes_no author_id content embed timeout pressed tr =
    ButtonPred.wait_for_press bool author_id
      [ButtonPred.mkitem bool (Some true) blurple "Yes" None;
       ButtonPred.mkitem bool (Some false) blurple "No" None]
      content embed timeout pressed tr.
Proof.
  cbv zeta. unfold wait_for_yes_no. cbn [snd].
  destruct pressed as [[|[|n]]|]; cbn;
    repeat split; intros; try discriminate; try congruence;
    try (intros [? ?]; congruence); try (destruct H; congruence).
Qed.

(** ** [bdset time] and [bdset settings] *)

Import PyOrdinal BirthdayMore.

Lemma utcfromtimestamp_time_of_day (t : Z) :
  0 <= t < 86400 ->
  utcfromtimestamp t = Some (mkdt 1970 1 1 (t / 3600) ((t mod 3600) / 60) (t mod 60) 0).
Proof.
  intros Ht. unfold utcfromtimestamp.
  rewrite (Z.div_small t 86400), (Z.mod_small t 86400) by lia.
  reflexivity.
Qed.

(** X16. The note about a second message is dead for times of day. When the
    time given lies before 1970 (the converter's time of day on 0001-01-01
    does) and the guild has no time yet or a stored time in [0, 86400),
    [bdset time] stores the new time and replies with the plain "Time set!"
    sentence only: [time > old_dt] compares against a moment of 1970-01-01
    and is never true. *)
Theorem time_reply_never_warns
  (ctx : context) (now now' time : datetime) (w : world) :
  year time < 1970 ->
  match time_utc_s (guild_all (guild_id (ctx_guild ctx)) w) with
  | None => True
  | Some old => 0 <= old < 86400
  end ->
  BirthdayMore.time ctx now now' time w =
    (send ("Time set! I'll send the birthday message and update the birthday role at "
           +:+ strftime_H_M time +:+ " UTC.")
          (time_store ctx now time w), Done tt).
Proof.
  intros Hy Hold. unfold BirthdayMore.time, time_store.
  destruct (time_utc_s (guild_all (guild_id (ctx_guild ctx)) w)) as [old|]; [|reflexivity].
  rewrite (utcfromtimestamp_time_of_day old Hold).
  rewrite gt_year_lt by (cbn [year]; lia). reflexivity.
Qed.

Lemma time_reply_never_warns_witness :
  let ctx := mkctx (mkguild 1 {[5]}) 5 0 in
  let w := mkworld ∅ {[1 := mkconf (Some 25200) None None None None 1]} [] in
  let now := mkdt 2024 5 17 6 0 0 0 in
  BirthdayMore.time ctx now now (mkdt 1 1 1 15 0 0 0) w =
    (send "Time set! I'll send the birthday message and update the birthday role at 15:00 UTC."
          (time_store ctx now (mkdt 1 1 1 15 0 0 0) w), Done tt).
Proof.
  cbv zeta.
  refine (time_reply_never_warns (mkctx (mkguild 1 {[5]}) 5 0) (mkdt 2024 5 17 6 0 0 0)
            (mkdt 2024 5 17 6 0 0 0) (mkdt 1 1 1 15 0 0 0)
            (mkworld ∅ {[1 := mkconf (Some 25200) None None None None 1]} []) _ _).
  - reflexivity.
  - change (0 <= 25200 < 86400). lia.
Defined.

Section SettingsProps.
Variable render : string -> string * string -> list (string * string) -> string.

(** X17. [bdset settings] never writes the stores. On a guild whose time
    is not set (a guild that was never configured, for one) it raises
    [TypeError] after opening the settings and sends nothing. *)
Theorem settings_read_only_unset_time_raises
  (ctx : context) (dir : directory) (w : world) :
  let r := settings render ctx dir w in
  member_store r.1 = member_store w /\
  guild_store r.1 = guild_store w /\
  (time_utc_s (guild_all (guild_id (ctx_guild ctx)) w) = None ->
   r = (log (OpenGuildAll (guild_id (ctx_guild ctx))) w, Failed TypeError)).
Proof.
  cbv zeta. unfold settings.
  destruct (time_utc_s _) as [t|]; [|by repeat split].
  destruct (utcfromtimestamp t); repeat split; discriminate.
Qed.

(** X18. Set up, then show. After [interactive] has stored its answers for a
    valid parsed time, [bdset settings] shows the hour and the minute that
    were entered as "HH:MM UTC" (the seconds it stored do not show), the
    names of the channel and the role when the guild still has them, and
    both templates as given. *)
Theorem interactive_then_settings
  (ctx : context) (dir : directory) (prefix : string) (now parsed : datetime)
  (m1 m2 : string) (ch r : Z) (w : world) :
  valid parsed = true ->
  let w' := (interactive_finish ctx prefix now parsed m1 m2 ch r w).1 in
  let nl := String (Ascii.ascii_of_nat 10) "" in
  settings render ctx dir w' =
    (send (render "Settings for this server" ("Name", "Value")
             [("Channel", default "Channel deleted" (channel_names dir !! ch));
              ("Role", default "Role deleted" (role_names dir !! r));
              ("Time", strftime_H_M parsed +:+ " UTC")]
           +:+ nl +:+ "Message with year:" +:+ nl +:+ "```"
           +:+ or_no_message (Some m1)
           +:+ "```" +:+ nl +:+ "Message without year:" +:+ nl +:+ "```"
           +:+ or_no_message (Some m2)
           +:+ "```")
          (log (OpenGuildAll (guild_id (ctx_guild ctx))) w'), Done tt).
Proof.
  intros Hv. cbv zeta. unfold settings.
  set (w' := (interactive_finish ctx prefix now parsed m1 m2 ch r w).1).
  assert (guild_all (guild_id (ctx_guild ctx)) w' =
          mkconf (Some (interactive_time_utc_s now parsed)) (Some m1) (Some m2)
                 (Some ch) (Some r) 5) as ->.
  { subst w'. unfold interactive_finish. cbn [fst]. unfold send.
    by rewrite guild_all_log, guild_all_write_guild. }
  cbn [time_utc_s channel_id role_id message_w_year message_wo_year mbind option_bind].
  rewrite (interactive_time_utc_s_value _ _ Hv).
  unfold valid, _check_time_fields in Hv. rewrite !andb_true_iff, !Z.leb_le in Hv.
  rewrite utcfromtimestamp_time_of_day by lia.
  unfold strftime_H_M. cbn [hour minute].
  replace ((hour parsed * 3600 + minute parsed * 60 + second parsed) / 3600)
    with (hour parsed) by (Z.div_mod_to_equations; lia).
  replace (((hour parsed * 3600 + minute parsed * 60 + second parsed) mod 3600) / 60)
    with (minute parsed) by (Z.div_mod_to_equations; lia).
  reflexivity.
Qed.

End SettingsProps.

Lemma settings_read_only_unset_time_raises_witness :
  settings (fun _ _ _ => "") (mkctx (mkguild 1 {[5]}) 5 0) (mkdir ∅ ∅) (mkworld ∅ ∅ []) =
    (mkworld ∅ ∅ [OpenGuildAll 1], Failed TypeError).
Proof.
  apply (proj2 (proj2 (settings_read_only_unset_time_raises (fun _ _ _ => "")
                         (mkctx (mkguild 1 {[5]}) 5 0) (mkdir ∅ ∅) (mkworld ∅ ∅ [])))).
  reflexivity.
Defined.

Lemma interactive_then_settings_witness :
  let render := fun (t : string) (h : string * string) (rows : list (string * string)) =>
                  join_lines (map (fun r : string * string => r.1 +:+ ": " +:+ r.2) rows) in
  let ctx := mkctx (mkguild 1 {[5]}) 5 0 in
  let dir := mkdir {[10 := "birthdays"]} ∅ in
  let w' := (interactive_finish ctx "!" (mkdt 2024 5 17 18 45 12 0)
               (mkdt 2024 5 17 7 5 30 0) "a" "" 10 11 (mkworld ∅ ∅ [])).1 in
  exists text, settings render ctx dir w' = (send text (log (OpenGuildAll 1) w'), Done tt).
Proof.
  cbv zeta. eexists.
  apply (interactive_then_settings
           (fun (t : string) (h : string * string) (rows : list (string * string)) =>
              join_lines (map (fun r : string * string => r.1 +:+ ": " +:+ r.2) rows))
           (mkctx (mkguild 1 {[5]}) 5 0) (mkdir {[10 := "birthdays"]} ∅) "!"
           (mkdt 2024 5 17 18 45 12 0) (mkdt 2024 5 17 7 5 30 0) "a" "" 10 11
           (mkworld ∅ ∅ [])).
  reflexivity.
Defined.

(** ** The import of [zemigrate] *)

Section MigrateProps.
Variable MIN_BDAY_YEAR : Z.





Lemma replace_year_Ret (dt dt' : datetime) (y : Z) :
  replace_year dt y = Ret dt' ->
  _check_date_fields y (month dt) (day dt) = true /\
  year dt' = y /\ month dt' = month dt /\ day dt' = day dt.
Proof.
  unfold replace_year. destruct (_check_date_fields _ _ _); [|discriminate].
  intros [= <-]. auto.
Qed.

(** Every record the import makes is well formed. *)
Lemma migrate_record_ok (day : Z) (y : option Z) (bd : bday) :
  migrate_record MIN_BDAY_YEAR day y = Done bd -> record_ok MIN_BDAY_YEAR bd.
Proof.
  unfold migrate_record.
  destruct (fromordinal day) as [dt|] eqn:Hf; [|discriminate]. cbv zeta.
  set (yr := match y with
             | None => 1
             | Some y0 => if y0 <? MIN_BDAY_YEAR then 1 else y0
             end).
  assert (yr = 1 \/ MIN_BDAY_YEAR <= yr) as Hyr.
  { subst yr. destruct y as [y0|]; [|by left].
    destruct (y0 <? MIN_BDAY_YEAR) eqn:Hlt; [by left|]. right. by apply Z.ltb_ge. }
  clearbody yr.
  assert (forall dt' yr', replace_year dt yr' = Ret dt' -> yr' = 1 \/ MIN_BDAY_YEAR <= yr' ->
            record_ok MIN_BDAY_YEAR
              (mkbday (if year dt' =? 1 then None else Some (year dt'))
                      (month dt') (PyDatetime.day dt'))) as Hrec.
  { intros dt' yr' Hr Hy. apply replace_year_Ret in Hr as (Hc & Hy' & Hm & Hd).
    unfold record_ok. cbn [bd_year bd_month bd_day]. rewrite Hy', Hm, Hd.
    pose proof Hc as Hrange. apply check_date_fields_spec in Hrange as (Hrange & _).
    destruct (yr' =? 1) eqn:H1.
    - apply Z.eqb_eq in H1. cbn [year_or_1]. rewrite H1 in Hc. split; [exact Hc | exact I].
    - apply Z.eqb_neq in H1. cbn [year_or_1].
      destruct (yr' =? 0) eqn:H0; [apply Z.eqb_eq in H0; lia|].
      split; [assumption|]. split; [lia | assumption]. }
  destruct (replace_year dt yr) as [dt1|] eqn:Hr1.
  - intros [= <-]. by apply (Hrec dt1 yr).
  - destruct (replace_year dt 1) as [dt2|] eqn:Hr2; [|discriminate].
    intros [= <-]. apply (Hrec dt2 1); [assumption | by left].
Qed.

Lemma all_members_set_birthday (gid mid gid' mid' : Z) (b : bday) (w : world) :
  all_members gid' (set_birthday gid mid b w) !! mid' =
    if decide (gid' = gid /\ mid' = mid) then Some b else all_members gid' w !! mid'.
Proof.
  rewrite <- (all_members_write_birthday gid mid gid' mid' b w). reflexivity.
Qed.

Lemma each_invariant {A : Type} (P : world -> Prop)
  (body : A -> world -> world * result unit) (xs : list A) (w : world) :
  (forall x w0, P w0 -> P (body x w0).1) ->
  P w -> P (each body xs w).1.
Proof.
  intros Hbody. revert w. induction xs as [|x xs IH]; intros w Hw; cbn [each]; [assumption|].
  specialize (Hbody x w Hw). destruct (body x w) as [w1 [[]|e]]; cbn [fst] in *; auto.
Qed.

Lemma zemigrate_import_keeps_store_ok (known : gset Z) (guilds : list (Z * ze_guild))
  (guild_dates : list (Z * list (Z * list (Z * option Z)))) (w : world) :
  store_ok MIN_BDAY_YEAR w ->
  store_ok MIN_BDAY_YEAR (zemigrate_import MIN_BDAY_YEAR known guilds guild_dates w).1.
Proof.
  intros Hok. unfold zemigrate_import.
  assert (store_ok MIN_BDAY_YEAR (each (import_guild known) guilds w).1) as H1.
  { apply each_invariant; [|assumption].
    intros g w0 H0. unfold import_guild. by destruct (decide _). }
  destruct (each (import_guild known) guilds w) as [w1 [[]|e]]; cbn [fst] in *;
    [|assumption].
  assert (store_ok MIN_BDAY_YEAR (each (import_guild_dates MIN_BDAY_YEAR) guild_dates w1).1)
    as H2.
  { apply each_invariant; [|assumption].
    intros g w0 H0. unfold import_guild_dates.
    apply each_invariant; [|assumption].
    intros d w2 Hw2. unfold import_day.
    apply each_invariant; [|assumption].
    intros u w3 Hw3. unfold import_user.
    destruct (migrate_record MIN_BDAY_YEAR d.1 u.2) as [bd|] eqn:Hm; [|assumption].
    cbn [fst]. intros gid' mid' bd'. rewrite all_members_set_birthday.
    destruct (decide _); [|apply Hw3].
    intros [= <-]. exact (migrate_record_ok _ _ _ Hm). }
  destruct (each _ guild_dates w1) as [w2 [[]|e]]; cbn [fst] in *; assumption.
Qed.


End MigrateProps.

(** X19. The import of [zemigrate] keeps the member store well formed,
    like [set] and [force]: every record it writes is a date whose year,
    when present, is at least [MIN_BDAY_YEAR] (smaller or missing years
    are stored as no year), also when the import stops at an exception. *)
Theorem zemigrate_keeps_store_ok
  (MIN_BDAY_YEAR : Z) (known : gset Z) (guilds : list (Z * ze_guild))
  (guild_dates : list (Z * list (Z * list (Z * option Z)))) (w : world) :
  store_ok MIN_BDAY_YEAR w ->
  store_ok MIN_BDAY_YEAR (zemigrate_import MIN_BDAY_YEAR known guilds guild_dates w).1.
Proof. apply zemigrate_import_keeps_store_ok. Qed.


Lemma zemigrate_keeps_store_ok_witness :
  let w := (zemigrate_import 1900 {[1]} [(1, mkze (Some 10) None); (2, mkze None None)]
              [(1, [(45, [(5, Some 2001); (6, None); (7, Some 1800)]);
                    (365, [(8, Some 20000)])])]
              (mkworld ∅ ∅ [])).1 in
  all_members 1 w = {[5 := mkbday (Some 2001) 2 14; 6 := mkbday None 2 14;
                      7 := mkbday None 2 14; 8 := mkbday None 12 31]} /\
  store_ok 1900 w.
Proof.
  cbv zeta. split; [by vm_compute|].
  apply (zemigrate_keeps_store_ok 1900 {[1]} [(1, mkze (Some 10) None); (2, mkze None None)]
           [(1, [(45, [(5, Some 2001); (6, None); (7, Some 1800)]);
                 (365, [(8, Some 20000)])])]
           (mkworld ∅ ∅ [])).
  intros gid mid bd H. unfold all_members in H. cbn in H.
  rewrite lookup_empty in H. cbn in H. by rewrite lookup_empty in H.
Defined.


(** ** The dialogues *)

Import BirthdayDialogue.




Section InteractiveProps.
Variable MAX_BDAY_MSG_LEN : Z.
Variable time_parser : string -> option datetime.
Variable warning : string -> string.

(** X22. [time_check] accepts a message exactly when its content parses as
    a time: because of the chained comparison, neither the author nor the
    channel of the message plays any part, so the reply of anyone,
    anywhere, answers the question about the time. *)
Theorem time_check_ignores_author_and_channel
  (ctx_author ctx_channel : Z) (m : message) :
  time_check time_parser ctx_author ctx_channel m = true <->
  exists parsed, time_parser (m_content m) = Some parsed.
Proof.
  unfold time_check, channel_is_False. rewrite !andb_false_r.
  destruct (time_parser (m_content m)) as [p|]; split; eauto.
  - discriminate.
  - intros [? ?]. discriminate.
Qed.

Lemma dw_dsend (s : string) (d : dialogue) : dw (dsend s d) = send s (dw d).
Proof. reflexivity. Qed.

Lemma dw_on_last (e : message_effect) (d : dialogue) : dw (on_last e d) = dw d.
Proof. reflexivity. Qed.

(** X23. [interactive] writes the settings only at the very end of a
    complete dialogue. Either the tick was given, both templates arrived
    and are at most [MAX_BDAY_MSG_LEN] long, a channel, a role and a time
    arrived and the time parses: then the command returns and the guild's
    settings are exactly the five answers (the time as the second of the
    day) with [setup_state = 5]. Or both stores are unchanged. *)
Theorem interactive_stores_only_when_complete
  (ctx : context) (clean_prefix : string) (manage_roles : bool) (now : datetime)
  (a : answers) (d : dialogue) :
  let r := interactive MAX_BDAY_MSG_LEN time_parser warning ctx clean_prefix manage_roles
                       now a d in
  member_store (dw r.1) = member_store (dw d) /\
  ((exists m1 m2 ch can_send ro above content parsed,
      a_ready a = Some true /\
      a_msg_w_year a = Some m1 /\ Z.of_nat (String.length m1) <= MAX_BDAY_MSG_LEN /\
      a_msg_wo_year a = Some m2 /\ Z.of_nat (String.length m2) <= MAX_BDAY_MSG_LEN /\
      a_channel a = Some (ch, can_send) /\ a_role a = Some (ro, above) /\
      a_time a = Some content /\ time_parser content = Some parsed /\
      r.2 = Done tt /\
      guild_all (guild_id (ctx_guild ctx)) (dw r.1) =
        mkconf (Some (interactive_time_utc_s now parsed)) (Some m1) (Some m2)
               (Some ch) (Some ro) 5) \/
   guild_store (dw r.1) = guild_store (dw d)).
Proof.
  cbv zeta. unfold interactive.
  destruct (a_ready a) as [[|]|]; [|split; [|right]; reflexivity..].
  destruct (a_msg_w_year a) as [m1|]; [|split; [|right]; reflexivity].
  destruct (MAX_BDAY_MSG_LEN <? Z.of_nat (String.length m1)) eqn:H1;
    [split; [|right]; reflexivity|].
  destruct (a_msg_wo_year a) as [m2|]; [|split; [|right]; reflexivity].
  destruct (MAX_BDAY_MSG_LEN <? Z.of_nat (String.length m2)) eqn:H2;
    [split; [|right]; reflexivity|].
  destruct (a_channel a) as [[ch can_send]|]; [|split; [|right]; reflexivity].
  destruct (a_role a) as [[ro above]|];
    [|destruct can_send; (split; [|right]); reflexivity].
  destruct (a_time a) as [content|];
    [|destruct can_send, above, manage_roles; (split; [|right]); reflexivity].
  destruct (time_parser content) as [parsed|] eqn:Hp;
    [|destruct can_send, above, manage_roles; (split; [|right]); reflexivity].
  apply Z.ltb_ge in H1, H2.
  split; [by destruct can_send, above, manage_roles|].
  left. exists m1, m2, ch, can_send, ro, above, content, parsed.
  repeat split; try assumption.
  cbn [fst dw]. unfold interactive_finish. cbn [fst]. unfold send.
  by rewrite guild_all_log, guild_all_write_guild.
Qed.

(** X24. How [interactive] ends when an answer does not arrive. A timeout
    on the reaction or on one of the two templates, a cross, or a template
    that is too long ends the command normally. Once both templates are
    in, a timeout on the channel ends in [AttributeError], on the role in
    [TypeError] and on the time in [UnboundLocalError]. *)
Theorem interactive_timeouts
  (ctx : context) (clean_prefix : string) (manage_roles : bool) (now : datetime)
  (a : answers) (d : dialogue) :
  let r := (interactive MAX_BDAY_MSG_LEN time_parser warning ctx clean_prefix manage_roles
                        now a d).2 in
  (a_ready a <> Some true -> r = Done tt) /\
  (a_ready a = Some true ->
   (a_msg_w_year a = None -> r = Done tt) /\
   forall m1, a_msg_w_year a = Some m1 ->
     (MAX_BDAY_MSG_LEN < Z.of_nat (String.length m1) -> r = Done tt) /\
     (Z.of_nat (String.length m1) <= MAX_BDAY_MSG_LEN ->
      (a_msg_wo_year a = None -> r = Done tt) /\
      forall m2, a_msg_wo_year a = Some m2 ->
        (MAX_BDAY_MSG_LEN < Z.of_nat (String.length m2) -> r = Done tt) /\
        (Z.of_nat (String.length m2) <= MAX_BDAY_MSG_LEN ->
         (a_channel a = None -> r = Failed AttributeError) /\
         (a_channel a <> None -> a_role a = None -> r = Failed TypeError) /\
         (a_channel a <> None -> a_role a <> None -> a_time a = None ->
          r = Failed UnboundLocalError)))).
Proof.
  cbv zeta. unfold interactive.
  destruct (a_ready a) as [[|]|]; (split; [try (intros; reflexivity); congruence|]);
    try discriminate.
  intros _. destruct (a_msg_w_year a) as [m1|]; (split; [try reflexivity; discriminate|]);
    [|discriminate].
  intros ? [= <-]. destruct (MAX_BDAY_MSG_LEN <? _) eqn:H1.
  { apply Z.ltb_lt in H1. split; [reflexivity | lia]. }
  apply Z.ltb_ge in H1. split; [lia|]. intros _.
  destruct (a_msg_wo_year a) as [m2|]; (split; [try reflexivity; discriminate|]);
    [|discriminate].
  intros ? [= <-]. destruct (MAX_BDAY_MSG_LEN <? Z.of_nat (String.length m2)) eqn:H2.
  { apply Z.ltb_lt in H2. split; [reflexivity | lia]. }
  apply Z.ltb_ge in H2. split; [lia|]. intros _.
  destruct (a_channel a) as [[ch can_send]|].
  2:{ split; [reflexivity|]. split; congruence. }
  split; [discriminate|].
  destruct (a_role a) as [[ro above]|].
  2:{ split; [reflexivity | congruence]. }
  split; [discriminate|]. intros _ _.
  destruct (a_time a) as [content|]; [discriminate|]. reflexivity.
Qed.

End InteractiveProps.

Lemma interactive_stores_only_when_complete_witness :
  let parser := fun s : string =>
                  if String.eqb s "7:00" then Some (mkdt 2024 5 17 7 0 0 0) else None in
  let a := mkanswers (Some true) (Some "{mention} is {new_age}") (Some "Happy birthday")
                     (Some (10, true)) (Some (11, false)) (Some "7:00") in
  let r := interactive 750 parser (fun s => s) (mkctx (mkguild 1 {[5]}) 5 0) "!" true
                       (mkdt 2024 5 17 18 45 12 0) a (mkdialogue (mkworld ∅ ∅ []) []) in
  r.2 = Done tt /\
  guild_all 1 (dw r.1) =
    mkconf (Some 25200) (Some "{mention} is {new_age}") (Some "Happy birthday")
           (Some 10) (Some 11) 5.
Proof.
  cbv zeta.
  destruct (interactive_stores_only_when_complete 750
              (fun s : string =>
                 if String.eqb s "7:00" then Some (mkdt 2024 5 17 7 0 0 0) else None)
              (fun s => s) (mkctx (mkguild 1 {[5]}) 5 0) "!" true
              (mkdt 2024 5 17 18 45 12 0)
              (mkanswers (Some true) (Some "{mention} is {new_age}") (Some "Happy birthday")
                         (Some (10, true)) (Some (11, false)) (Some "7:00"))
              (mkdialogue (mkworld ∅ ∅ []) []))
    as [_ [(m1 & m2 & ch & cs & ro & ab & c & p & _ & _ & _ & _ & _ & _ & _ & _ & _ & Hr & _)|Hs]].
  - split; [exact Hr | by vm_compute].
  - split; by vm_compute.
Defined.

Lemma interactive_timeouts_witness :
  let a := mkanswers (Some true) (Some "{mention} is {new_age}") (Some "Happy birthday")
                     (Some (10, true)) None None in
  (interactive 750 (fun _ => None) (fun s => s) (mkctx (mkguild 1 {[5]}) 5 0) "!" true
               (mkdt 2024 5 17 18 45 12 0) a (mkdialogue (mkworld ∅ ∅ []) [])).2
    = Failed TypeError.
Proof.
  cbv zeta.
  pose proof (interactive_timeouts 750 (fun _ => None) (fun s => s)
                (mkctx (mkguild 1 {[5]}) 5 0) "!" true (mkdt 2024 5 17 18 45 12 0)
                (mkanswers (Some true) (Some "{mention} is {new_age}")
                           (Some "Happy birthday") (Some (10, true)) None None)
                (mkdialogue (mkworld ∅ ∅ []) [])) as [_ H].
  destruct (H eq_refl) as [_ H1].
  destruct (H1 _ eq_refl) as [_ H2].
  destruct (H2 ltac:(by vm_compute)) as [_ H3].
  destruct (H3 _ eq_refl) as [_ H4].
  destruct (H4 ltac:(by vm_compute)) as (_ & H5 & _).
  apply H5; [discriminate | reflexivity].
Defined.

(** ** The model of ordinals, checked against the calendar *)

Example ord2ymd_known_days :
  _ord2ymd 1 = (1, 1, 1) /\ _ord2ymd 719163 = (1970, 1, 1) /\
  _ord2ymd 738945 = (2024, 2, 29) /\ _ord2ymd 3652059 = (9999, 12, 31) /\
  fromordinal 0 = Failed (Exn ValueError) /\
  fromordinal 3652060 = Failed (Exn ValueError) /\
  fromordinal (2 ^ 31 - 1) = Failed (Exn ValueError) /\
  fromordinal (2 ^ 31) = Failed OverflowError /\
  fromordinal (- 2 ^ 31 - 1) = Failed OverflowError.
Proof. repeat split; reflexivity. Qed.

Example ord2ymd_round_trip_first_years :
  forallb (fun n => let '(y, m, d) := _ord2ymd n in
                    (_ymd2ord y m d =? n) && _check_date_fields y m d)
          (seqZ 1 1830) = true.
Proof. by vm_compute. Qed.

(** ** The stored time and the frame of the setters *)

(** X25. For every valid parsed time, [interactive] stores the second of
    the day of that time, [hour * 3600 + minute * 60 + second]: an integer
    in [0, 86400) in which the minutes and the seconds of the answer
    count and only the microseconds are dropped. *)
Theorem interactive_stores_second_of_day
  (ctx : context) (clean_prefix : string) (now parsed : datetime) (m1 m2 : string)
  (ch r : Z) (w : world) :
  valid parsed = true ->
  let t := hour parsed * 3600 + minute parsed * 60 + second parsed in
  time_utc_s (guild_all (guild_id (ctx_guild ctx))
                (interactive_finish ctx clean_prefix now parsed m1 m2 ch r w).1) = Some t /\
  0 <= t < 86400.
Proof.
  intros Hv. cbv zeta. split.
  - unfold interactive_finish. cbn [fst]. unfold send.
    rewrite guild_all_log, guild_all_write_guild. cbn [time_utc_s].
    by rewrite (interactive_time_utc_s_value _ _ Hv).
  - rewrite <- (interactive_time_utc_s_value now _ Hv).
    by apply interactive_time_utc_s_range.
Qed.

Lemma interactive_stores_second_of_day_witness :
  time_utc_s (guild_all 1 (interactive_finish (mkctx (mkguild 1 {[5]}) 5 0) "!"
                             (mkdt 2024 5 17 18 45 12 0) (mkdt 2024 5 17 23 59 59 999999)
                             "a" "b" 10 11 (mkworld ∅ ∅ [])).1) = Some 86399 /\
  0 <= 86399 < 86400.
Proof.
  apply (interactive_stores_second_of_day (mkctx (mkguild 1 {[5]}) 5 0) "!"
           (mkdt 2024 5 17 18 45 12 0) (mkdt 2024 5 17 23 59 59 999999) "a" "b" 10 11
           (mkworld ∅ ∅ [])).
  reflexivity.
Defined.

(** X26. The frame of the five setting commands. A call of [bdset time],
    [msgwithyear], [msgwithoutyear], [channel] or [role] never touches the
    birthdays, leaves the settings of every other guild as they are, and in
    its own guild changes its own setting only (with [setup_state]): the
    four other settings keep their values. *)
Theorem setters_frame
  (MAX_BDAY_MSG_LEN : Z) (format_bday_message : string -> Z -> option Z -> outcome string)
  (ctx : context) (w : world) (s : setter) :
  let w' := run_setter MAX_BDAY_MSG_LEN format_bday_message ctx w s in
  let c := guild_all (guild_id (ctx_guild ctx)) w in
  let c' := guild_all (guild_id (ctx_guild ctx)) w' in
  member_store w' = member_store w /\
  (forall gid', gid' <> guild_id (ctx_guild ctx) -> guild_all gid' w' = guild_all gid' w) /\
  (is_time s = false -> time_utc_s c' = time_utc_s c) /\
  (is_msg_with_year s = false -> message_w_year c' = message_w_year c) /\
  (is_msg_without_year s = false -> message_wo_year c' = message_wo_year c) /\
  (is_channel s = false -> channel_id c' = channel_id c) /\
  (is_role s = false -> role_id c' = role_id c).
Proof.
  cbv zeta. split; [|split].
  - destruct s as [now time|m|m|ch|r name]; cbn [run_setter]; try reflexivity.
    + unfold msgwithyear. by destruct (format_bday_message _ _ _), (_ <? _).
    + unfold msgwithoutyear. by destruct (format_bday_message _ _ _), (_ <? _).
  - intros gid' Hne.
    destruct (guild_all_after_setters MAX_BDAY_MSG_LEN format_bday_message ctx gid' w)
      as (Ht & Hmw & Hmwo & Hch & Hr).
    destruct s as [now time|m|m|ch|r name]; cbn [run_setter].
    + rewrite Ht. by rewrite decide_False.
    + rewrite Hmw. by rewrite decide_False.
    + rewrite Hmwo. by rewrite decide_False.
    + rewrite Hch. by rewrite decide_False.
    + rewrite (Hr r name). by rewrite decide_False.
  - rewrite guild_all_run_setter.
    destruct s; cbn; repeat split; intros; try discriminate; reflexivity.
Qed.

Lemma setters_frame_witness :
  let fmt := fun (m : string) (_ : Z) (_ : option Z) => Ret m in
  let ctx := mkctx (mkguild 1 {[5]}) 5 0 in
  let w := mkworld ∅ {[1 := mkconf (Some 0) None (Some "old") (Some 10) None 3]} [] in
  channel_id (guild_all 1 (run_setter 750 fmt ctx w (SetMsgWithYear "new"))) = Some 10.
Proof.
  cbv zeta.
  destruct (setters_frame 750 (fun (m : string) (_ : Z) (_ : option Z) => Ret m)
              (mkctx (mkguild 1 {[5]}) 5 0)
              (mkworld ∅ {[1 := mkconf (Some 0) None (Some "old") (Some 10) None 3]} [])
              (SetMsgWithYear "new")) as (_ & _ & _ & _ & _ & Hch & _).
  exact (Hch eq_refl).
Defined.
